(** * The Jupyter analyzer (analyzers/Jupyter/jupyter.py)

    A shallow embedding of the [Jupyter] analyzer class: the endpoint
    configuration ([initialize_path], [get_conf]), the JupyterHub server
    life cycle ([event_stream], [start_server], [stop_server]), the remote
    execution of notebooks over a kernel websocket
    ([execute_notebook_remotely]), the driver ([run]) and the summary of a
    report ([summary]).

    Python values are decoded JSON documents plus the papermill handler
    classes; dictionaries are association lists in insertion order.  Every
    method runs in a state-and-exception monad over a [world] that holds
    what the network will answer and the trace of what the analyzer did.

    What the model takes from outside the file:
    - the libraries (papermill, nbformat, tornado, uuid, json, datetime, the
      HTML exporter) are the variables of the section [Collaborators]; a
      call into them returns a value or raises;
    - [self.error] of cortexutils reports the failure and leaves the
      process, [self.getParam] walks the job document and
      [self.build_taxonomy] builds the dictionary of a taxonomy as
      cortexutils does;
    - the unbounded loops ([while 1] on the websocket, [while True] on the
      user model) recurse on the answers the world still holds, and are
      [Starved] when it holds no more. *)

From Stdlib Require Import String Ascii List ZArith Bool Lia PrimFloat.
From Stdlib Require FloatOps SpecFloat.
Import ListNotations.
Local Open Scope string_scope.
Local Open Scope list_scope.

(* ------------------------------------------------------------------ *)
(** ** Python values *)

(** The classes papermill's registry resolves a path to.  The analyzer only
    ever asks whether the class [is HttpHandler]. *)
Inductive handler : Type :=
| HttpHandler
| NonHttpHandler (name : string).

#[warnings="-register-all"]
Inductive value : Type :=
| VNone
| VBool (b : bool)
| VInt (z : Z)
| VFloat (f : float)
| VStr (s : string)
| VList (items : list value)
| VDict (entries : list (string * value))
| VClass (h : handler).

(** Exceptions.  [AnalyzerError] is [self.error(message)] of cortexutils,
    which writes the failure report and leaves the process
    ([sys.exit(1)]): nothing after it runs. *)
Inductive exn : Type :=
| KeyError (key : string)
| TypeError
| AttributeError
| IndexError
| ValueError (message : string)
| AnalyzerError (message : string)
| CollaboratorError (what : string).

Inductive result (A : Type) : Type :=
| Ok (a : A)
| Raise (e : exn).
Arguments Ok {A} a.
Arguments Raise {A} e.

Definition rbind {A B : Type} (c : result A) (k : A -> result B) : result B :=
  match c with
  | Ok a => k a
  | Raise e => Raise e
  end.

Declare Scope py_scope.
Delimit Scope py_scope with py.
Notation "x <~ c ;; k" := (rbind c (fun x => k))
  (at level 61, c at next level, right associativity) : py_scope.
Local Open Scope py_scope.

(** *** Dictionaries *)

Fixpoint lookup (k : string) (d : list (string * value)) : option value :=
  match d with
  | [] => None
  | (k', v) :: d' => if (k' =? k)%string then Some v else lookup k d'
  end.

(** [d[k] = v] on a dict: the key keeps its place when present, and is
    appended otherwise. *)
Fixpoint dict_set (k : string) (v : value) (d : list (string * value))
  : list (string * value) :=
  match d with
  | [] => [(k, v)]
  | (k', v') :: d' =>
      if (k' =? k)%string then (k', v) :: d' else (k', v') :: dict_set k v d'
  end.

Fixpoint is_substring (needle hay : string) : bool :=
  prefix needle hay
  || match hay with
     | EmptyString => false
     | String _ hay' => is_substring needle hay'
     end.

(** [v == s] for a str [s]. *)
Definition eq_str (v : value) (s : string) : bool :=
  match v with
  | VStr t => (t =? s)%string
  | _ => false
  end.

(** Truth value of a decoded JSON value ([if v:], [not v]). *)
Definition truthy (v : value) : bool :=
  match v with
  | VNone => false
  | VBool b => b
  | VInt z => negb (z =? 0)%Z
  | VFloat f => negb (PrimFloat.eqb f PrimFloat.zero)
  | VStr s => negb (s =? "")%string
  | VList items => match items with [] => false | _ :: _ => true end
  | VDict entries => match entries with [] => false | _ :: _ => true end
  | VClass _ => true
  end.

(** [v[k]] for a str key [k]. *)
Definition getitem (v : value) (k : string) : result value :=
  match v with
  | VDict d =>
      match lookup k d with
      | Some x => Ok x
      | None => Raise (KeyError k)
      end
  | _ => Raise TypeError
  end.

(** [v[k] = x] for a str key [k]. *)
Definition setitem (v : value) (k : string) (x : value) : result value :=
  match v with
  | VDict d => Ok (VDict (dict_set k x d))
  | _ => Raise TypeError
  end.

(** [v.get(k, default)]: only dicts have the method. *)
Definition dict_get (v : value) (k : string) (default : value) : result value :=
  match v with
  | VDict d =>
      match lookup k d with
      | Some x => Ok x
      | None => Ok default
      end
  | _ => Raise AttributeError
  end.

(** [k in v] for a str [k]: a key of a dict, an element of a list, a
    substring of a str; the other values are not iterable. *)
Definition contains (k : string) (v : value) : result bool :=
  match v with
  | VDict d => Ok (match lookup k d with Some _ => true | None => false end)
  | VList items => Ok (existsb (fun x => eq_str x k) items)
  | VStr s => Ok (is_substring k s)
  | _ => Raise TypeError
  end.

(** [a + b] inside a chain of string concatenations.  Each such chain in
    the analyzer contains a str literal, so an operand that is not a str
    ends the chain in a [TypeError] whatever its type. *)
Definition concat (a b : value) : result value :=
  match a, b with
  | VStr x, VStr y => Ok (VStr (x ++ y))
  | _, _ => Raise TypeError
  end.

(** [v[1:]]. *)
Definition tail1 (v : value) : result value :=
  match v with
  | VStr EmptyString => Ok (VStr "")
  | VStr (String _ s) => Ok (VStr s)
  | VList items => Ok (VList (List.tl items))
  | _ => Raise TypeError
  end.

(** [iter(v)] for the values a [for] loop walks over. *)
Definition iterate (v : value) : result (list value) :=
  match v with
  | VList items => Ok items
  | VDict d => Ok (map (fun kv => VStr (fst kv)) d)
  | VStr s => Ok (map (fun c => VStr (String c "")) (list_ascii_of_string s))
  | _ => Raise TypeError
  end.

(** [s.rstrip("/")]. *)
Fixpoint rstrip_slash (s : string) : string :=
  match s with
  | EmptyString => EmptyString
  | String c s' =>
      match rstrip_slash s' with
      | EmptyString => if (c =? "/")%char then EmptyString else String c EmptyString
      | t => String c t
      end
  end.

(** *** Strings *)

(** [s.replace(old, new)]: the occurrences of [old] are found from the left
    and do not overlap.  [skip] counts the characters of an occurrence
    still to be passed over. *)
Fixpoint replace_from (old new : string) (skip : nat) (s : string) : string :=
  match s with
  | EmptyString => EmptyString
  | String c s' =>
      match skip with
      | S k => replace_from old new k s'
      | O =>
          if prefix old (String c s')
          then new ++ replace_from old new (String.length old - 1) s'
          else String c (replace_from old new 0 s')
      end
  end.

(** With an empty [old], [new] goes before every character and at the end. *)
Fixpoint intersperse (new s : string) : string :=
  new ++ match s with
         | EmptyString => EmptyString
         | String c s' => String c (intersperse new s')
         end.

Definition replace (old new s : string) : string :=
  match old with
  | EmptyString => intersperse new s
  | String _ _ => replace_from old new 0 s
  end.

(** [line.split(':', 1)[1]]. *)
Fixpoint after_colon (line : string) : result string :=
  match line with
  | EmptyString => Raise IndexError
  | String c line' => if (c =? ":")%char then Ok line' else after_colon line'
  end.

(** A library call that needs a str. *)
Definition as_str (v : value) : result string :=
  match v with
  | VStr s => Ok s
  | _ => Raise TypeError
  end.

(** An expression [p0 + p1 + ... + pn], evaluated from the left. *)
Definition chain (parts : list (result value)) : result value :=
  match parts with
  | [] => Ok (VStr "")
  | p :: ps =>
      fold_left (fun acc x => a <~ acc ;; b <~ x ;; concat a b) ps p
  end.

(* ------------------------------------------------------------------ *)
(** ** The world and the analyzer monad *)

(** What the analyzer does to the outside, in the order it does it. *)
Inductive event : Type :=
| Requested (method : string) (url : string) (headers : value)
| StreamOpened (url : string) (headers : value)
| Yielded (item : result value)
| Slept (seconds : Z)
| Connected (url : string) (headers : value)
| Sent (message : value)
| Received (frame : result value)
| Closed
| Loaded (url : string)
| Written (notebook : value) (path : string)
| ExecutedLocally (input_path output_path : string)
| Reported (payload : value).

(** What the outside will answer: the bodies ([r.json()], or the exception
    the call raises) of the HTTP requests still to come, the line content of
    the streaming GETs still to come, and the frames the kernel websocket
    will deliver, each already through [json_decode] (a frame that does not
    decode, or the [None] of a closed socket, is the exception it raises).
    [uuids_drawn] counts the calls of [uuid4]; [channel_open] is the state
    of the websocket [ws]. *)
Record world : Type := mkWorld {
  http_replies : list (result value);
  streams : list (list string);
  inbox : list (result value);
  uuids_drawn : nat;
  channel_open : bool;
  trace : list event
}.

Definition log (e : event) (w : world) : world :=
  mkWorld (http_replies w) (streams w) (inbox w) (uuids_drawn w)
          (channel_open w) (trace w ++ [e]).

Definition with_http (l : list (result value)) (w : world) : world :=
  mkWorld l (streams w) (inbox w) (uuids_drawn w) (channel_open w) (trace w).

Definition with_streams (l : list (list string)) (w : world) : world :=
  mkWorld (http_replies w) l (inbox w) (uuids_drawn w) (channel_open w) (trace w).

Definition with_inbox (l : list (result value)) (w : world) : world :=
  mkWorld (http_replies w) (streams w) l (uuids_drawn w) (channel_open w) (trace w).

Definition with_uuids (n : nat) (w : world) : world :=
  mkWorld (http_replies w) (streams w) (inbox w) n (channel_open w) (trace w).

Definition with_channel (b : bool) (w : world) : world :=
  mkWorld (http_replies w) (streams w) (inbox w) (uuids_drawn w) b (trace w).

(** A method returns, raises, or is still waiting for an answer the world
    does not hold ([Starved]: the call blocks). *)
Inductive outcome (A : Type) : Type :=
| Return (a : A) (w : world)
| Throw (e : exn) (w : world)
| Starved (w : world).
Arguments Return {A} a w.
Arguments Throw {A} e w.
Arguments Starved {A} w.

Definition M (A : Type) : Type := world -> outcome A.

Definition ret {A : Type} (a : A) : M A := fun w => Return a w.

Definition bind {A B : Type} (c : M A) (k : A -> M B) : M B :=
  fun w =>
    match c w with
    | Return a w' => k a w'
    | Throw e w' => Throw e w'
    | Starved w' => Starved w'
    end.

Definition throw {A : Type} (e : exn) : M A := fun w => Throw e w.

Definition lift {A : Type} (r : result A) : M A :=
  match r with
  | Ok a => ret a
  | Raise e => throw e
  end.

Definition emit (e : event) : M unit := fun w => Return tt (log e w).

Notation "x <- c ;; k" := (bind c (fun x => k))
  (at level 61, c at next level, right associativity) : py_scope.
Notation "c ;;; k" := (bind c (fun _ => k))
  (at level 61, right associativity) : py_scope.

Definition final {A : Type} (o : outcome A) : world :=
  match o with
  | Return _ w => w
  | Throw _ w => w
  | Starved w => w
  end.

(** *** Primitives of the world *)

(** [requests.get(url, headers=h)] / [requests.post] / [client.fetch],
    followed by the decoding of the body. *)
Definition http_json (method url : string) (headers : value) : M value :=
  fun w =>
    let w1 := log (Requested method url headers) w in
    match http_replies w1 with
    | [] => Starved w1
    | Ok body :: rest => Return body (with_http rest w1)
    | Raise e :: rest => Throw e (with_http rest w1)
    end.

(** [requests.get(url, headers=h, stream=True)] and [r.iter_lines()], each
    line decoded as UTF-8. *)
Definition open_stream (url : string) (headers : value) : M (list string) :=
  fun w =>
    let w1 := log (StreamOpened url headers) w in
    match streams w1 with
    | [] => Starved w1
    | lines :: rest => Return lines (with_streams rest w1)
    end.

(** [time.sleep(n)]. *)
Definition sleep (n : Z) : M unit := emit (Slept n).

(** [ws.write_message(json_encode(message))]. *)
Definition ws_write (message : value) : M unit :=
  fun w =>
    if channel_open w then Return tt (log (Sent message) w)
    else Throw (CollaboratorError "WebSocketClosedError") w.

(** [json_decode(yield ws.read_message())]. *)
Definition ws_read : M value :=
  fun w =>
    match inbox w with
    | [] => Starved w
    | frame :: rest =>
        let w1 := log (Received frame) (with_inbox rest w) in
        match frame with
        | Ok msg => Return msg w1
        | Raise e => Throw e w1
        end
    end.

(** [ws.close()]. *)
Definition ws_close : M unit :=
  fun w => Return tt (log Closed (with_channel false w)).

(* ------------------------------------------------------------------ *)
(** ** The analyzer *)

(** What [Analyzer.__init__] leaves in the object before the class's own
    [__init__] runs: the job document [self._input] and the observable's
    type [self.data_type]. *)
Record base : Type := mkBase {
  _input : value;
  data_type : value
}.

(** The object once [__init__] has run. *)
Record analyzer : Type := mkAnalyzer {
  self_base : base;
  input_configuration : value;
  input_paths : value;
  input_execute_remotely : value;
  output_configuration : value;
  output_folder : value;
  any_only_html : value
}.

(** [self.getParam(name, default, message)] of cortexutils: walks the dotted
    [name] (given split at its dots) through [self._input]; a missing or
    null component yields [default], or [self.error(message)] when a
    message is given. *)
Fixpoint get_param (source : value) (name : list string) (default : value)
    (message : option string) : result value :=
  match name with
  | [] => Ok source
  | n :: name' =>
      new_source <~ dict_get source n VNone ;;
      match new_source with
      | VNone =>
          match message with
          | Some m => Raise (AnalyzerError m)
          | None => Ok default
          end
      | _ => get_param new_source name' default message
      end
  end.

Definition getParam (b : base) (name : list string) (default : value)
    (message : option string) : result value :=
  get_param (_input b) name default message.

(** [get_conf(self, type, name)]. *)
Definition get_conf (self : analyzer) (type name : string) : result value :=
  if (type =? "input")%string then getitem (input_configuration self) name
  else if (type =? "output")%string then getitem (output_configuration self) name
  else Ok VNone.

Definition is_http_handler (v : value) : bool :=
  match v with
  | VClass HttpHandler => true
  | _ => false
  end.

Definition is_true (v : value) : bool :=
  match v with
  | VBool true => true
  | _ => false
  end.

(* ------------------------------------------------------------------ *)
(** ** A concrete setting

    Stand-ins for the libraries of the next section and a small job, on
    which the model is run. *)

Module Sample.

Definition repr (v : value) : string :=
  match v with
  | VNone => "None"
  | VBool true => "True"
  | VBool false => "False"
  | VDict _ => "{...}"
  | VList _ => "[...]"
  | _ => "?"
  end.

(** A [repr] that shows the content of a message. *)
Definition printed (v : value) : string :=
  match v with
  | VDict d =>
      match lookup "content" d with
      | Some (VStr text) => "{.., 'content': '" ++ text ++ "'}"
      | _ => "{...}"
      end
  | _ => repr v
  end.

Definition handler_of (path : value) : result handler :=
  match path with
  | VStr s =>
      if prefix "http://" s || prefix "https://" s then Ok HttpHandler
      else Ok (NonHttpHandler "local")
  | VNone => Ok (NonHttpHandler "none")
  | _ => Raise AttributeError
  end.

(** Two progress events, and the two texts that stand for their JSON. *)
Definition spawning : list (string * value) :=
  [("progress", VInt 50); ("ready", VBool false)].

Definition ready : list (string * value) :=
  [("progress", VInt 100); ("ready", VBool true);
   ("url", VStr "/user/alice/cortex_job/")].

Definition loads (text : string) : result value :=
  if (text =? " spawning")%string then Ok (VDict spawning)
  else if (text =? " ready")%string then Ok (VDict ready)
  else Raise (ValueError "Expecting value").

(** The output keeps the message's content under its type. *)
Definition output_of (msg : value) : result value :=
  header <~ getitem msg "header" ;;
  msg_type <~ getitem header "msg_type" ;;
  content <~ getitem msg "content" ;;
  Ok (VDict [("output_type", msg_type); ("content", content)]).

Definition uuid (n : nat) : string :=
  match n with
  | 0 => "token-0"
  | 1 => "token-1"
  | 2 => "token-2"
  | _ => "token-n"
  end.

Definition escape (s : string) : string := s.

Definition connect (url : string) (headers : value) : result unit := Ok tt.

Definition code_cell (source : string) : value :=
  VDict [("cell_type", VStr "code"); ("source", VStr source);
         ("outputs", VList [])].

Definition text_cell (source : string) : value :=
  VDict [("cell_type", VStr "markdown"); ("source", VStr source)].

Definition load (url : string) : result value :=
  Ok (VDict [("cells", VList [text_cell "# Title"; code_cell "print(1)"]);
             ("metadata", VDict [])]).

Definition parameterize (nb params : value) : result value := Ok nb.

Definition write (nb : value) (path : string) : result unit := Ok tt.

(** An executed notebook: papermill records the two paths it was given. *)
Definition executed (input_path output_path : string) : value :=
  VDict [("cells", VList []);
         ("metadata", VDict [("papermill", VDict [
            ("input_path", VStr input_path);
            ("output_path", VStr output_path);
            ("duration", VInt 2)])])].

Definition execute (input_path output_path : string) (params : value)
  : result value :=
  Ok (executed input_path output_path).

Definition day : string := "2024-01-31".

Definition seconds (path : value) : value := VInt 1.

Definition round (v : value) : result value := Ok v.

Definition html (nb : value) : result value := Ok (VStr "<html/>").

(** A reply of the kernel to the request [parent]. *)
Definition reply (parent msg_type : string) (content : value) : value :=
  VDict [("header", VDict [("msg_id", VStr "k"); ("msg_type", VStr msg_type)]);
         ("msg_type", VStr msg_type);
         ("parent_header", VDict [("msg_id", VStr parent)]);
         ("content", content)].

(** The status message a kernel sends on its own: its parent header is
    empty. *)
Definition unsolicited (msg_type : string) : value :=
  VDict [("header", VDict [("msg_id", VStr "k"); ("msg_type", VStr msg_type)]);
         ("msg_type", VStr msg_type);
         ("parent_header", VDict []);
         ("content", VDict [("execution_state", VStr "starting")])].

Definition quiet : world := mkWorld [] [] [] 0 false [].

Definition listening (frames : list value) : world :=
  mkWorld [] [] (map Ok frames) 0 true [].

Definition job (config : list (string * value)) : base :=
  mkBase (VDict [("data", VStr "1.2.3.4");
                 ("dataType", VStr "ip");
                 ("parameters", VDict [("organisation", VStr "org");
                                       ("user", VStr "analyst")]);
                 ("config", VDict config)])
         (VStr "ip").

(** An endpoint as [initialize_path] builds it for a plain Jupyter server. *)
Definition endpoint (hostname token user : string) : value :=
  VDict [ ("hostname", VStr hostname);
          ("handler_type", VClass HttpHandler);
          ("handler_http_service_api_token", VStr token);
          ("handler_http_is_jupyterhub", VBool false);
          ("handler_http_headers", VDict [("Authorization", VStr ("token " ++ token))]);
          ("handler_http_user", VStr user);
          ("server", VNone);
          ("server_uri_http_api_contents", VStr (hostname ++ "api/contents"));
          ("server_uri_http_api_kernels", VStr (hostname ++ "api/kernels"));
          ("server_uri_ws_api_kernels",
           VStr (replace "http://" "ws://" (hostname ++ "api/kernels"))) ].

Definition self (input output remotely : value) : analyzer :=
  mkAnalyzer (job []) input (VList [VStr "/a.ipynb"]) remotely output
             (VStr "/out/") (VBool true).

(** An analyzer that reads from the server [in] as [input_user] and writes
    to the server [out]. *)
Definition between (input_user input_token output_token : string)
    (remotely : bool) : analyzer :=
  self (endpoint "http://in/" input_token input_user)
       (endpoint "http://out/" output_token "bob")
       (VBool remotely).

(** A notebook of one text cell and two code cells. *)
Definition cells : list value :=
  [text_cell "# Title"; code_cell "a = 1"; code_cell "print(a)"].

(** The user model of the hub while the server [cortex_job] is in the
    state [pending], and once the server is gone. *)
Definition user_model (pending : value) : value :=
  VDict [("name", VStr "alice");
         ("servers", VDict [("cortex_job",
            VDict [("pending", pending);
                   ("progress_url", VStr "/hub/api/users/alice/progress")])])].

Definition user_model_without_server : value :=
  VDict [("name", VStr "alice"); ("servers", VDict [])].

(** A hub that knows the server and streams [lines] as its progress. *)
Definition hub (lines : list string) : world :=
  mkWorld [Ok (user_model (VStr "spawn"))] [lines] [] 0 false [].

(** A Jupyter server that creates the kernel [k1] and then delivers
    [frames]. *)
Definition server (frames : list value) : world :=
  mkWorld [Ok (VDict [("id", VStr "k1")])] [] (map Ok frames) 0 false [].

End Sample.

(* ------------------------------------------------------------------ *)
(** ** The methods *)

Section Collaborators.

(** The libraries the analyzer calls into, as far as their results matter
    here. *)

(** [repr] of a value that is not a str; [str(v)] and the [{}] of an
    f-string are [py_str]. *)
Variable py_repr : value -> string.
(** [papermill_io.get_handler(path)]. *)
Variable get_handler : value -> result handler.
(** [json.loads]. *)
Variable json_loads : string -> result value.
(** [nbformat.v4.nbbase.output_from_msg]. *)
Variable output_from_msg : value -> result value.
(** [uuid4().hex] of the n-th call. *)
Variable uuid4_hex : nat -> string.
(** [tornado.escape.url_escape]. *)
Variable url_escape : string -> string.
(** [websocket_connect(request)]: whether the connection is established. *)
Variable websocket_connect : string -> value -> result unit.
(** [pm.iorw.load_notebook_node], [pm.parameterize.parameterize_notebook],
    [pm.iorw.write_ipynb] and [pm.execute_notebook]. *)
Variable load_notebook_node : string -> result value.
Variable parameterize_notebook : value -> value -> result value.
Variable write_ipynb : value -> string -> result unit.
Variable pm_execute_notebook : string -> string -> value -> result value.
(** [str(datetime.date.today())]; the date does not change during a run. *)
Variable today : string.
(** [round(time.time() - start_time, 3)] for the notebook at a path. *)
Variable elapsed : value -> value.
(** [round(x, 3)]. *)
Variable round3 : value -> result value.
(** [HTMLExporter(template_name='classic').from_notebook_node(nb)], its
    body. *)
Variable html_body : value -> result value.

Definition py_str (v : value) : string :=
  match v with
  | VStr s => s
  | _ => py_repr v
  end.

Definition fresh_uuid : M string :=
  fun w => Return (uuid4_hex (uuids_drawn w)) (with_uuids (S (uuids_drawn w)) w).

(** *** Kernel session: one cell *)

(** The [execute_request] of lines 286-305. *)
Definition execute_request (msg_id : string) (code : value) : value :=
  VDict [
    ("header", VDict [
       ("username", VStr "");
       ("version", VStr "5.4");
       ("session", VStr "");
       ("msg_id", VStr msg_id);
       ("msg_type", VStr "execute_request")]);
    ("parent_header", VDict []);
    ("channel", VStr "shell");
    ("content", VDict [
       ("code", code);
       ("silent", VBool false);
       ("store_history", VBool true);
       ("user_expressions", VDict []);
       ("allow_stdin", VBool false)]);
    ("metadata", VDict []);
    ("buffers", VDict [])].

Definition kernel_error_text (msg : value) : string :=
  "ERROR - Something went wrong during the code processing. Remote kernel returns: "
  ++ py_str msg.

(** The body of the [while 1] loop once a frame is decoded (lines 315-339):
    [Ok (Some cell')] is a [break] with the cell as it then is, [Ok None]
    goes round the loop again. *)
Definition on_message (msg_id : string) (cell msg : value)
  : result (option value) :=
  msg_type <~ getitem msg "msg_type" ;;
  parent_header <~ getitem msg "parent_header" ;;
  parent_msg_id <~ getitem parent_header "msg_id" ;;
  if eq_str parent_msg_id msg_id then
    if eq_str msg_type "error" then
      Raise (AnalyzerError (kernel_error_text msg))
    else if eq_str msg_type "execute_reply" then
      cell' <~ setitem cell "outputs" (VList []) ;;
      Ok (Some cell')
    else if eq_str msg_type "stream" then
      output <~ output_from_msg msg ;;
      cell' <~ setitem cell "outputs" (VList [output]) ;;
      Ok (Some cell')
    else if eq_str msg_type "display_data" then
      output <~ output_from_msg msg ;;
      cell' <~ setitem cell "outputs" (VList [output]) ;;
      Ok (Some cell')
    else Ok None
  else Ok None.

(** The [while 1] loop (lines 308-339), by recursion on the frames the
    socket still holds: each round reads one. *)
Fixpoint await_frames (msg_id : string) (cell : value)
    (frames : list (result value)) (w : world) : outcome value :=
  match frames with
  | [] => Starved w
  | frame :: rest =>
      let w1 := log (Received frame) (with_inbox rest w) in
      match frame with
      | Raise e => Throw e w1
      | Ok msg =>
          match on_message msg_id cell msg with
          | Raise e => Throw e w1
          | Ok (Some cell') => Return cell' w1
          | Ok None => await_frames msg_id cell rest w1
          end
      end
  end.

Definition await_reply (msg_id : string) (cell : value) : M value :=
  fun w => await_frames msg_id cell (inbox w) w.

(** One round of [for cell in iter(nb_output['cells'])] (lines 277-339). *)
Definition execute_cell (cell : value) : M value :=
  cell_type <- lift (getitem cell "cell_type") ;;
  if eq_str cell_type "code" then
    msg_id <- fresh_uuid ;;
    source <- lift (getitem cell "source") ;;
    ws_write (execute_request msg_id source) ;;;
    await_reply msg_id cell
  else ret cell.

Fixpoint execute_cells (cells : list value) : M (list value) :=
  match cells with
  | [] => ret []
  | cell :: cells' =>
      cell' <- execute_cell cell ;;
      rest <- execute_cells cells' ;;
      ret (cell' :: rest)
  end.

(** *** Kernel session: the notebooks of a run *)

(** [nb_output['cells']] after the loop over its cells: the cells of a list
    were updated in place; anything else the loop could walk without
    raising was empty. *)
Definition with_cells (nb cells_v : value) (cells' : list value) : result value :=
  match cells_v with
  | VList _ => setitem nb "cells" (VList cells')
  | _ => Ok nb
  end.

(** The [parameters] handed to papermill (lines 267-270 and 418-421). *)
Definition parameters (self : analyzer) : result value :=
  ps <~ getitem (_input (self_base self)) "parameters" ;;
  organisation <~ getitem ps "organisation" ;;
  ps' <~ getitem (_input (self_base self)) "parameters" ;;
  user <~ getitem ps' "user" ;;
  data <~ getParam (self_base self) ["data"] VNone (Some "Data is missing") ;;
  Ok (VDict [
    ("thehive_organisation", VStr (py_str organisation));
    ("thehive_user", VStr (py_str user));
    ("thehive_observable_type", VStr (py_str (data_type (self_base self))));
    ("thehive_observable_value", data)]).

(** The input notebook's location (lines 262 and 392). *)
Definition input_location (self : analyzer) (path : value) : result value :=
  chain [
    get_conf self "input" "server_uri_http_api_contents";
    Ok (VStr "/");
    Ok path;
    Ok (VStr "?token=");
    get_conf self "input" "handler_http_service_api_token"].

Definition dated_name (self : analyzer) (path : value) : list (result value) :=
  [ Ok (output_folder self);
    Ok (VStr today);
    Ok (VStr "-");
    getParam (self_base self) ["data"] VNone (Some "Data is missing");
    Ok (VStr "-");
    tail1 path ].

(** The output notebook's location, as the writer needs it and as a user
    browses to it (lines 346-351, and the same text at lines 397-402). *)
Definition output_locations (self : analyzer) (path : value)
  : result (value * value) :=
  handler_type <~ get_conf self "output" "handler_type" ;;
  if is_http_handler handler_type then
    output_path <~ chain (
      get_conf self "output" "server_uri_http_api_contents"
      :: dated_name self path
      ++ [ Ok (VStr "?token=");
           get_conf self "output" "handler_http_service_api_token" ]) ;;
    output_path_direct <~ chain (
      get_conf self "output" "hostname"
      :: Ok (VStr "/user/")
      :: get_conf self "input" "handler_http_user"
      :: Ok (VStr "/tree")
      :: dated_name self path) ;;
    Ok (output_path, output_path_direct)
  else
    output_path <~ chain (get_conf self "output" "hostname" :: dated_name self path) ;;
    Ok (output_path, output_path).

(** One round of [for path in iter(self.input_paths)] (lines 262-363). *)
Definition execute_path (self : analyzer) (path : value) : M value :=
  location <- lift (input_location self path) ;;
  url <- lift (as_str location) ;;
  emit (Loaded url) ;;;
  nb_input <- lift (load_notebook_node url) ;;
  params <- lift (parameters self) ;;
  nb_output <- lift (parameterize_notebook nb_input params) ;;
  cells_v <- lift (getitem nb_output "cells") ;;
  cells <- lift (iterate cells_v) ;;
  cells' <- execute_cells cells ;;
  nb1 <- lift (with_cells nb_output cells_v cells') ;;
  paths <- lift (output_locations self path) ;;
  output_path <- lift (as_str (fst paths)) ;;
  emit (Written nb1 output_path) ;;;
  lift (write_ipynb nb1 output_path) ;;;
  nb2 <- lift (setitem nb1 "duration" (elapsed path)) ;;
  nb3 <- lift (setitem nb2 "output_notebook" (snd paths)) ;;
  lift (setitem nb3 "name" path).

Fixpoint execute_paths (self : analyzer) (paths : list value) : M (list value) :=
  match paths with
  | [] => ret []
  | path :: paths' =>
      nb <- execute_path self path ;;
      rest <- execute_paths self paths' ;;
      ret (nb :: rest)
  end.

(** [websocket_connect(ws_req)]. *)
Definition ws_connect (url : string) (headers : value) : M unit :=
  fun w =>
    match websocket_connect url headers with
    | Ok _ => Return tt (log (Connected url headers) (with_channel true w))
    | Raise e => Throw e w
    end.

(** [execute_notebook_remotely(self)] (lines 227-368). *)
Definition execute_notebook_remotely (self : analyzer) : M (list value) :=
  kernels <- lift (get_conf self "input" "server_uri_http_api_kernels") ;;
  headers <- lift (get_conf self "input" "handler_http_headers") ;;
  kernels_url <- lift (as_str kernels) ;;
  body <- http_json "POST" kernels_url headers ;;
  kernel_id <- lift (getitem body "id") ;;
  ws_kernels <- lift (get_conf self "input" "server_uri_ws_api_kernels") ;;
  kernel_name <- lift (as_str kernel_id) ;;
  headers' <- lift (get_conf self "input" "handler_http_headers") ;;
  ws_connect (py_str ws_kernels ++ "/" ++ url_escape kernel_name ++ "/channels")
             headers' ;;;
  paths <- lift (iterate (input_paths self)) ;;
  results <- execute_paths self paths ;;
  ws_close ;;;
  ret results.

(** *** Server life cycle *)

(** [event_stream(self, url, headers)] (lines 156-167), from the lines of
    the response on: the events the generator yields, the last one being
    the exception that ends it when a marked line does not parse. *)
Fixpoint event_stream (lines : list string) : list (result value) :=
  match lines with
  | [] => []
  | line :: lines' =>
      if prefix "data:" line then
        match (text <~ after_colon line ;; json_loads text) with
        | Ok event => Ok event :: event_stream lines'
        | Raise e => [Raise e]
        end
      else event_stream lines'
  end.

(** The [for event in ...: ... else: raise] of lines 190-196: each item is
    pulled from the generator when the loop comes to it. *)
Fixpoint wait_ready (name : string) (events : list (result value)) : M value :=
  match events with
  | [] => throw (ValueError (name ++ " never started!"))
  | item :: events' =>
      emit (Yielded item) ;;;
      event <- lift item ;;
      ready <- lift (dict_get event "ready" VNone) ;;
      if truthy ready then lift (getitem event "url")
      else wait_ready name events'
  end.

(** [start_server], up to the opening of the progress stream
    (lines 175-190). *)
Definition progress_stream (hub_url user : value) (server_name : string)
    (headers : value) : M (list string) :=
  let user_url := (py_str hub_url ++ "/hub/api/users/" ++ py_str user)%string in
  user_model <- http_json "GET" user_url headers ;;
  servers <- lift (dict_get user_model "servers" (VDict [])) ;;
  active <- lift (contains server_name servers) ;;
  user_model <-
    (if active then ret user_model
     else
       http_json "POST" (user_url ++ "/servers/" ++ server_name) headers ;;;
       http_json "GET" user_url headers) ;;
  servers <- lift (getitem user_model "servers") ;;
  server <- lift (getitem servers server_name) ;;
  progress_url <- lift (getitem server "progress_url") ;;
  open_stream (py_str hub_url ++ py_str progress_url) headers.

Definition log_name (user : value) (server_name : string) : string :=
  rstrip_slash (py_str user ++ "/" ++ server_name).

(** [start_server(self, hub_url, user, server_name, headers)]
    (lines 170-200). *)
Definition start_server (hub_url user : value) (server_name : string)
    (headers : value) : M value :=
  lines <- progress_stream hub_url user server_name headers ;;
  server_url <- wait_ready (log_name user server_name) (event_stream lines) ;;
  ret (VStr (py_str hub_url ++ py_str server_url)).

(** What one poll of [stop_server] makes of the user model it fetched
    (lines 217-222): [true] returns, [false] sleeps and polls again. *)
Definition stopped (user_model : value) (server_name name : string)
  : result bool :=
  servers <~ dict_get user_model "servers" (VDict []) ;;
  present <~ contains server_name servers ;;
  if negb present then Ok true
  else
    servers' <~ getitem user_model "servers" ;;
    server <~ getitem servers' server_name ;;
    pending <~ getitem server "pending" ;;
    if negb (truthy pending) then
      Raise (ValueError ("Waiting for " ++ name ++ ", but no longer pending."))
    else Ok false.

(** The [while True] loop of [stop_server] (lines 215-224), by recursion on
    the answers still to come: each round takes one. *)
Fixpoint poll_stopped (self : analyzer) (user_url server_name name : string)
    (replies : list (result value)) (w : world) : outcome unit :=
  match get_conf self "input" "handler_http_headers" with
  | Raise e => Throw e w
  | Ok headers =>
      let w1 := log (Requested "GET" user_url headers) w in
      match replies with
      | [] => Starved w1
      | reply :: rest =>
          let w2 := with_http rest w1 in
          match reply with
          | Raise e => Throw e w2
          | Ok user_model =>
              match stopped user_model server_name name with
              | Raise e => Throw e w2
              | Ok true => Return tt w2
              | Ok false =>
                  poll_stopped self user_url server_name name rest
                               (log (Slept 1) w2)
              end
          end
      end
  end.

(** [stop_server(self, hub_url, user, server_name)] (lines 202-224). *)
Definition stop_server (self : analyzer) (hub_url user : value)
    (server_name : string) : M unit :=
  fun w =>
    let user_url := (py_str hub_url ++ "/hub/api/users/" ++ py_str user)%string in
    poll_stopped self user_url server_name (log_name user server_name)
                 (http_replies w) w.

(** *** Endpoint configuration *)

Definition no_token_text : string :=
  "[ERROR] You are using an HTTP handler but none service API token for input notebook was provided.".

Definition no_user_text : string :=
  "[ERROR] You are using an HTTP handler but none user was provided.".

(** The dictionary [result] of [initialize_path] as first built
    (lines 50-61). *)
Definition blank_conf (hostname : value) (h : handler)
    (handler_http_service_api_token handler_http_is_jupyterhub : value)
  : list (string * value) :=
  [ ("hostname", hostname);
    ("handler_type", VClass h);
    ("handler_http_service_api_token", handler_http_service_api_token);
    ("handler_http_is_jupyterhub", handler_http_is_jupyterhub);
    ("handler_http_headers", VNone);
    ("handler_http_user", VNone);
    ("server", VNone);
    ("server_uri_http_api_contents", VNone);
    ("server_uri_http_api_kernels", VNone);
    ("server_uri_ws_api_kernels", VNone) ].

Definition filled (v : value) : bool :=
  match v with
  | VNone => false
  | _ => negb (eq_str v "")
  end.

(** The three URIs derived from a server's base (lines 84-86, 89-91). *)
Definition with_uris (base_url : value) (conf : list (string * value))
  : result (list (string * value)) :=
  contents <~ concat base_url (VStr "api/contents") ;;
  kernels <~ concat base_url (VStr "api/kernels") ;;
  kernels_text <~ as_str kernels ;;
  Ok (dict_set "server_uri_ws_api_kernels"
        (VStr (replace "http://" "ws://" kernels_text))
        (dict_set "server_uri_http_api_kernels" kernels
           (dict_set "server_uri_http_api_contents" contents conf))).

(** [initialize_path(self, hostname, handler_http_service_api_token,
    handler_http_is_jupyterhub)] (lines 47-93).  The [return] sits inside
    the test on the handler type: any other handler falls off the end of
    the function, which returns [None]. *)
Definition initialize_path (b : base)
    (hostname handler_http_service_api_token handler_http_is_jupyterhub : value)
  : M value :=
  h <- lift (get_handler hostname) ;;
  let result := blank_conf hostname h handler_http_service_api_token
                           handler_http_is_jupyterhub in
  match h with
  | HttpHandler =>
      result <-
        (if filled handler_http_service_api_token then
           ret (dict_set "handler_http_headers"
                  (VDict [("Authorization",
                           VStr ("token " ++ py_str handler_http_service_api_token))])
                  result)
         else throw (AnalyzerError no_token_text)) ;;
      user <- lift (getParam b ["config"; "any_handler_http_user"] VNone
                      (Some "[HTTP Handler only] Service name parameter is missing.")) ;;
      result <-
        (if filled user then ret (dict_set "handler_http_user" user result)
         else throw (AnalyzerError no_user_text)) ;;
      result <-
        (if is_true handler_http_is_jupyterhub then
           user' <- lift (getitem (VDict result) "handler_http_user") ;;
           headers <- lift (getitem (VDict result) "handler_http_headers") ;;
           server <- start_server hostname user' "cortex_job" headers ;;
           lift (with_uris server (dict_set "server" server result))
         else lift (with_uris hostname result)) ;;
      ret (VDict result)
  | NonHttpHandler _ => ret VNone
  end.

(** [__init__(self)] (lines 22-44), after [Analyzer.__init__]. *)
Definition init (b : base) : M analyzer :=
  hostname <- lift (getParam b ["config"; "input_hostname"] VNone
    (Some "Hostname input parameter is missing.")) ;;
  token <- lift (getParam b ["config"; "input_handler_http_service_api_token"] VNone
    (Some "[HTTP Handler only] Service API token for input notebook parameter is missing.")) ;;
  hub <- lift (getParam b ["config"; "input_handler_http_is_jupyterhub"] VNone
    (Some "[HTTP Handler only] JupyterHub for input notebook boolean parameter is missing.")) ;;
  input_conf <- initialize_path b hostname token hub ;;
  paths <- lift (getParam b ["config"; "input_paths"] VNone
    (Some "You must provide the list of paths of the notebooks you want to run.")) ;;
  remotely <- lift (getParam b ["config"; "input_handler_http_execute_remotely"] VNone
    (Some "You must specify if you want to run your code locally or remotely")) ;;
  hostname' <- lift (getParam b ["config"; "output_hostname"] VNone
    (Some "Hostname output parameter is missing.")) ;;
  token' <- lift (getParam b ["config"; "output_handler_http_service_api_token"] VNone
    (Some "[HTTP Handler only] Service API token for output notebook parameter is missing.")) ;;
  hub' <- lift (getParam b ["config"; "output_handler_http_is_jupyterhub"] VNone
    (Some "[HTTP Handler only] JupyterHub for output notebook boolean parameter is missing.")) ;;
  output_conf <- initialize_path b hostname' token' hub' ;;
  folder <- lift (getParam b ["config"; "output_folder"] VNone
    (Some "You must provide an output folder path in which executed notebooks will be stored")) ;;
  only_html <- lift (getParam b ["config"; "any_only_html"] (VBool true)
    (Some "You must identify if you want to HTML response only for long reports")) ;;
  ret (mkAnalyzer b input_conf paths remotely output_conf folder only_html).

(** *** The driver *)

(** [self.input_execute_remotely is True and
    self.get_conf("input","handler_type") is HttpHandler] (lines 381 and
    408): [and] does not evaluate its right operand when the left one is
    false. *)
Definition execute_remotely (self : analyzer) : result bool :=
  if is_true (input_execute_remotely self) then
    handler_type <~ get_conf self "input" "handler_type" ;;
    Ok (is_http_handler handler_type)
  else Ok false.

(** [nb["metadata"]["papermill"][key]]. *)
Definition papermill_field (nb : value) (key : string) : result value :=
  metadata <~ getitem nb "metadata" ;;
  papermill <~ getitem metadata "papermill" ;;
  getitem papermill key.

(** [nb["metadata"]["papermill"][key] = v]: the notebook shares the two
    dictionaries, so the assignment shows in it. *)
Definition set_papermill_field (nb : value) (key : string) (v : value)
  : result value :=
  metadata <~ getitem nb "metadata" ;;
  papermill <~ getitem metadata "papermill" ;;
  papermill' <~ setitem papermill key v ;;
  metadata' <~ setitem metadata "papermill" papermill' ;;
  setitem nb "metadata" metadata'.

(** One of the two assignments under [# Sanitize secrets] (lines 427-428):
    [nb[..][key] = nb[..][key].replace("?token=" + get_conf("output",
    "handler_http_service_api_token"), "")]. *)
Definition sanitize (self : analyzer) (nb : value) (key : string) : result value :=
  recorded <~ papermill_field nb key ;;
  text <~ match recorded with
          | VStr s => Ok s
          | _ => Raise AttributeError
          end ;;
  old <~ chain [ Ok (VStr "?token=");
                 get_conf self "output" "handler_http_service_api_token" ] ;;
  old_text <~ as_str old ;;
  set_papermill_field nb key (VStr (replace old_text "" text)).

(** One round of [for path in self.input_paths] (lines 389-440). *)
Definition run_local (self : analyzer) (path : value) : M value :=
  handler_type <- lift (get_conf self "input" "handler_type") ;;
  input_notebook <- lift (
    if is_http_handler handler_type then input_location self path
    else chain [get_conf self "input" "hostname"; Ok path]) ;;
  paths <- lift (output_locations self path) ;;
  remote <- lift (execute_remotely self) ;;
  if remote then
    execute_notebook_remotely self ;;;
    ret VNone
  else
    params <- lift (parameters self) ;;
    input_path <- lift (as_str input_notebook) ;;
    output_path <- lift (as_str (fst paths)) ;;
    emit (ExecutedLocally input_path output_path) ;;;
    nb <- lift (pm_execute_notebook input_path output_path params) ;;
    nb <- lift (sanitize self nb "input_path") ;;
    nb <- lift (sanitize self nb "output_path") ;;
    duration <- lift (papermill_field nb "duration") ;;
    rounded <- lift (round3 duration) ;;
    nb <- lift (setitem nb "duration" rounded) ;;
    nb <- lift (setitem nb "output_notebook" (snd paths)) ;;
    lift (setitem nb "name" path).

Fixpoint run_locals (self : analyzer) (paths : list value) : M (list value) :=
  match paths with
  | [] => ret []
  | path :: paths' =>
      nb <- run_local self path ;;
      rest <- run_locals self paths' ;;
      ret (nb :: rest)
  end.

(** One round of [for nb in results] (lines 444-452). *)
Definition convert (self : analyzer) (nb : value) : result value :=
  body <~ html_body nb ;;
  match any_only_html self with
  | VBool false => setitem nb "html" body
  | _ =>
      name <~ getitem nb "name" ;;
      duration <~ getitem nb "duration" ;;
      output_notebook <~ getitem nb "output_notebook" ;;
      Ok (VDict [ ("name", name); ("duration", duration);
                  ("output_notebook", output_notebook); ("html", body) ])
  end.

Fixpoint converts (self : analyzer) (results : list value) : result (list value) :=
  match results with
  | [] => Ok []
  | nb :: results' =>
      nb' <~ convert self nb ;;
      rest <~ converts self results' ;;
      Ok (nb' :: rest)
  end.

(** [run(self)] (lines 370-456). *)
Definition run (self : analyzer) : M unit :=
  remote <- lift (execute_remotely self) ;;
  results <-
    (if remote then execute_notebook_remotely self
     else
       paths <- lift (iterate (input_paths self)) ;;
       run_locals self paths) ;;
  results_converted <- lift (converts self results) ;;
  emit (Reported (VDict [("notebooks", VList results_converted)])).

(** *** The summary *)

(** The value of a taxonomy while the searches are tallied: the int it
    starts as, or the float it becomes once a float is added to it. *)
Inductive number : Type :=
| NInt (z : Z)
| NFloat (f : float).

Definition number_value (n : number) : value :=
  match n with
  | NInt z => VInt z
  | NFloat f => VFloat f
  end.

(** The float of an int, as an addition of an int and a float takes it:
    the nearest float, ties to even, and [OverflowError] for an int beyond
    the floats. *)
Definition float_of_int (z : Z) : result float :=
  let f := FloatOps.SF2Prim
             (SpecFloat.binary_normalize FloatOps.prec FloatOps.emax z 0 false) in
  if PrimFloat.is_infinity f then Raise (CollaboratorError "OverflowError")
  else Ok f.

(** [total + x] for the [total += x] of lines 126-133: a bool counts as
    the int it is, a number of the other kind turns the sum into a float,
    and nothing else can be added to a number. *)
Definition add (total : number) (x : value) : result number :=
  match total, x with
  | NInt a, VInt b => Ok (NInt (a + b))
  | NInt a, VBool b => Ok (NInt (a + (if b then 1 else 0)))
  | NInt a, VFloat g => f <~ float_of_int a ;; Ok (NFloat (f + g))
  | NFloat f, VInt b => g <~ float_of_int b ;; Ok (NFloat (f + g))
  | NFloat f, VBool b => Ok (NFloat (f + (if b then 1 else 0)))
  | NFloat f, VFloat g => Ok (NFloat (f + g))
  | _, _ => Raise TypeError
  end.

(** [total > 0]. *)
Definition above_zero (total : number) : bool :=
  match total with
  | NInt z => (0 <? z)%Z
  | NFloat f => PrimFloat.ltb PrimFloat.zero f
  end.

(** [self.build_taxonomy(level, namespace, predicate, value)] of
    cortexutils: a level it does not know becomes [info]. *)
Definition build_taxonomy (level namespace predicate : string) (v : value)
  : value :=
  VDict [ ("level",
           VStr (if existsb (String.eqb level)
                      ["info"; "safe"; "suspicious"; "malicious"]
                 then level else "info"));
          ("namespace", VStr namespace);
          ("predicate", VStr predicate);
          ("value", v) ].

(** The [value] entries of the five taxonomies of lines 116-122. *)
Record tallies : Type := mkTallies {
  taxonomyResults : number;
  taxonomyInfo : number;
  taxonomySafe : number;
  taxonomySuspicious : number;
  taxonomyMalicious : number
}.

(** One round of [for savedsearch in raw["savedsearches"]]
    (lines 126-133). *)
Definition tally (t : tallies) (savedsearch : value) : result tallies :=
  resultCount <~ getitem savedsearch "resultCount" ;;
  results <~ add (taxonomyResults t) resultCount ;;
  leveled <~ contains "levels" savedsearch ;;
  if leveled then
    levels <~ getitem savedsearch "levels" ;;
    level <~ getitem levels "info" ;;
    info <~ add (taxonomyInfo t) level ;;
    level <~ getitem levels "safe" ;;
    safe <~ add (taxonomySafe t) level ;;
    level <~ getitem levels "suspicious" ;;
    suspicious <~ add (taxonomySuspicious t) level ;;
    level <~ getitem levels "malicious" ;;
    malicious <~ add (taxonomyMalicious t) level ;;
    Ok (mkTallies results info safe suspicious malicious)
  else
    Ok (mkTallies results (taxonomyInfo t) (taxonomySafe t)
                  (taxonomySuspicious t) (taxonomyMalicious t)).

Fixpoint tally_all (t : tallies) (savedsearches : list value) : result tallies :=
  match savedsearches with
  | [] => Ok t
  | savedsearch :: rest => t' <~ tally t savedsearch ;; tally_all t' rest
  end.

(** One of the four [if taxonomy["value"] > 0: taxonomies.append(...)] of
    lines 144-151. *)
Definition optional (level predicate : string) (total : number) : list value :=
  if above_zero total
  then [build_taxonomy level "Jupyter" predicate (number_value total)]
  else [].

(** [summary(self, raw)] (lines 113-154). *)
Definition summary (raw : value) : result value :=
  savedsearches <~ getitem raw "savedsearches" ;;
  items <~ iterate savedsearches ;;
  t <~ tally_all (mkTallies (NInt 0) (NInt 0) (NInt 0) (NInt 0) (NInt 0)) items ;;
  let results :=
    if above_zero (taxonomyResults t)
    then build_taxonomy "suspicious" "Jupyter" "Results"
                        (number_value (taxonomyResults t))
    else build_taxonomy "safe" "Jupyter" "Results" (VStr "None") in
  Ok (VDict [("taxonomies",
              VList (results
                     :: optional "info" "Info" (taxonomyInfo t)
                     ++ optional "safe" "Safe" (taxonomySafe t)
                     ++ optional "suspicious" "Suspicious" (taxonomySuspicious t)
                     ++ optional "malicious" "Malicious" (taxonomyMalicious t)))]).

(* ------------------------------------------------------------------ *)
(** ** Vocabulary of the statements *)

(** The world with further events in its trace. *)
Definition logs (es : list event) (w : world) : world :=
  mkWorld (http_replies w) (streams w) (inbox w) (uuids_drawn w)
          (channel_open w) (trace w ++ es).

(** The events of [w'] that came after those of [w]. *)
Definition since (w w' : world) : list event :=
  skipn (length (trace w)) (trace w').

(** What the caller of a method sees of its outcome. *)
Definition observed {A : Type} (o : outcome A) : option (result A) :=
  match o with
  | Return a _ => Some (Ok a)
  | Throw e _ => Some (Raise e)
  | Starved _ => None
  end.

(** [msg['parent_header']['msg_id']]. *)
Definition correlating_id (msg : value) : result value :=
  parent_header <~ getitem msg "parent_header" ;;
  getitem parent_header "msg_id".

(** A well-formed message that answers another request than [msg_id]. *)
Definition foreign (msg_id : string) (msg : value) : bool :=
  match getitem msg "msg_type", correlating_id msg with
  | Ok _, Ok id => negb (eq_str id msg_id)
  | _, _ => false
  end.

(** The message types that end the wait for a reply. *)
Definition ends_wait (msg_type : value) : bool :=
  eq_str msg_type "error" || eq_str msg_type "execute_reply"
  || eq_str msg_type "stream" || eq_str msg_type "display_data".

(** A message that ends the wait of the request [msg_id]. *)
Definition terminal (msg_id : string) (msg : value) : bool :=
  match getitem msg "msg_type", correlating_id msg with
  | Ok msg_type, Ok id => eq_str id msg_id && ends_wait msg_type
  | _, _ => false
  end.

Definition is_code (cell : value) : bool :=
  match getitem cell "cell_type" with
  | Ok cell_type => eq_str cell_type "code"
  | Raise _ => false
  end.

(** The [msg_id] an [execute_request] carries. *)
Definition request_id (request : value) : result value :=
  header <~ getitem request "header" ;;
  getitem header "msg_id".

(** The requests of a trace, in order. *)
Fixpoint sent (es : list event) : list value :=
  match es with
  | [] => []
  | Sent m :: es' => m :: sent es'
  | _ :: es' => sent es'
  end.

(** One request at a time: reading a trace with the request that awaits its
    reply in hand, a request is sent only when none is pending, a frame is
    read only for a pending one, and a terminal message settles it.  [None]
    when the trace breaks the rule. *)
Fixpoint pending_after (pending : option value) (es : list event)
  : option (option value) :=
  match es with
  | [] => Some pending
  | Sent m :: es' =>
      match pending, request_id m with
      | None, Ok id => pending_after (Some id) es'
      | _, _ => None
      end
  | Received frame :: es' =>
      match pending with
      | Some (VStr id) =>
          match frame with
          | Ok msg =>
              if terminal id msg then pending_after None es'
              else pending_after pending es'
          | Raise _ => pending_after pending es'
          end
      | _ => None
      end
  | _ :: es' => pending_after pending es'
  end.

Definition one_at_a_time (es : list event) : bool :=
  match pending_after None es with
  | Some _ => true
  | None => false
  end.

Fixpoint count_closed (es : list event) : nat :=
  match es with
  | [] => 0
  | Closed :: es' => S (count_closed es')
  | _ :: es' => count_closed es'
  end.

Definition is_connected (e : event) : bool :=
  match e with
  | Connected _ _ => true
  | _ => false
  end.

(** *** Views of a user model *)

(** [user_model["servers"][server_name]], when the model lists the server. *)
Definition server_entry (user_model : value) (server_name : string)
  : option value :=
  match user_model with
  | VDict d =>
      match lookup "servers" d with
      | Some (VDict servers) => lookup server_name servers
      | _ => None
      end
  | _ => None
  end.

(** The model omits the server: it has no server map, or the map has no
    entry of that name. *)
Definition omits (user_model : value) (server_name : string) : bool :=
  match user_model with
  | VDict d =>
      match lookup "servers" d with
      | None => true
      | Some (VDict servers) =>
          match lookup server_name servers with
          | None => true
          | Some _ => false
          end
      | Some _ => false
      end
  | _ => false
  end.

(** The pending mark of a listed server. *)
Definition pending_mark (user_model : value) (server_name : string)
  : option bool :=
  match server_entry user_model server_name with
  | Some (VDict server) =>
      match lookup "pending" server with
      | Some mark => Some (truthy mark)
      | None => None
      end
  | _ => None
  end.

(** The trace of [n] polls that found the server still pending. *)
Definition poll_rounds (url : string) (headers : value) (n : nat) : list event :=
  List.concat (repeat [Requested "GET" url headers; Slept 1] n).

Definition polls (es : list event) : nat :=
  length (filter (fun e => match e with
                           | Requested _ _ _ => true
                           | _ => false
                           end) es).

(** *** Views of a progress event *)

Definition is_ready (ev : list (string * value)) : bool :=
  match lookup "ready" ev with
  | Some ready => truthy ready
  | None => false
  end.

(** A progress event as the generator hands it over, and the trace of it. *)
Definition delivered (ev : list (string * value)) : result value :=
  Ok (VDict ev).

Definition yielded (ev : list (string * value)) : event :=
  Yielded (delivered ev).

Definition waiting (ev : list (string * value)) : bool :=
  negb (is_ready ev).

(** *** Requests and frames *)

(** The message that submits [code] to the kernel under the token
    [msg_id]: an execute request of version 5.4 of the messaging protocol,
    on the shell channel, with no parent, not silent, stored in the
    history, and without user expressions, standard input, metadata or
    buffers. *)
Definition submission (msg_id : string) (code : value) : value :=
  VDict [
    ("header", VDict [
       ("username", VStr "");
       ("version", VStr "5.4");
       ("session", VStr "");
       ("msg_id", VStr msg_id);
       ("msg_type", VStr "execute_request")]);
    ("parent_header", VDict []);
    ("channel", VStr "shell");
    ("content", VDict [
       ("code", code);
       ("silent", VBool false);
       ("store_history", VBool true);
       ("user_expressions", VDict []);
       ("allow_stdin", VBool false)]);
    ("metadata", VDict []);
    ("buffers", VDict [])].

(** The requests a run over [cells] sends when the first token it draws is
    the [n]-th: one per code cell, in the order of the cells, each the
    submission of the cell's source under the next token. *)
Definition source_of (cell : value) : value :=
  match getitem cell "source" with
  | Ok source => source
  | Raise _ => VNone
  end.

Fixpoint expected_requests (n : nat) (cells : list value) : list value :=
  match cells with
  | [] => []
  | cell :: cells' =>
      if is_code cell
      then submission (uuid4_hex n) (source_of cell)
           :: expected_requests (S n) cells'
      else expected_requests n cells'
  end.

(** A message that answers the request [msg_id] and lets the loop go on to
    the next cell: an [execute_reply], or a [stream] or [display_data]
    from which an output can be built. *)
Definition answers (msg_id : string) (msg : value) : bool :=
  match getitem msg "msg_type", correlating_id msg with
  | Ok msg_type, Ok id =>
      eq_str id msg_id
      && (eq_str msg_type "execute_reply"
          || ((eq_str msg_type "stream" || eq_str msg_type "display_data")
              && match output_from_msg msg with
                 | Ok _ => true
                 | Raise _ => false
                 end))
  | _, _ => false
  end.

(** A message the wait of [msg_id] passes over: well formed, and either for
    another request or of a type that does not end the wait. *)
Definition passed_over (msg_id : string) (msg : value) : bool :=
  match getitem msg "msg_type", correlating_id msg with
  | Ok msg_type, Ok id => negb (eq_str id msg_id && ends_wait msg_type)
  | _, _ => false
  end.

(** The frames left once the request [msg_id] is answered: those behind
    its answer, when nothing but messages to pass over comes before it. *)
Fixpoint settled (msg_id : string) (frames : list (result value))
  : option (list (result value)) :=
  match frames with
  | [] => None
  | Raise _ :: _ => None
  | Ok msg :: rest =>
      if passed_over msg_id msg then settled msg_id rest
      else if answers msg_id msg then Some rest
      else None
  end.

(** The channel answers every request of the cells, in their order: each
    cell has a type, each code cell has a source, and the frames hold an
    answer to the request of each code cell, the token of the first being
    the [n]-th. *)
Fixpoint served (n : nat) (cells : list value) (frames : list (result value))
  : bool :=
  match cells with
  | [] => true
  | cell :: cells' =>
      match getitem cell "cell_type" with
      | Raise _ => false
      | Ok cell_type =>
          if eq_str cell_type "code" then
            match getitem cell "source", settled (uuid4_hex n) frames with
            | Ok _, Some rest => served (S n) cells' rest
            | _, _ => false
            end
          else served n cells' frames
      end
  end.

(** The world once the frames [read] are read and [rest] are left. *)
Definition after (read rest : list (result value)) (w : world) : world :=
  logs (map Received read) (with_inbox rest w).

(** *** Locations *)

(** [path[1:]] of a str. *)
Definition tail (path : string) : string :=
  match path with
  | EmptyString => EmptyString
  | String _ path' => path'
  end.

(** The two forms of an output location on an HTTP endpoint: the one handed
    to the writer, and the one a user browses to. *)
Definition api_location (contents folder date data path token : string)
  : string :=
  contents ++ folder ++ date ++ "-" ++ data ++ "-" ++ tail path
  ++ "?token=" ++ token.

Definition direct_location (hostname user folder date data path : string)
  : string :=
  hostname ++ "/user/" ++ user ++ "/tree" ++ folder ++ date ++ "-" ++ data
  ++ "-" ++ tail path.

(** *** The channel *)

(** A computation that neither opens nor closes the channel. *)
Definition quiet {A : Type} (c : M A) : Prop :=
  forall w : world,
  exists d,
    trace (final (c w)) = trace w ++ d
    /\ count_closed d = 0
    /\ existsb is_connected d = false
    /\ channel_open (final (c w)) = channel_open w.

(** A computation that closes the channel as its last action when it
    returns, and leaves it alone when it does not. *)
Definition closes_at_end {A : Type} (c : M A) : Prop :=
  forall w : world,
  exists d,
    trace (final (c w)) = trace w ++ d
    /\ existsb is_connected d = false
    /\ match c w with
       | Return _ w' =>
           channel_open w' = false
           /\ count_closed d = 1
           /\ exists d0, d = d0 ++ [Closed]
       | Throw _ w' | Starved w' =>
           count_closed d = 0 /\ channel_open w' = channel_open w
       end.

(** A computation that closes the channel as its last action when it
    returns; when it does not, it has closed nothing, and the channel is
    open if the computation connected it. *)
Definition closes_on_return {A : Type} (c : M A) : Prop :=
  forall w : world,
  exists d,
    trace (final (c w)) = trace w ++ d
    /\ match c w with
       | Return _ w' =>
           channel_open w' = false
           /\ count_closed d = 1
           /\ exists d0, d = d0 ++ [Closed]
       | Throw _ w' | Starved w' =>
           count_closed d = 0
           /\ channel_open w' = (existsb is_connected d || channel_open w)
       end.

(** *** Tokens *)

Fixpoint no_question_mark (s : string) : bool :=
  match s with
  | EmptyString => true
  | String c s' => negb (c =? "?")%char && no_question_mark s'
  end.

(** [s[n:]]. *)
Fixpoint drop (n : nat) (s : string) : string :=
  match n, s with
  | O, _ => s
  | S _, EmptyString => EmptyString
  | S n', String _ s' => drop n' s'
  end.

(** *** Traces *)

(** A computation all of whose events satisfy [allowed]. *)
Definition confined {A : Type} (allowed : event -> bool) (c : M A) : Prop :=
  forall w : world,
  exists d,
    trace (final (c w)) = trace w ++ d /\ forallb allowed d = true.

(** The events of the exchange with the kernel. *)
Definition exchange_event (e : event) : bool :=
  match e with
  | Sent _ | Received _ => true
  | _ => false
  end.

(** The events of a notebook's round in a remote run. *)
Definition session_event (e : event) : bool :=
  match e with
  | Loaded _ | Sent _ | Received _ | Written _ _ => true
  | _ => false
  end.

Definition is_reported (e : event) : bool :=
  match e with
  | Reported _ => true
  | _ => false
  end.


(** The events of a poll of the user model at [url]: the GET of it, and
    the second of sleep. *)
Definition poll_event (url : string) (e : event) : bool :=
  match e with
  | Requested method url' _ => (method =? "GET")%string && (url' =? url)%string
  | Slept n => (n =? 1)%Z
  | _ => false
  end.

(** No end of [p] is a start of [suffix]: an occurrence of [p] cannot
    begin before [suffix] and end in it. *)
Fixpoint no_overlap (p suffix : string) : bool :=
  match p with
  | EmptyString => true
  | String _ p' => negb (prefix p suffix) && no_overlap p' suffix
  end.

(** The events of a remote run: the request for a kernel, the channel, and
    the rounds of the notebooks. *)
Definition remote_event (e : event) : bool :=
  match e with
  | Requested _ _ _ | Connected _ _ | Closed => true
  | _ => session_event e
  end.

Definition unreported (e : event) : bool := negb (is_reported e).


(** *** Saved searches *)

(** A saved search as [summary] reads it, when its numbers are ints: its
    count and, if it has levels, the four of them (info, safe, suspicious,
    malicious). *)
Record search : Type := mkSearch {
  resultCount : Z;
  levels : option (Z * Z * Z * Z)
}.

Definition reads (item : value) (s : search) : Prop :=
  getitem item "resultCount" = Ok (VInt (resultCount s))
  /\ match levels s with
     | None => contains "levels" item = Ok false
     | Some (info, safe, suspicious, malicious) =>
         contains "levels" item = Ok true
         /\ exists lv,
             getitem item "levels" = Ok lv
             /\ getitem lv "info" = Ok (VInt info)
             /\ getitem lv "safe" = Ok (VInt safe)
             /\ getitem lv "suspicious" = Ok (VInt suspicious)
             /\ getitem lv "malicious" = Ok (VInt malicious)
     end.

(** The four levels of a search, zero each when it has none. *)
Definition levels_or_zero (s : search) : Z * Z * Z * Z :=
  match levels s with
  | Some q => q
  | None => (0, 0, 0, 0)%Z
  end.

Definition info_of (s : search) : Z :=
  match levels_or_zero s with (info, _, _, _) => info end.

Definition safe_of (s : search) : Z :=
  match levels_or_zero s with (_, safe, _, _) => safe end.

Definition suspicious_of (s : search) : Z :=
  match levels_or_zero s with (_, _, suspicious, _) => suspicious end.

Definition malicious_of (s : search) : Z :=
  match levels_or_zero s with (_, _, _, malicious) => malicious end.

Definition total (f : search -> Z) (searches : list search) : Z :=
  fold_right (fun s acc => (f s + acc)%Z) 0%Z searches.

(** A taxonomy, as the summary lists it. *)
Definition taxonomy (level predicate : string) (v : value) : value :=
  VDict [ ("level", VStr level); ("namespace", VStr "Jupyter");
          ("predicate", VStr predicate); ("value", v) ].

(** The taxonomy of a level: listed when its total is above zero. *)
Definition listed (level predicate : string) (n : Z) : list value :=
  if (0 <? n)%Z then [taxonomy level predicate (VInt n)] else [].

(** *** Names *)

Fixpoint slashes (n : nat) : string :=
  match n with
  | O => EmptyString
  | S n' => String "/" (slashes n')
  end.

Fixpoint ends_with_slash (s : string) : bool :=
  match s with
  | EmptyString => false
  | String c EmptyString => (c =? "/")%char
  | String _ s' => ends_with_slash s'
  end.

(* ------------------------------------------------------------------ *)
(** ** Worlds *)

Lemma world_eq (w w' : world) :
  http_replies w = http_replies w' ->
  streams w = streams w' ->
  inbox w = inbox w' ->
  uuids_drawn w = uuids_drawn w' ->
  channel_open w = channel_open w' ->
  trace w = trace w' ->
  w = w'.
Proof.
  destruct w, w'; simpl; intros; subst; reflexivity.
Qed.

Lemma log_logs (e : event) (w : world) : log e w = logs [e] w.
Proof. reflexivity. Qed.

Lemma logs_logs (es es' : list event) (w : world) :
  logs es' (logs es w) = logs (es ++ es') w.
Proof.
  apply world_eq; simpl; auto. now rewrite app_assoc.
Qed.

Lemma after_step (frame : result value) (read rest rest' : list (result value))
    (w : world) :
  log (Received frame) (with_inbox rest' (after read rest w))
  = after (read ++ [frame]) rest' w.
Proof.
  apply world_eq; simpl; auto.
  now rewrite map_app, app_assoc.
Qed.

Lemma after_nil (w : world) : after [] (inbox w) w = w.
Proof.
  apply world_eq; simpl; auto. apply app_nil_r.
Qed.

Lemma since_app (w w' : world) (d : list event) :
  trace w' = trace w ++ d -> since w w' = d.
Proof.
  intros H. unfold since. rewrite H.
  rewrite skipn_app, skipn_all, Nat.sub_diag. reflexivity.
Qed.

Lemma eq_str_true (v : value) (s : string) : eq_str v s = true -> v = VStr s.
Proof.
  destruct v; simpl; try discriminate.
  intros H. apply String.eqb_eq in H. now subst.
Qed.

(* ------------------------------------------------------------------ *)
(** ** Kernel session: the wait for a reply *)

Lemma on_message_unfold (msg_id : string) (cell msg msg_type id : value) :
  getitem msg "msg_type" = Ok msg_type ->
  correlating_id msg = Ok id ->
  on_message msg_id cell msg =
    if eq_str id msg_id then
      if eq_str msg_type "error" then
        Raise (AnalyzerError (kernel_error_text msg))
      else if eq_str msg_type "execute_reply" then
        cell' <~ setitem cell "outputs" (VList []) ;; Ok (Some cell')
      else if eq_str msg_type "stream" || eq_str msg_type "display_data" then
        output <~ output_from_msg msg ;;
        cell' <~ setitem cell "outputs" (VList [output]) ;; Ok (Some cell')
      else Ok None
    else Ok None.
Proof.
  intros Ht Hid. unfold on_message, correlating_id in *. rewrite Ht. simpl.
  destruct (getitem msg "parent_header") as [ph|e]; simpl in *; [|discriminate].
  rewrite Hid. simpl. destruct (eq_str id msg_id); [|reflexivity].
  destruct (eq_str msg_type "error"); [reflexivity|].
  destruct (eq_str msg_type "execute_reply"); [reflexivity|].
  destruct (eq_str msg_type "stream"); [reflexivity|].
  destruct (eq_str msg_type "display_data"); reflexivity.
Qed.

Lemma on_message_passed_over (msg_id : string) (cell msg : value) :
  passed_over msg_id msg = true -> on_message msg_id cell msg = Ok None.
Proof.
  unfold passed_over. intros H.
  destruct (getitem msg "msg_type") as [mt|] eqn:Ht; [|discriminate].
  destruct (correlating_id msg) as [id|] eqn:Hid; [|discriminate].
  rewrite (on_message_unfold msg_id cell msg mt id Ht Hid).
  destruct (eq_str id msg_id); [|reflexivity].
  simpl in H. unfold ends_wait in H.
  destruct (eq_str mt "error"); [discriminate|].
  destruct (eq_str mt "execute_reply"); [discriminate|].
  destruct (eq_str mt "stream"); [discriminate|].
  destruct (eq_str mt "display_data"); [discriminate|reflexivity].
Qed.

Lemma foreign_passed_over (msg_id : string) (msg : value) :
  foreign msg_id msg = true -> passed_over msg_id msg = true.
Proof.
  unfold foreign, passed_over.
  destruct (getitem msg "msg_type"); [|discriminate].
  destruct (correlating_id msg) as [id|]; [|discriminate].
  destruct (eq_str id msg_id); [discriminate|reflexivity].
Qed.

(** The frames passed over are read, logged and forgotten. *)
Lemma await_frames_passed_over (msg_id : string) (cell : value)
    (pre : list value) :
  Forall (fun msg => passed_over msg_id msg = true) pre ->
  forall (read frames : list (result value)) (w : world),
    await_frames msg_id cell (map Ok pre ++ frames)
                 (after read (map Ok pre ++ frames) w)
    = await_frames msg_id cell frames (after (read ++ map Ok pre) frames w).
Proof.
  induction 1 as [|msg pre Hmsg _ IH]; intros read frames w.
  - simpl. now rewrite app_nil_r.
  - simpl. rewrite (on_message_passed_over _ _ _ Hmsg).
    rewrite after_step. rewrite IH. now rewrite <- app_assoc.
Qed.

Lemma await_reply_passed_over (msg_id : string) (cell : value)
    (pre : list value) (frames : list (result value)) (w : world) :
  Forall (fun msg => passed_over msg_id msg = true) pre ->
  inbox w = map Ok pre ++ frames ->
  await_reply msg_id cell w
  = await_frames msg_id cell frames (after (map Ok pre) frames w).
Proof.
  intros Hpre Hin. unfold await_reply. rewrite Hin.
  rewrite <- (after_nil w) at 1. rewrite Hin.
  now rewrite (await_frames_passed_over msg_id cell pre Hpre [] frames w).
Qed.

(** What the caller sees of the wait does not depend on the world the
    frames are read in. *)
Lemma await_frames_observed (msg_id : string) (cell : value)
    (frames : list (result value)) (w w' : world) :
  observed (await_frames msg_id cell frames w)
  = observed (await_frames msg_id cell frames w').
Proof.
  revert w w'. induction frames as [|frame frames IH]; intros w w'; simpl.
  - reflexivity.
  - destruct frame as [msg|e]; [|reflexivity].
    destruct (on_message msg_id cell msg) as [[cell'|]|e]; try reflexivity.
    apply IH.
Qed.

(** The recursion on the frames is the loop of the source: read a message,
    run the body, and go round again unless the body broke out. *)
Lemma await_reply_unroll (msg_id : string) (cell : value) (w : world) :
  await_reply msg_id cell w
  = (msg <- ws_read ;;
     match on_message msg_id cell msg with
     | Raise e => throw e
     | Ok (Some cell') => ret cell'
     | Ok None => await_reply msg_id cell
     end) w.
Proof.
  unfold await_reply, bind, ws_read.
  destruct (inbox w) as [|[msg|e] rest]; simpl; try reflexivity.
  destruct (on_message msg_id cell msg) as [[cell'|]|e]; reflexivity.
Qed.

(** C1, at the input where the code departs from it: a message whose parent
    header carries no [msg_id] is not dropped.  Reached after any number of
    messages passed over, it ends the wait of the pending request with a
    [KeyError], whatever follows it in the channel. *)
Theorem missing_id_ends_wait (msg_id : string) (cell msg msg_type : value)
    (parent_header : list (string * value)) (pre : list value)
    (rest : list (result value)) (w : world) :
  Forall (fun m => passed_over msg_id m = true) pre ->
  inbox w = map Ok pre ++ Ok msg :: rest ->
  getitem msg "msg_type" = Ok msg_type ->
  getitem msg "parent_header" = Ok (VDict parent_header) ->
  lookup "msg_id" parent_header = None ->
  await_reply msg_id cell w
  = Throw (KeyError "msg_id") (after (map Ok pre ++ [Ok msg]) rest w).
Proof.
  intros Hpre Hin Ht Hph Hid.
  rewrite (await_reply_passed_over msg_id cell pre _ w Hpre Hin).
  simpl. unfold on_message. rewrite Ht, Hph. simpl. rewrite Hid. simpl.
  now rewrite after_step.
Qed.

(** Messages that answer another request are dropped: put before the
    frames of a channel, they change nothing of what the wait returns or
    raises, and each of them is read exactly once. *)
Theorem foreign_messages_dropped (msg_id : string) (cell : value)
    (injected : list value) (frames : list (result value)) (w : world) :
  Forall (fun m => foreign msg_id m = true) injected ->
  inbox w = map Ok injected ++ frames ->
  await_reply msg_id cell w
  = await_frames msg_id cell frames (after (map Ok injected) frames w)
  /\ observed (await_reply msg_id cell w)
     = observed (await_reply msg_id cell (with_inbox frames w)).
Proof.
  intros Hf Hin.
  assert (Hpre : Forall (fun m => passed_over msg_id m = true) injected).
  { revert Hf. apply Forall_impl. intros m. apply foreign_passed_over. }
  rewrite (await_reply_passed_over msg_id cell injected frames w Hpre Hin).
  split; [reflexivity|]. unfold await_reply at 1. simpl.
  apply await_frames_observed.
Qed.

(** C2: the first message that is not passed over, when it answers the
    pending request, settles the cell by its type: [stream] and
    [display_data] leave the one output built from the message,
    [execute_reply] leaves none, [error] raises the analyzer's error, whose
    text is the preamble of line 324 followed by the whole message as
    Python prints it, and returns no cell; in each case the frames behind
    it stay unread.  A message of the request with any other type is passed
    over. *)
Theorem reply_by_type (msg_id : string) (cell : list (string * value))
    (msg msg_type : value) (pre : list value) (rest : list (result value))
    (w : world) :
  Forall (fun m => passed_over msg_id m = true) pre ->
  inbox w = map Ok pre ++ Ok msg :: rest ->
  getitem msg "msg_type" = Ok msg_type ->
  correlating_id msg = Ok (VStr msg_id) ->
  let w1 := after (map Ok pre ++ [Ok msg]) rest w in
  let result := await_reply msg_id (VDict cell) w in
  (eq_str msg_type "stream" || eq_str msg_type "display_data" = true ->
     result = match output_from_msg msg with
              | Ok output =>
                  Return (VDict (dict_set "outputs" (VList [output]) cell)) w1
              | Raise e => Throw e w1
              end)
  /\ (eq_str msg_type "execute_reply" = true ->
        result = Return (VDict (dict_set "outputs" (VList []) cell)) w1)
  /\ (eq_str msg_type "error" = true ->
        result
        = Throw (AnalyzerError
                   ("ERROR - Something went wrong during the code processing. Remote kernel returns: "
                    ++ py_repr msg))
                w1)
  /\ (ends_wait msg_type = false ->
        passed_over msg_id msg = true
        /\ result = await_frames msg_id (VDict cell) rest w1).
Proof.
  intros Hpre Hin Ht Hid w1 result. subst w1 result.
  assert (Hmsg : kernel_error_text msg
                 = ("ERROR - Something went wrong during the code processing. Remote kernel returns: "
                    ++ py_repr msg)%string)
    by (destruct msg; try discriminate Ht; reflexivity).
  rewrite (await_reply_passed_over msg_id (VDict cell) pre _ w Hpre Hin).
  simpl. rewrite (on_message_unfold msg_id (VDict cell) msg msg_type _ Ht Hid).
  rewrite after_step. simpl. rewrite String.eqb_refl, Hmsg.
  repeat split.
  - intros H. apply orb_true_iff in H.
    destruct H as [H|H]; apply eq_str_true in H; subst msg_type; simpl;
      destruct (output_from_msg msg); reflexivity.
  - intros H. apply eq_str_true in H. subst msg_type. reflexivity.
  - intros H. apply eq_str_true in H. subst msg_type. reflexivity.
  - unfold passed_over. rewrite Ht, Hid. simpl. rewrite String.eqb_refl.
    simpl. now rewrite H.
  - unfold ends_wait in H.
    destruct (eq_str msg_type "error"); [discriminate|].
    destruct (eq_str msg_type "execute_reply"); [discriminate|].
    destruct (eq_str msg_type "stream"); [discriminate|].
    destruct (eq_str msg_type "display_data"); [discriminate|reflexivity].
Qed.

(* ------------------------------------------------------------------ *)
(** ** Kernel session: the cells of a notebook *)

Lemma on_message_terminal (msg_id : string) (cell msg : value)
    (r : option value) :
  on_message msg_id cell msg = Ok r ->
  terminal msg_id msg = match r with Some _ => true | None => false end.
Proof.
  unfold terminal. intros H.
  destruct (getitem msg "msg_type") as [mt|e] eqn:Ht;
    [|unfold on_message in H; rewrite Ht in H; discriminate].
  destruct (correlating_id msg) as [id|e] eqn:Hid.
  - rewrite (on_message_unfold msg_id cell msg mt id Ht Hid) in H.
    unfold ends_wait. destruct (eq_str id msg_id); simpl.
    + destruct (eq_str mt "error"); [discriminate|].
      destruct (eq_str mt "execute_reply"); simpl in *.
      { destruct (setitem cell "outputs" (VList [])); simpl in H;
          [now inversion H | discriminate]. }
      destruct (eq_str mt "stream"); simpl in *.
      { destruct (output_from_msg msg) as [o|]; simpl in H; [|discriminate].
        destruct (setitem cell "outputs" (VList [o])); simpl in H;
          [now inversion H | discriminate]. }
      destruct (eq_str mt "display_data"); simpl in *.
      { destruct (output_from_msg msg) as [o|]; simpl in H; [|discriminate].
        destruct (setitem cell "outputs" (VList [o])); simpl in H;
          [now inversion H | discriminate]. }
      now inversion H.
    + now inversion H.
  - unfold on_message, correlating_id in *. rewrite Ht in H. simpl in H.
    destruct (getitem msg "parent_header") as [ph|]; simpl in *;
      [|discriminate].
    rewrite Hid in H. discriminate.
Qed.

Lemma on_message_outputs (msg_id : string) (cell msg cell' : value) :
  on_message msg_id cell msg = Ok (Some cell') ->
  exists outputs, setitem cell "outputs" outputs = Ok cell'.
Proof.
  unfold on_message. intros H.
  destruct (getitem msg "msg_type") as [mt|]; simpl in H; [|discriminate].
  destruct (getitem msg "parent_header") as [ph|]; simpl in H; [|discriminate].
  destruct (getitem ph "msg_id") as [id|]; simpl in H; [|discriminate].
  destruct (eq_str id msg_id); [|discriminate].
  destruct (eq_str mt "error"); [discriminate|].
  destruct (eq_str mt "execute_reply").
  { destruct (setitem cell "outputs" (VList [])) eqn:E; simpl in H;
      [|discriminate]. inversion H; subst. eauto. }
  destruct (eq_str mt "stream").
  { destruct (output_from_msg msg) as [o|]; simpl in H; [|discriminate].
    destruct (setitem cell "outputs" (VList [o])) eqn:E; simpl in H;
      [|discriminate]. inversion H; subst. eauto. }
  destruct (eq_str mt "display_data"); [|discriminate].
  destruct (output_from_msg msg) as [o|]; simpl in H; [|discriminate].
  destruct (setitem cell "outputs" (VList [o])) eqn:E; simpl in H;
    [|discriminate]. inversion H; subst. eauto.
Qed.

Lemma sent_received (frames : list (result value)) :
  sent (map Received frames) = [].
Proof.
  induction frames; simpl; auto.
Qed.

Lemma sent_app (es es' : list event) : sent (es ++ es') = sent es ++ sent es'.
Proof.
  induction es as [|e es IH]; simpl; [reflexivity|].
  destruct e; simpl; rewrite ?IH; reflexivity.
Qed.

(** The wait reads a first part of the frames and nothing else; when it
    returns, its last frame settled the request. *)
Lemma await_frames_checked (msg_id : string) (cell : value)
    (frames : list (result value)) :
  forall (read : list (result value)) (w : world),
    let o := await_frames msg_id cell frames (after read frames w) in
    exists consumed rest,
      frames = consumed ++ rest
      /\ final o = after (read ++ consumed) rest w
      /\ match o with
         | Return cell' _ =>
             (forall es,
                 pending_after (Some (VStr msg_id)) (map Received consumed ++ es)
                 = pending_after None es)
             /\ exists outputs, setitem cell "outputs" outputs = Ok cell'
         | _ =>
             exists p,
               pending_after (Some (VStr msg_id)) (map Received consumed)
               = Some p
         end.
Proof.
  induction frames as [|frame frames IH]; intros read w; simpl.
  - exists [], []. simpl. rewrite app_nil_r. repeat split. eauto.
  - rewrite after_step. destruct frame as [msg|e].
    + destruct (on_message msg_id cell msg) as [[cell'|]|e] eqn:Hon.
      * exists [Ok msg], frames. repeat split; simpl.
        -- intros es.
           now rewrite (on_message_terminal _ _ _ _ Hon).
        -- eapply on_message_outputs; eauto.
      * specialize (IH (read ++ [Ok msg]) w). simpl in IH.
        destruct IH as (consumed & rest & Hfr & Hfin & Hout).
        exists (Ok msg :: consumed), rest. subst frames.
        split; [reflexivity|]. split.
        { rewrite Hfin. now rewrite <- app_assoc. }
        pose proof (on_message_terminal _ _ _ _ Hon) as Hterm.
        simpl. rewrite Hterm. exact Hout.
      * exists [Ok msg], frames. repeat split; simpl.
        destruct (terminal msg_id msg); eauto.
    + exists [Raise e], frames. repeat split; simpl. eauto.
Qed.

Lemma expected_requests_cons (n : nat) (cell : value) (cells : list value) :
  expected_requests n (cell :: cells)
  = expected_requests n [cell]
    ++ expected_requests (n + length (expected_requests n [cell])) cells.
Proof.
  simpl. destruct (is_code cell); simpl.
  - now rewrite Nat.add_1_r.
  - now rewrite Nat.add_0_r.
Qed.

Lemma expected_requests_length (n : nat) (cells : list value) :
  length (expected_requests n cells) = length (filter is_code cells).
Proof.
  revert n. induction cells as [|cell cells IH]; intros n; simpl.
  - reflexivity.
  - destruct (is_code cell); simpl; now rewrite IH.
Qed.

(** One cell: nothing is sent for a cell that is not code; a code cell
    sends its request and reads until the request is settled. *)
Lemma execute_cell_checked (cell : value) (w : world) :
  let o := execute_cell cell w in
  exists d,
    trace (final o) = trace w ++ d
    /\ match o with
       | Return cell' w' =>
           (forall es, pending_after None (d ++ es) = pending_after None es)
           /\ sent d = expected_requests (uuids_drawn w) [cell]
           /\ uuids_drawn w' = uuids_drawn w + length (sent d)
           /\ (if is_code cell
               then exists outputs, setitem cell "outputs" outputs = Ok cell'
               else cell' = cell)
       | _ =>
           (exists p, pending_after None d = Some p)
           /\ exists later,
               expected_requests (uuids_drawn w) [cell] = sent d ++ later
       end.
Proof.
  remember (expected_requests (uuids_drawn w) [cell]) as expected eqn:Hexp.
  remember (is_code cell) as code eqn:Hcode.
  assert (Hearly : forall (e : exn) (w' : world),
             trace w' = trace w ->
             exists d,
               trace w' = trace w ++ d
               /\ (exists p, pending_after None d = Some p)
               /\ exists later, expected = sent d ++ later).
  { intros e w' Ht. exists []. rewrite app_nil_r.
    split; [exact Ht|].
    split; [exists None; reflexivity | exists expected; reflexivity]. }
  unfold execute_cell, bind, lift. simpl.
  unfold is_code in Hcode. cbn [expected_requests] in Hexp.
  unfold is_code, source_of in Hexp.
  destruct (getitem cell "cell_type") as [ct|e] eqn:Hct; simpl.
  { destruct (eq_str ct "code"); simpl.
    - unfold fresh_uuid. simpl.
      destruct (getitem cell "source") as [source|e] eqn:Hsrc; simpl.
      + unfold ws_write. simpl.
        destruct (channel_open w) eqn:Hopen; simpl.
        * set (request := execute_request (uuid4_hex (uuids_drawn w)) source)
            in *.
          set (w2 := log (Sent request) (with_uuids (S (uuids_drawn w)) w)).
          unfold await_reply.
          replace (await_frames (uuid4_hex (uuids_drawn w)) cell (inbox w2) w2)
            with (await_frames (uuid4_hex (uuids_drawn w)) cell (inbox w2)
                               (after [] (inbox w2) w2))
            by now rewrite after_nil.
          destruct (await_frames_checked (uuid4_hex (uuids_drawn w)) cell
                      (inbox w2) [] w2)
            as (consumed & rest & Hin & Hfin & Hout).
          exists (Sent request :: map Received consumed).
          split.
          { rewrite Hfin. simpl. now rewrite <- app_assoc. }
          destruct (await_frames (uuid4_hex (uuids_drawn w)) cell (inbox w2)
                      (after [] (inbox w2) w2)) as [cell' w'|e w'|w'].
          -- destruct Hout as [Hpend Hcell]. simpl in Hfin. subst w' code.
             repeat split.
             ++ intros es. simpl. apply Hpend.
             ++ simpl. now rewrite sent_received.
             ++ simpl. rewrite sent_received. simpl. now rewrite Nat.add_1_r.
             ++ exact Hcell.
          -- split; [exact Hout|]. exists []. simpl.
             now rewrite sent_received.
          -- split; [exact Hout|]. exists []. simpl.
             now rewrite sent_received.
        * apply (Hearly TypeError). reflexivity.
      + apply (Hearly e). reflexivity.
    - exists []. rewrite app_nil_r. subst. repeat split; auto. }
  apply (Hearly e). reflexivity.
Qed.

Lemma execute_cells_cons (cell : value) (cells : list value) (w : world) :
  execute_cells (cell :: cells) w
  = match execute_cell cell w with
    | Return cell' w1 =>
        match execute_cells cells w1 with
        | Return cells' w2 => Return (cell' :: cells') w2
        | Throw e w2 => Throw e w2
        | Starved w2 => Starved w2
        end
    | Throw e w1 => Throw e w1
    | Starved w1 => Starved w1
    end.
Proof.
  cbn [execute_cells]. unfold bind, ret.
  destruct (execute_cell cell w); reflexivity.
Qed.

(** The cells of a notebook (lines 277-339). *)
Lemma execute_cells_checked (cells : list value) :
  forall w : world,
    let o := execute_cells cells w in
    exists d,
      trace (final o) = trace w ++ d
      /\ (exists p, pending_after None d = Some p)
      /\ (exists later, expected_requests (uuids_drawn w) cells = sent d ++ later)
      /\ match o with
         | Return cells' w' =>
             pending_after None d = Some None
             /\ sent d = expected_requests (uuids_drawn w) cells
             /\ uuids_drawn w' = uuids_drawn w + length (sent d)
             /\ Forall2 (fun cell cell' =>
                           if is_code cell
                           then exists outputs,
                               setitem cell "outputs" outputs = Ok cell'
                           else cell' = cell)
                        cells cells'
         | _ => True
         end.
Proof.
  induction cells as [|cell cells IH]; intros w.
  - simpl. exists []. rewrite app_nil_r.
    split; [reflexivity|]. split; [exists None; reflexivity|].
    split; [exists []; reflexivity|]. simpl.
    repeat split; auto.
  - rewrite execute_cells_cons.
    destruct (execute_cell_checked cell w) as (d1 & Ht1 & H1).
    rewrite expected_requests_cons.
    destruct (execute_cell cell w) as [cell' w1|e w1|w1]; simpl in Ht1.
    + destruct H1 as (Hp1 & Hs1 & Hu1 & Hc1).
      specialize (IH w1).
      destruct IH as (d2 & Ht2 & (p2 & Hp2) & (later & Hl2) & H2).
      rewrite <- Hs1, <- Hu1.
      exists (d1 ++ d2).
      destruct (execute_cells cells w1) as [cells' w2|e w2|w2];
        simpl in Ht2; simpl.
      * destruct H2 as (Hn2 & Hs2 & Hu2 & Hf2).
        split; [rewrite Ht2, Ht1; now rewrite app_assoc|].
        rewrite Hp1, sent_app.
        split; [eauto|]. split; [exists []; now rewrite app_nil_r, Hs2|].
        repeat split; auto.
        -- now rewrite Hs2.
        -- rewrite Hu2, Hu1, length_app. lia.
      * split; [rewrite Ht2, Ht1; now rewrite app_assoc|].
        rewrite Hp1, sent_app.
        split; [eauto|]. split; [|exact I].
        exists later. rewrite Hl2. now rewrite app_assoc.
      * split; [rewrite Ht2, Ht1; now rewrite app_assoc|].
        rewrite Hp1, sent_app.
        split; [eauto|]. split; [|exact I].
        exists later. rewrite Hl2. now rewrite app_assoc.
    + destruct H1 as (Hp1 & later & Hl1).
      exists d1. cbn [final].
      split; [exact Ht1|]. split; [exact Hp1|]. split; [|exact I].
      exists (later ++ expected_requests
                (uuids_drawn w + length (expected_requests (uuids_drawn w) [cell]))
                cells).
      rewrite Hl1. now rewrite app_assoc.
    + destruct H1 as (Hp1 & later & Hl1).
      exists d1. cbn [final].
      split; [exact Ht1|]. split; [exact Hp1|]. split; [|exact I].
      exists (later ++ expected_requests
                (uuids_drawn w + length (expected_requests (uuids_drawn w) [cell]))
                cells).
      rewrite Hl1. now rewrite app_assoc.
Qed.

(* ------------------------------------------------------------------ *)
(** ** Server life cycle: start *)

Lemma forallb_first_false {A : Type} (f : A -> bool) (l : list A) :
  forallb f l = false ->
  exists pre x post,
    l = pre ++ x :: post /\ forallb f pre = true /\ f x = false.
Proof.
  induction l as [|a l IH]; simpl; [discriminate|].
  destruct (f a) eqn:Ha; simpl.
  - intros H. destruct (IH H) as (pre & x & post & Hl & Hpre & Hx).
    exists (a :: pre), x, post. subst l. simpl. rewrite Ha. auto.
  - intros _. exists [], a, l. auto.
Qed.

Lemma wait_ready_step (name : string) (ev : list (string * value))
    (items : list (result value)) (w : world) :
  wait_ready name (delivered ev :: items) w
  = if is_ready ev
    then lift (getitem (VDict ev) "url") (log (yielded ev) w)
    else wait_ready name items (log (yielded ev) w).
Proof.
  cbn [wait_ready]. unfold bind, emit, lift, delivered, is_ready. simpl.
  destruct (lookup "ready" ev) as [ready|]; simpl; [|reflexivity].
  destruct (truthy ready); reflexivity.
Qed.

(** The events that are not ready are pulled one by one and passed. *)
Lemma wait_ready_waiting (name : string) (pre : list (list (string * value))) :
  forallb waiting pre = true ->
  forall (items : list (result value)) (w : world),
    wait_ready name (map delivered pre ++ items) w
    = wait_ready name items (logs (map yielded pre) w).
Proof.
  induction pre as [|ev pre IH]; intros Hpre items w.
  - simpl. f_equal. apply world_eq; simpl; auto. now rewrite app_nil_r.
  - cbn [map app forallb] in *.
    apply andb_true_iff in Hpre. destruct Hpre as [Hev Hpre].
    rewrite wait_ready_step. unfold waiting in Hev.
    destruct (is_ready ev); [discriminate|].
    rewrite (IH Hpre). now rewrite log_logs, logs_logs.
Qed.

Lemma start_server_from (hub_url user : value) (server_name : string)
    (headers : value) (lines : list string) (w w1 : world) :
  progress_stream hub_url user server_name headers w = Return lines w1 ->
  start_server hub_url user server_name headers w
  = match wait_ready (log_name user server_name) (event_stream lines) w1 with
    | Return server_url w2 =>
        Return (VStr (py_str hub_url ++ py_str server_url)) w2
    | Throw e w2 => Throw e w2
    | Starved w2 => Starved w2
    end.
Proof.
  intros H. unfold start_server, bind. rewrite H. reflexivity.
Qed.

(** C3: once the progress stream is open, [start_server] returns the hub's
    URL followed by the [url] of the first event whose [ready] is true,
    having pulled the events up to that one and no other; and it raises
    "<user>/<server> never started!" exactly when the stream ends with no
    event ready. *)
Theorem start_server_first_ready (hub_url user : value) (server_name : string)
    (headers : value) (lines : list string) (w w1 : world) :
  progress_stream hub_url user server_name headers w = Return lines w1 ->
  let o := start_server hub_url user server_name headers w in
  (forall (pre : list (list (string * value))) (ev : list (string * value))
          (url : value) (later : list (result value)),
      event_stream lines = map delivered (pre ++ [ev]) ++ later ->
      forallb waiting pre = true ->
      is_ready ev = true ->
      lookup "url" ev = Some url ->
      o = Return (VStr (py_str hub_url ++ py_str url))
                 (logs (map yielded (pre ++ [ev])) w1))
  /\ (forall events : list (list (string * value)),
         event_stream lines = map delivered events ->
         ((exists w',
              o = Throw (ValueError (log_name user server_name
                                     ++ " never started!")) w')
          <-> forallb waiting events = true)).
Proof.
  intros Hopen o. subst o.
  rewrite (start_server_from _ _ _ _ _ _ _ Hopen). split.
  - intros pre ev url later Hlines Hpre Hready Hurl.
    rewrite Hlines, map_app, <- app_assoc.
    rewrite (wait_ready_waiting _ pre Hpre). cbn [map app].
    rewrite wait_ready_step, Hready. simpl. rewrite Hurl. simpl.
    now rewrite log_logs, logs_logs, map_app.
  - intros events Hlines. rewrite Hlines. split.
    + intros [w' Hw'].
      destruct (forallb waiting events) eqn:Hall; [reflexivity|exfalso].
      destruct (forallb_first_false _ _ Hall)
        as (pre & ev & post & Hev & Hpre & Hnot).
      subst events. rewrite map_app in Hw'.
      rewrite (wait_ready_waiting _ pre Hpre) in Hw'. cbn [map] in Hw'.
      rewrite wait_ready_step in Hw'. unfold waiting in Hnot.
      destruct (is_ready ev); [|discriminate]. simpl in Hw'.
      destruct (lookup "url" ev); simpl in Hw'; discriminate.
    + intros Hall. exists (logs (map yielded events) w1).
      rewrite <- (app_nil_r (map delivered events)).
      rewrite (wait_ready_waiting _ events Hall). reflexivity.
Qed.

(* ------------------------------------------------------------------ *)
(** ** Server life cycle: stop *)

Lemma stopped_omits (user_model : value) (server_name name : string) :
  omits user_model server_name = true ->
  stopped user_model server_name name = Ok true.
Proof.
  unfold omits, stopped. destruct user_model; try discriminate. simpl.
  destruct (lookup "servers" entries) as [servers|]; [|reflexivity].
  destruct servers; try discriminate. simpl.
  destruct (lookup server_name entries0); [discriminate|reflexivity].
Qed.

Lemma stopped_pending (user_model : value) (server_name name : string)
    (mark : bool) :
  pending_mark user_model server_name = Some mark ->
  stopped user_model server_name name
  = if mark then Ok false
    else Raise (ValueError ("Waiting for " ++ name
                            ++ ", but no longer pending.")).
Proof.
  unfold pending_mark, server_entry, stopped.
  destruct user_model; try discriminate. simpl.
  destruct (lookup "servers" entries) as [servers|]; [|discriminate].
  destruct servers; try discriminate. simpl.
  destruct (lookup server_name entries0) as [server|]; [|discriminate].
  destruct server; try discriminate. simpl.
  destruct (lookup "pending" entries1) as [p|]; [|discriminate]. simpl.
  intros H. inversion H; subst. destruct (truthy p); reflexivity.
Qed.

Lemma poll_rounds_polls (url : string) (headers : value) (n : nat)
    (es : list event) :
  polls (poll_rounds url headers n ++ es) = n + polls es.
Proof.
  unfold polls, poll_rounds.
  induction n as [|n IH]; simpl; [reflexivity|]. now rewrite IH.
Qed.

(** A poll that finds the server pending sleeps one second and polls
    again. *)
Lemma poll_stopped_pending (self : analyzer) (url server_name name : string)
    (headers : value) (pending : list value) :
  get_conf self "input" "handler_http_headers" = Ok headers ->
  Forall (fun um => pending_mark um server_name = Some true) pending ->
  forall (done : list event) (replies : list (result value)) (w : world),
    poll_stopped self url server_name name (map Ok pending ++ replies)
                 (logs done (with_http (map Ok pending ++ replies) w))
    = poll_stopped self url server_name name replies
        (logs (done ++ poll_rounds url headers (length pending))
              (with_http replies w)).
Proof.
  intros Hconf. induction 1 as [|um pending Hum _ IH]; intros done replies w.
  - simpl. unfold poll_rounds. simpl. now rewrite app_nil_r.
  - cbn [map app poll_stopped]. rewrite Hconf.
    rewrite (stopped_pending um server_name name true Hum).
    replace (log (Slept 1)
               (with_http (map Ok pending ++ replies)
                  (log (Requested "GET" url headers)
                     (logs done
                        (with_http (Ok um :: map Ok pending ++ replies) w)))))
      with (logs (done ++ [Requested "GET" url headers; Slept 1])
                 (with_http (map Ok pending ++ replies) w)).
    2:{ apply world_eq; simpl; auto. now rewrite <- !app_assoc. }
    rewrite IH. f_equal. apply world_eq; simpl; auto.
    unfold poll_rounds. simpl. now rewrite <- !app_assoc.
Qed.

(** The recursion on the answers is the loop of the source: fetch the user
    model, return or raise on what it shows, or sleep and go round again. *)
Lemma stop_server_unroll (self : analyzer) (hub_url user : value)
    (server_name : string) (w : world) :
  stop_server self hub_url user server_name w
  = (headers <- lift (get_conf self "input" "handler_http_headers") ;;
     user_model <- http_json "GET"
                     (py_str hub_url ++ "/hub/api/users/" ++ py_str user)
                     headers ;;
     done <- lift (stopped user_model server_name
                           (log_name user server_name)) ;;
     if (done : bool) then ret tt
     else sleep 1 ;;; stop_server self hub_url user server_name) w.
Proof.
  unfold stop_server, bind, lift, http_json, sleep, emit.
  destruct (http_replies w) as [|[user_model|e] rest] eqn:Hw;
    cbn [poll_stopped];
    destruct (get_conf self "input" "handler_http_headers") as [headers|e'];
    simpl; rewrite ?Hw; try reflexivity.
  destruct (stopped user_model server_name (log_name user server_name))
    as [[|]|e]; reflexivity.
Qed.

Lemma logs_nil_http (w : world) : logs [] (with_http (http_replies w) w) = w.
Proof.
  apply world_eq; simpl; auto. apply app_nil_r.
Qed.

(** C6: with the headers of the input endpoint at hand, [stop_server] polls
    the user model, sleeping one second after every answer that shows the
    server pending, for as many such answers as come; it returns at the
    first answer that omits the server and raises at the first that shows it
    present and not pending, one poll after the pending ones in both
    cases. *)
Theorem stop_server_polls (self : analyzer) (hub_url user : value)
    (server_name : string) (headers : value) (pending : list value)
    (w : world) :
  get_conf self "input" "handler_http_headers" = Ok headers ->
  Forall (fun um => pending_mark um server_name = Some true) pending ->
  let url := (py_str hub_url ++ "/hub/api/users/" ++ py_str user)%string in
  let poll := Requested "GET" url headers in
  let rounds := poll_rounds url headers (length pending) in
  let o := stop_server self hub_url user server_name w in
  (forall (um : value) (rest : list (result value)),
      http_replies w = map Ok pending ++ Ok um :: rest ->
      omits um server_name = true ->
      o = Return tt (logs (rounds ++ [poll]) (with_http rest w)))
  /\ (forall (um : value) (rest : list (result value)),
         http_replies w = map Ok pending ++ Ok um :: rest ->
         pending_mark um server_name = Some false ->
         o = Throw (ValueError ("Waiting for " ++ log_name user server_name
                                ++ ", but no longer pending."))
                   (logs (rounds ++ [poll]) (with_http rest w)))
  /\ (http_replies w = map Ok pending ->
      o = Starved (logs (rounds ++ [poll]) (with_http [] w)))
  /\ polls (rounds ++ [poll]) = S (length pending).
Proof.
  intros Hconf Hpending url poll rounds o. subst o. unfold stop_server.
  fold url.
  assert (Hgo : forall replies,
             http_replies w = map Ok pending ++ replies ->
             poll_stopped self url server_name (log_name user server_name)
                          (http_replies w) w
             = poll_stopped self url server_name (log_name user server_name)
                            replies (logs rounds (with_http replies w))).
  { intros replies Hw. rewrite <- (logs_nil_http w) at 2. rewrite Hw.
    now rewrite (poll_stopped_pending self url server_name _ headers pending
                   Hconf Hpending [] replies w). }
  repeat split.
  - intros um rest Hw Hum. rewrite (Hgo _ Hw). cbn [poll_stopped].
    rewrite Hconf, (stopped_omits _ _ _ Hum).
    f_equal. apply world_eq; simpl; auto. now rewrite <- app_assoc.
  - intros um rest Hw Hum. rewrite (Hgo _ Hw). cbn [poll_stopped].
    rewrite Hconf, (stopped_pending _ _ _ false Hum).
    f_equal. apply world_eq; simpl; auto. now rewrite <- app_assoc.
  - intros Hw. rewrite <- (app_nil_r (map Ok pending)) in Hw.
    rewrite (Hgo _ Hw). cbn [poll_stopped]. rewrite Hconf.
    f_equal. apply world_eq; simpl; auto. now rewrite <- app_assoc.
  - unfold rounds, poll. rewrite poll_rounds_polls. unfold polls. simpl. lia.
Qed.

(* ------------------------------------------------------------------ *)
(** ** Output locations *)

Lemma append_assoc (a b c : string) : ((a ++ b) ++ c = a ++ b ++ c)%string.
Proof.
  induction a as [|x a IH]; simpl; [reflexivity|]. now rewrite IH.
Qed.

(** C5, as the code has it: on an output endpoint with the HTTP handler the
    location has two forms, both fixed by the endpoint (its hostname, its
    contents URI and its token), the user of the input endpoint, the output
    folder, the date, the observable and the path without its first
    character.  The form handed to the writer ends in the token as the
    query parameter [token]; the form a user browses to is built without
    the token. *)
Theorem output_locations_http (self : analyzer)
    (contents token hostname user folder data path : string) :
  get_conf self "output" "handler_type" = Ok (VClass HttpHandler) ->
  get_conf self "output" "server_uri_http_api_contents" = Ok (VStr contents) ->
  get_conf self "output" "handler_http_service_api_token" = Ok (VStr token) ->
  get_conf self "output" "hostname" = Ok (VStr hostname) ->
  get_conf self "input" "handler_http_user" = Ok (VStr user) ->
  output_folder self = VStr folder ->
  getParam (self_base self) ["data"] VNone (Some "Data is missing")
  = Ok (VStr data) ->
  output_locations self (VStr path)
  = Ok (VStr (api_location contents folder today data path token),
        VStr (direct_location hostname user folder today data path)).
Proof.
  intros Hh Hc Ht Hn Hu Hf Hd.
  unfold output_locations, dated_name. rewrite Hh. simpl.
  rewrite Hc, Ht, Hn, Hu, Hf, Hd. unfold api_location, direct_location, tail.
  destruct path as [|c path]; simpl; rewrite ?append_assoc; reflexivity.
Qed.

(* ------------------------------------------------------------------ *)
(** ** Endpoint configuration *)

Lemma getParam_config (b : base) (job config : list (string * value))
    (name : string) (default : value) (message : string) :
  _input b = VDict job ->
  lookup "config" job = Some (VDict config) ->
  getParam b ["config"; name] default (Some message)
  = match lookup name config with
    | None | Some VNone => Raise (AnalyzerError message)
    | Some v => Ok v
    end.
Proof.
  intros Hb Hc. unfold getParam. rewrite Hb. simpl. rewrite Hc. simpl.
  destruct (lookup name config) as [v|]; simpl; [|reflexivity].
  destruct v; reflexivity.
Qed.

Lemma start_server_returns_str (hub_url user : value) (server_name : string)
    (headers : value) (w w' : world) (server : value) :
  start_server hub_url user server_name headers w = Return server w' ->
  exists s, server = VStr s.
Proof.
  unfold start_server, bind, ret. intros H.
  destruct (progress_stream hub_url user server_name headers w);
    try discriminate.
  destruct (wait_ready (log_name user server_name) (event_stream a) w0);
    try discriminate.
  inversion H. eauto.
Qed.

(** C8, as the code has it: on a hostname of the HTTP handler, be the
    endpoint a hub or not, [initialize_path] ends in the analyzer's error,
    before any request, when the token is [None] or empty or the configured
    user is missing, null or empty; every configuration it returns holds
    the token and the user it was given, neither of them empty. *)
Theorem http_endpoint_needs_token_and_user (b : base)
    (hostname token hub : value) (job config : list (string * value))
    (w : world) :
  get_handler hostname = Ok HttpHandler ->
  _input b = VDict job ->
  lookup "config" job = Some (VDict config) ->
  let user := lookup "any_handler_http_user" config in
  let o := initialize_path b hostname token hub w in
  (filled token = false \/ user = None \/ user = Some VNone
   \/ user = Some (VStr "") ->
     exists message, o = Throw (AnalyzerError message) w)
  /\ (forall conf w',
         o = Return conf w' ->
         getitem conf "handler_http_service_api_token" = Ok token
         /\ filled token = true
         /\ exists u,
             user = Some u
             /\ getitem conf "handler_http_user" = Ok u
             /\ filled u = true).
Proof.
  intros Hh Hb Hc user o. subst o user.
  unfold initialize_path, bind, lift, ret, throw. rewrite Hh. simpl.
  rewrite (getParam_config b job config _ _ _ Hb Hc).
  destruct (filled token) eqn:Htok.
  2:{ split; [eauto|discriminate]. }
  destruct (lookup "any_handler_http_user" config) as [u|] eqn:Hlook.
  2:{ split; [eauto|discriminate]. }
  destruct (filled u) eqn:Hfu.
  2:{ split; [|destruct u; simpl in *; try discriminate; rewrite Hfu;
                 discriminate].
      intros _. destruct u; simpl in *; try discriminate; eauto.
      rewrite Hfu. eauto. }
  split.
  - intros [H|[H|[H|H]]]; try discriminate; inversion H; subst u;
      discriminate.
  - intros conf w' H.
    assert (Hu : match u with
                 | VNone => Raise (AnalyzerError
                     "[HTTP Handler only] Service name parameter is missing.")
                 | _ => Ok u
                 end = Ok u) by (destruct u; try reflexivity; discriminate).
    rewrite Hu, Hfu in H.
    destruct (is_true hub); simpl in H.
    + destruct (start_server hostname u "cortex_job" _ w)
        as [server w1|e w1|w1] eqn:Hs; try discriminate.
      destruct (start_server_returns_str _ _ _ _ _ _ _ Hs) as [s ->].
      simpl in H. inversion H; subst. simpl. eauto 6.
    + destruct hostname; simpl in H; try discriminate.
      inversion H; subst. simpl. eauto 6.
Qed.

Lemma initialize_path_non_http (b : base) (hostname token hub : value)
    (name : string) (w : world) :
  get_handler hostname = Ok (NonHttpHandler name) ->
  initialize_path b hostname token hub w = Return VNone w.
Proof.
  intros H. unfold initialize_path, bind, lift. now rewrite H.
Qed.

(** The analyzer that [__init__] builds on an input hostname of another
    handler than the HTTP one has no input configuration. *)
Lemma init_non_http (b : base) (hostname : value) (name : string)
    (w w' : world) (self : analyzer) :
  getParam b ["config"; "input_hostname"] VNone
           (Some "Hostname input parameter is missing.") = Ok hostname ->
  get_handler hostname = Ok (NonHttpHandler name) ->
  init b w = Return self w' ->
  input_configuration self = VNone.
Proof.
  intros Hhost Hh. unfold init, bind, lift, ret, throw. rewrite Hhost.
  destruct (getParam b ["config"; "input_handler_http_service_api_token"] _ _)
    as [token|]; [|discriminate].
  destruct (getParam b ["config"; "input_handler_http_is_jupyterhub"] _ _)
    as [hub|]; [|discriminate].
  rewrite (initialize_path_non_http b hostname token hub name w Hh).
  repeat match goal with
         | |- context [match getParam ?b ?n ?d ?m with _ => _ end] =>
             destruct (getParam b n d m); [|discriminate]
         end.
  match goal with
  | |- context [initialize_path ?b ?h ?t ?j ?w] =>
      destruct (initialize_path b h t j w); try discriminate
  end.
  repeat match goal with
         | |- context [match getParam ?b ?n ?d ?m with _ => _ end] =>
             destruct (getParam b n d m); [|discriminate]
         end.
  intros H. inversion H. reflexivity.
Qed.

(** C9, as the code has it: a hostname of another handler than the HTTP one
    makes [initialize_path] return [None], without an error, and so the
    analyzer built on it has no input configuration; every [get_conf] on an
    endpoint so configured raises; the test
    [input_execute_remotely is True and ...] raises when its left operand
    is true and is [False] without a lookup otherwise; the local path then
    raises at its first lookup, for each notebook it is given. *)
Theorem non_http_endpoint_has_no_configuration (b : base)
    (hostname token hub : value) (name : string) (w : world) :
  get_handler hostname = Ok (NonHttpHandler name) ->
  initialize_path b hostname token hub w = Return VNone w
  /\ (forall (self : analyzer) (w0 w' : world),
         getParam b ["config"; "input_hostname"] VNone
                  (Some "Hostname input parameter is missing.") = Ok hostname ->
         init b w0 = Return self w' ->
         input_configuration self = VNone)
  /\ (forall (self : analyzer) (key : string),
         (input_configuration self = VNone ->
          get_conf self "input" key = Raise TypeError)
         /\ (output_configuration self = VNone ->
             get_conf self "output" key = Raise TypeError))
  /\ (forall self : analyzer,
         input_configuration self = VNone ->
         execute_remotely self
         = if is_true (input_execute_remotely self) then Raise TypeError
           else Ok false)
  /\ (forall (self : analyzer) (path : value) (w0 : world),
         input_configuration self = VNone ->
         run_local self path w0 = Throw TypeError w0)
  /\ (forall (self : analyzer) (w0 : world),
         input_configuration self = VNone ->
         run self w0
         = if is_true (input_execute_remotely self) then Throw TypeError w0
           else match iterate (input_paths self) with
                | Ok [] =>
                    Return tt (log (Reported (VDict [("notebooks", VList [])])) w0)
                | Ok (_ :: _) => Throw TypeError w0
                | Raise e => Throw e w0
                end).
Proof.
  intros H. split; [now apply (initialize_path_non_http _ _ _ _ name)|].
  split.
  { intros self w0 w' Hhost Hinit.
    exact (init_non_http b hostname name w0 w' self Hhost H Hinit). }
  assert (Hconf : forall self key,
             input_configuration self = VNone ->
             get_conf self "input" key = Raise TypeError).
  { intros self key Hin. unfold get_conf. simpl. now rewrite Hin. }
  assert (Hremote : forall self,
             input_configuration self = VNone ->
             execute_remotely self
             = if is_true (input_execute_remotely self) then Raise TypeError
               else Ok false).
  { intros self Hin. unfold execute_remotely.
    destruct (is_true (input_execute_remotely self)); [|reflexivity].
    now rewrite (Hconf self _ Hin). }
  assert (Hlocal : forall self path w0,
             input_configuration self = VNone ->
             run_local self path w0 = Throw TypeError w0).
  { intros self path w0 Hin. unfold run_local, bind, lift.
    now rewrite (Hconf self _ Hin). }
  repeat split.
  - apply Hconf.
  - intros Hout. unfold get_conf. simpl. now rewrite Hout.
  - exact Hremote.
  - exact Hlocal.
  - intros self w0 Hin. unfold run, bind, lift. rewrite (Hremote self Hin).
    destruct (is_true (input_execute_remotely self)); [reflexivity|]. simpl.
    destruct (iterate (input_paths self)) as [[|path paths]|e]; simpl;
      try reflexivity.
    unfold bind. now rewrite (Hlocal self path w0 Hin).
Qed.

(* ------------------------------------------------------------------ *)
(** ** The channel of a remote run *)

Lemma count_closed_app (d d' : list event) :
  count_closed (d ++ d') = count_closed d + count_closed d'.
Proof.
  induction d as [|e d IH]; simpl; [reflexivity|].
  destruct e; simpl; rewrite ?IH; reflexivity.
Qed.

Lemma quiet_ret {A : Type} (a : A) : quiet (ret a).
Proof.
  intros w. exists []. simpl. now rewrite app_nil_r.
Qed.

Lemma quiet_throw {A : Type} (e : exn) : quiet (@throw A e).
Proof.
  intros w. exists []. simpl. now rewrite app_nil_r.
Qed.

Lemma quiet_lift {A : Type} (r : result A) : quiet (lift r).
Proof.
  destruct r; [apply quiet_ret | apply quiet_throw].
Qed.

Lemma quiet_emit (e : event) :
  count_closed [e] = 0 -> is_connected e = false -> quiet (emit e).
Proof.
  intros Hc Hi w. exists [e].
  split; [reflexivity|]. split; [exact Hc|].
  split; [simpl; now rewrite Hi|reflexivity].
Qed.

Lemma quiet_bind {A B : Type} (c : M A) (k : A -> M B) :
  quiet c -> (forall a, quiet (k a)) -> quiet (bind c k).
Proof.
  intros Hc Hk w. unfold bind.
  destruct (Hc w) as (d1 & Ht1 & Hc1 & Hi1 & Ho1).
  destruct (c w) as [a w1|e w1|w1]; simpl in *.
  - destruct (Hk a w1) as (d2 & Ht2 & Hc2 & Hi2 & Ho2).
    exists (d1 ++ d2). rewrite Ht2, Ht1, app_assoc, count_closed_app,
      existsb_app, Hc1, Hc2, Hi1, Hi2, Ho2, Ho1. auto.
  - exists d1. auto.
  - exists d1. auto.
Qed.

Lemma quiet_http_json (method url : string) (headers : value) :
  quiet (http_json method url headers).
Proof.
  intros w. unfold http_json. exists [Requested method url headers].
  simpl. destruct (http_replies w) as [|[body|e] rest]; simpl; auto.
Qed.

Lemma quiet_fresh_uuid : quiet fresh_uuid.
Proof.
  intros w. exists []. simpl. now rewrite app_nil_r.
Qed.

Lemma quiet_ws_write (message : value) : quiet (ws_write message).
Proof.
  intros w. unfold ws_write.
  destruct (channel_open w) eqn:Hopen; simpl.
  - exists [Sent message]. auto.
  - exists []. now rewrite app_nil_r.
Qed.

Lemma count_closed_received (frames : list (result value)) :
  count_closed (map Received frames) = 0.
Proof.
  induction frames; simpl; auto.
Qed.

Lemma is_connected_received (frames : list (result value)) :
  existsb is_connected (map Received frames) = false.
Proof.
  induction frames; simpl; auto.
Qed.

Lemma quiet_await_reply (msg_id : string) (cell : value) :
  quiet (await_reply msg_id cell).
Proof.
  intros w. unfold await_reply.
  destruct (await_frames_checked msg_id cell (inbox w) [] w)
    as (consumed & rest & _ & Hfin & _).
  rewrite after_nil in Hfin. exists (map Received consumed).
  rewrite Hfin. simpl.
  now rewrite count_closed_received, is_connected_received.
Qed.

Lemma quiet_execute_cell (cell : value) : quiet (execute_cell cell).
Proof.
  unfold execute_cell.
  apply quiet_bind; [apply quiet_lift|intros cell_type].
  destruct (eq_str cell_type "code"); [|apply quiet_ret].
  apply quiet_bind; [apply quiet_fresh_uuid|intros msg_id].
  apply quiet_bind; [apply quiet_lift|intros source].
  apply quiet_bind; [apply quiet_ws_write|intros _].
  apply quiet_await_reply.
Qed.

Lemma quiet_execute_cells (cells : list value) : quiet (execute_cells cells).
Proof.
  induction cells as [|cell cells IH]; cbn [execute_cells].
  - apply quiet_ret.
  - apply quiet_bind; [apply quiet_execute_cell|intros cell'].
    apply quiet_bind; [exact IH|intros rest]. apply quiet_ret.
Qed.

Lemma quiet_execute_path (self : analyzer) (path : value) :
  quiet (execute_path self path).
Proof.
  unfold execute_path.
  repeat (apply quiet_bind;
          [ first [ apply quiet_lift
                  | apply quiet_emit; reflexivity
                  | apply quiet_execute_cells ]
          | intros ? ]).
  apply quiet_lift.
Qed.

Lemma quiet_execute_paths (self : analyzer) (paths : list value) :
  quiet (execute_paths self paths).
Proof.
  induction paths as [|path paths IH]; cbn [execute_paths].
  - apply quiet_ret.
  - apply quiet_bind; [apply quiet_execute_path|intros nb].
    apply quiet_bind; [exact IH|intros rest]. apply quiet_ret.
Qed.

Lemma closes_at_end_bind {A B : Type} (c : M A) (k : A -> M B) :
  quiet c -> (forall a, closes_at_end (k a)) -> closes_at_end (bind c k).
Proof.
  intros Hc Hk w. unfold bind.
  destruct (Hc w) as (d1 & Ht1 & Hc1 & Hi1 & Ho1).
  destruct (c w) as [a w1|e w1|w1]; simpl in *.
  - destruct (Hk a w1) as (d2 & Ht2 & Hi2 & H2).
    exists (d1 ++ d2).
    rewrite Ht2, Ht1, app_assoc, existsb_app, Hi1, Hi2, count_closed_app, Hc1.
    repeat split; auto.
    destruct (k a w1) as [b w2|e w2|w2]; simpl in *.
    + destruct H2 as (Hch & Hcl & d0 & Hd0). repeat split; auto.
      exists (d1 ++ d0). rewrite Hd0. now rewrite app_assoc.
    + destruct H2 as (Hcl & Hch). rewrite Hch, Ho1. auto.
    + destruct H2 as (Hcl & Hch). rewrite Hch, Ho1. auto.
  - exists d1. auto.
  - exists d1. auto.
Qed.

Lemma closes_at_end_close {A : Type} (a : A) :
  closes_at_end (bind ws_close (fun _ => ret a)).
Proof.
  intros w. exists [Closed]. simpl. repeat split; auto.
  exists []. reflexivity.
Qed.

Lemma closes_on_return_bind {A B : Type} (c : M A) (k : A -> M B) :
  quiet c -> (forall a, closes_on_return (k a)) -> closes_on_return (bind c k).
Proof.
  intros Hc Hk w. unfold bind.
  destruct (Hc w) as (d1 & Ht1 & Hc1 & Hi1 & Ho1).
  destruct (c w) as [a w1|e w1|w1]; simpl in *.
  - destruct (Hk a w1) as (d2 & Ht2 & H2).
    exists (d1 ++ d2).
    rewrite Ht2, Ht1, app_assoc, existsb_app, Hi1, count_closed_app, Hc1.
    split; auto.
    destruct (k a w1) as [b w2|e w2|w2]; simpl in *.
    + destruct H2 as (Hch & Hcl & d0 & Hd0). repeat split; auto.
      exists (d1 ++ d0). rewrite Hd0. now rewrite app_assoc.
    + destruct H2 as (Hcl & Hch). rewrite Hch, Ho1. auto.
    + destruct H2 as (Hcl & Hch). rewrite Hch, Ho1. auto.
  - exists d1. rewrite Hi1, Ho1. auto.
  - exists d1. rewrite Hi1, Ho1. auto.
Qed.

Lemma closes_on_return_connect {B : Type} (url : string) (headers : value)
    (k : unit -> M B) :
  (forall a, closes_at_end (k a)) ->
  closes_on_return (bind (ws_connect url headers) k).
Proof.
  intros Hk w. unfold bind, ws_connect.
  destruct (websocket_connect url headers) as [[]|e].
  - destruct (Hk tt (log (Connected url headers) (with_channel true w)))
      as (d2 & Ht2 & Hi2 & H2).
    exists (Connected url headers :: d2). simpl in Ht2.
    rewrite Ht2, <- app_assoc. split; [reflexivity|].
    destruct (k tt (log (Connected url headers) (with_channel true w)))
      as [b w2|e w2|w2]; simpl in *.
    + destruct H2 as (Hch & Hcl & d0 & Hd0). repeat split; auto.
      exists (Connected url headers :: d0). now rewrite Hd0.
    + destruct H2 as (Hcl & Hch). auto.
    + destruct H2 as (Hcl & Hch). auto.
  - exists []. simpl. now rewrite app_nil_r.
Qed.

(* ------------------------------------------------------------------ *)
(** ** The sanitized paths of a local run *)

Lemma replace_from_skip (old new : string) (s : string) :
  forall k, replace_from old new k s = replace_from old new 0 (drop k s).
Proof.
  induction s as [|c s IH]; intros k.
  - destruct k; reflexivity.
  - destruct k; [reflexivity|]. simpl. apply IH.
Qed.

Lemma prefix_question_mark (c : ascii) (n s : string) :
  (c =? "?")%char = false -> prefix (String "?" n) (String c s) = false.
Proof.
  intros H. cbn [prefix]. destruct (ascii_dec "?" c) as [E|E]; [|reflexivity].
  subst c. discriminate.
Qed.

Lemma replace_from_clean (n new s : string) :
  no_question_mark s = true -> replace_from (String "?" n) new 0 s = s.
Proof.
  induction s as [|c s IH]; [reflexivity|]. cbn [no_question_mark].
  intros H. apply andb_true_iff in H. destruct H as [Hc Hs].
  apply negb_true_iff in Hc. cbn [replace_from].
  rewrite (prefix_question_mark c n s Hc). now rewrite (IH Hs).
Qed.

Lemma replace_from_app_clean (n new s t : string) :
  no_question_mark s = true ->
  (replace_from (String "?" n) new 0 (s ++ t)
   = s ++ replace_from (String "?" n) new 0 t)%string.
Proof.
  induction s as [|c s IH]; [reflexivity|]. cbn [no_question_mark].
  intros H. apply andb_true_iff in H. destruct H as [Hc Hs].
  apply negb_true_iff in Hc. cbn [append replace_from].
  rewrite (prefix_question_mark c n (s ++ t) Hc). now rewrite (IH Hs).
Qed.

Lemma no_question_mark_drop (k : nat) (s : string) :
  no_question_mark s = true -> no_question_mark (drop k s) = true.
Proof.
  revert s. induction k as [|k IH]; intros s H; [exact H|].
  destruct s as [|c s]; [reflexivity|]. simpl in *.
  apply andb_true_iff in H. apply IH. exact (proj2 H).
Qed.

(** The replacement at work on a location that ends in a token. *)
Lemma replace_token (out_token location in_token : string) :
  no_question_mark location = true ->
  no_question_mark in_token = true ->
  replace ("?token=" ++ out_token) "" (location ++ "?token=" ++ in_token)
  = if prefix out_token in_token
    then (location ++ drop (String.length out_token) in_token)%string
    else (location ++ "?token=" ++ in_token)%string.
Proof.
  intros Hl Hi. unfold replace.
  change ("?token=" ++ out_token)%string
    with (String "?" ("token=" ++ out_token)).
  rewrite (replace_from_app_clean _ "" location _ Hl).
  change ("?token=" ++ in_token)%string
    with (String "?" ("token=" ++ in_token)).
  cbn [replace_from].
  change (prefix (String "?" ("token=" ++ out_token))
                 (String "?" ("token=" ++ in_token)))
    with (prefix out_token in_token).
  destruct (prefix out_token in_token).
  - f_equal. rewrite replace_from_skip. simpl.
    apply replace_from_clean. now apply no_question_mark_drop.
  - f_equal. f_equal. apply replace_from_clean. simpl. exact Hi.
Qed.

(** C10, as the code has it: each of the two sanitized paths is the
    recorded one with every ["?token=" + output token] taken out, and
    nothing else is touched.  The input path of a local run is the contents
    URI, the path and ["?token=" + input token]; when no question mark
    occurs before or inside the input token, the sanitized input path is the
    recorded one, input token included, unless the output token is a prefix
    of the input token, in which case what is left of the input token is
    what follows that prefix (nothing when the tokens are equal). *)
Theorem sanitize_removes_output_token (self : analyzer) (nb : value)
    (key recorded out_token : string) :
  papermill_field nb key = Ok (VStr recorded) ->
  get_conf self "output" "handler_http_service_api_token"
  = Ok (VStr out_token) ->
  sanitize self nb key
  = set_papermill_field nb key
      (VStr (replace ("?token=" ++ out_token) "" recorded))
  /\ forall contents path in_token : string,
      get_conf self "input" "server_uri_http_api_contents"
      = Ok (VStr contents) ->
      get_conf self "input" "handler_http_service_api_token"
      = Ok (VStr in_token) ->
      let location := (contents ++ "/" ++ path)%string in
      input_location self (VStr path)
      = Ok (VStr (location ++ "?token=" ++ in_token))
      /\ (recorded = (location ++ "?token=" ++ in_token)%string ->
          no_question_mark location = true ->
          no_question_mark in_token = true ->
          replace ("?token=" ++ out_token) "" recorded
          = if prefix out_token in_token
            then (location ++ drop (String.length out_token) in_token)%string
            else recorded).
Proof.
  intros Hrec Hout. split.
  - unfold sanitize. rewrite Hrec. simpl. rewrite Hout. reflexivity.
  - intros contents path in_token Hc Hin location. split.
    + unfold input_location. simpl. rewrite Hc, Hin. simpl.
      unfold location. now rewrite !append_assoc.
    + intros -> Hl Hi. apply replace_token; assumption.
Qed.

(* ------------------------------------------------------------------ *)
(** ** Dictionaries *)

Lemma lookup_dict_set_same (k : string) (v : value) (d : list (string * value)) :
  lookup k (dict_set k v d) = Some v.
Proof.
  induction d as [|[k' v'] d IH]; simpl.
  - now rewrite String.eqb_refl.
  - destruct (k' =? k)%string eqn:E; simpl; rewrite E; auto.
Qed.

Lemma lookup_dict_set_other (k k' : string) (v : value)
    (d : list (string * value)) :
  k <> k' -> lookup k' (dict_set k v d) = lookup k' d.
Proof.
  intros Hne. induction d as [|[k0 v0] d IH]; simpl.
  - destruct (k =? k')%string eqn:E; [|reflexivity].
    apply String.eqb_eq in E. contradiction.
  - destruct (k0 =? k)%string eqn:E; simpl.
    + apply String.eqb_eq in E. subst k0.
      destruct (k =? k')%string eqn:E'; [|reflexivity].
      apply String.eqb_eq in E'. contradiction.
    + now rewrite IH.
Qed.

Lemma keys_dict_set_present (k : string) (v x : value)
    (d : list (string * value)) :
  lookup k d = Some x -> map fst (dict_set k v d) = map fst d.
Proof.
  induction d as [|[k' v'] d IH]; simpl; [discriminate|].
  destruct (k' =? k)%string; simpl; [reflexivity|].
  intros H. now rewrite (IH H).
Qed.

(* ------------------------------------------------------------------ *)
(** ** Confined traces *)

Lemma confined_ret {A : Type} (allowed : event -> bool) (a : A) :
  confined allowed (ret a).
Proof.
  intros w. exists []. simpl. now rewrite app_nil_r.
Qed.

Lemma confined_throw {A : Type} (allowed : event -> bool) (e : exn) :
  confined allowed (@throw A e).
Proof.
  intros w. exists []. simpl. now rewrite app_nil_r.
Qed.

Lemma confined_lift {A : Type} (allowed : event -> bool) (r : result A) :
  confined allowed (lift r).
Proof.
  destruct r; [apply confined_ret | apply confined_throw].
Qed.

Lemma confined_emit (allowed : event -> bool) (e : event) :
  allowed e = true -> confined allowed (emit e).
Proof.
  intros H w. exists [e]. split; [reflexivity|]. simpl. now rewrite H.
Qed.

Lemma confined_bind {A B : Type} (allowed : event -> bool) (c : M A)
    (k : A -> M B) :
  confined allowed c -> (forall a, confined allowed (k a)) ->
  confined allowed (bind c k).
Proof.
  intros Hc Hk w. unfold bind.
  destruct (Hc w) as (d1 & Ht1 & Ha1).
  destruct (c w) as [a w1|e w1|w1]; simpl in *.
  - destruct (Hk a w1) as (d2 & Ht2 & Ha2).
    exists (d1 ++ d2). rewrite Ht2, Ht1, app_assoc, forallb_app, Ha1, Ha2.
    auto.
  - exists d1. auto.
  - exists d1. auto.
Qed.

Lemma confined_http_json (allowed : event -> bool) (method url : string)
    (headers : value) :
  allowed (Requested method url headers) = true ->
  confined allowed (http_json method url headers).
Proof.
  intros H w. unfold http_json. exists [Requested method url headers].
  simpl. rewrite H.
  destruct (http_replies w) as [|[body|e] rest]; simpl; auto.
Qed.

Lemma confined_fresh_uuid (allowed : event -> bool) :
  confined allowed fresh_uuid.
Proof.
  intros w. exists []. simpl. now rewrite app_nil_r.
Qed.

Lemma confined_ws_write (allowed : event -> bool) (message : value) :
  allowed (Sent message) = true -> confined allowed (ws_write message).
Proof.
  intros H w. unfold ws_write.
  destruct (channel_open w); simpl.
  - exists [Sent message]. simpl. now rewrite H.
  - exists []. now rewrite app_nil_r.
Qed.

Lemma confined_await_reply (allowed : event -> bool) (msg_id : string)
    (cell : value) :
  (forall frame, allowed (Received frame) = true) ->
  confined allowed (await_reply msg_id cell).
Proof.
  intros H w. unfold await_reply.
  destruct (await_frames_checked msg_id cell (inbox w) [] w)
    as (consumed & rest & _ & Hfin & _).
  rewrite after_nil in Hfin. exists (map Received consumed).
  rewrite Hfin. split; [reflexivity|].
  clear Hfin. induction consumed as [|f consumed IH]; simpl; [reflexivity|].
  now rewrite H, IH.
Qed.

Lemma confined_execute_cell (allowed : event -> bool) (cell : value) :
  (forall message, allowed (Sent message) = true) ->
  (forall frame, allowed (Received frame) = true) ->
  confined allowed (execute_cell cell).
Proof.
  intros Hs Hr. unfold execute_cell.
  apply confined_bind; [apply confined_lift|intros cell_type].
  destruct (eq_str cell_type "code"); [|apply confined_ret].
  apply confined_bind; [apply confined_fresh_uuid|intros msg_id].
  apply confined_bind; [apply confined_lift|intros source].
  apply confined_bind; [apply confined_ws_write, Hs|intros _].
  apply confined_await_reply, Hr.
Qed.

Lemma confined_execute_cells (allowed : event -> bool) (cells : list value) :
  (forall message, allowed (Sent message) = true) ->
  (forall frame, allowed (Received frame) = true) ->
  confined allowed (execute_cells cells).
Proof.
  intros Hs Hr. induction cells as [|cell cells IH]; cbn [execute_cells].
  - apply confined_ret.
  - apply confined_bind; [now apply confined_execute_cell|intros cell'].
    apply confined_bind; [exact IH|intros rest]. apply confined_ret.
Qed.

(* ------------------------------------------------------------------ *)
(** ** Strings *)

Lemma prefix_drop (p s : string) :
  prefix p s = true -> s = (p ++ drop (String.length p) s)%string.
Proof.
  revert s. induction p as [|a p IH]; intros s H; [reflexivity|].
  destruct s as [|b s]; [discriminate|]. cbn [prefix] in H.
  destruct (ascii_dec a b) as [E|E]; [|discriminate]. subst b.
  cbn [append String.length drop]. f_equal. now apply IH.
Qed.

Lemma prefix_append (p s : string) : prefix p (p ++ s) = true.
Proof.
  induction p as [|a p IH]; [destruct s; reflexivity|]. cbn [append prefix].
  destruct (ascii_dec a a) as [_|E]; [exact IH|contradiction].
Qed.

Lemma drop_append (p s : string) : drop (String.length p) (p ++ s) = s.
Proof.
  induction p as [|a p IH]; [reflexivity|exact IH].
Qed.

Lemma append_nil_r (s : string) : (s ++ "")%string = s.
Proof.
  induction s as [|c s IH]; simpl; [reflexivity|]. now rewrite IH.
Qed.

(** The text after the mark of an event line. *)
Lemma after_colon_marked (line : string) :
  prefix "data:" line = true -> after_colon line = Ok (drop 5 line).
Proof.
  intros H. rewrite (prefix_drop _ _ H) at 1. reflexivity.
Qed.

(* ------------------------------------------------------------------ *)
(** ** Server life cycle: the progress stream *)

Lemma event_stream_app (lines lines' : list string) (events : list value) :
  event_stream lines = map Ok events ->
  event_stream (lines ++ lines') = map Ok events ++ event_stream lines'.
Proof.
  revert events. induction lines as [|line lines IH]; intros events.
  - destruct events; [reflexivity|discriminate].
  - cbn [app event_stream]. destruct (prefix "data:" line); [|apply IH].
    destruct (text <~ after_colon line ;; json_loads text) as [ev|e].
    + destruct events as [|ev' events]; [discriminate|].
      cbn [map]. intros H. injection H as Hev Hrest. subst ev'.
      now rewrite (IH events Hrest).
    + destruct events; discriminate.
Qed.

(** The events of a progress stream are its lines that start with [data:],
    in their order, each parsed from the text that follows the mark; the
    other lines count for nothing; and the first marked line that does not
    parse ends the stream with its exception, whatever follows it. *)
Theorem event_stream_marked_lines (lines : list string) (events : list value) :
  map (fun line => json_loads (drop 5 line)) (filter (prefix "data:") lines)
  = map Ok events ->
  event_stream lines = map Ok events
  /\ forall (bad : string) (e : exn) (rest : list string),
      prefix "data:" bad = true ->
      json_loads (drop 5 bad) = Raise e ->
      event_stream (lines ++ bad :: rest) = map Ok events ++ [Raise e].
Proof.
  intros H.
  assert (Hall : event_stream lines = map Ok events).
  { revert events H. induction lines as [|line lines IH]; intros events H.
    - destruct events; [reflexivity|discriminate].
    - cbn [filter event_stream] in *.
      destruct (prefix "data:" line) eqn:Hm; [|now apply IH].
      rewrite (after_colon_marked _ Hm). cbn [rbind].
      destruct events as [|ev events]; [discriminate|].
      cbn [map] in H. injection H as Hev Hrest.
      change (json_loads (drop 5 line) = Ok ev) in Hev. rewrite Hev.
      now rewrite (IH events Hrest). }
  split; [exact Hall|].
  intros bad e rest Hm Hbad. rewrite (event_stream_app _ _ _ Hall).
  cbn [event_stream]. rewrite Hm, (after_colon_marked _ Hm). cbn [rbind].
  now rewrite Hbad.
Qed.

Lemma bind_return {A B : Type} (c : M A) (k : A -> M B) (a : A)
    (w w' : world) :
  c w = Return a w' -> bind c k w = k a w'.
Proof.
  intros H. unfold bind. now rewrite H.
Qed.

Lemma bind_throw {A B : Type} (c : M A) (k : A -> M B) (e : exn)
    (w w' : world) :
  c w = Throw e w' -> bind c k w = Throw e w'.
Proof.
  intros H. unfold bind. now rewrite H.
Qed.

Lemma http_json_ok (method url : string) (headers body : value)
    (rest : list (result value)) (w : world) :
  http_replies w = Ok body :: rest ->
  http_json method url headers w
  = Return body (with_http rest (logs [Requested method url headers] w)).
Proof.
  intros H. unfold http_json. simpl. now rewrite H.
Qed.

Lemma logs_with_http (es : list event) (l : list (result value)) (w : world) :
  logs es (with_http l w) = with_http l (logs es w).
Proof. reflexivity. Qed.

Lemma with_http_with_http (l l' : list (result value)) (w : world) :
  with_http l (with_http l' w) = with_http l w.
Proof. reflexivity. Qed.

(** What [start_server] does before it opens the progress stream.  When
    the user model lists the server, the stream of its [progress_url] is
    opened after that one GET, and nothing is posted.  When the model omits
    the server, its launch is posted, once, and the user model is fetched
    once more: the stream is opened if the server is listed by then, and
    the call ends in a [KeyError] if it is not; there is no second look. *)
Theorem server_launched_when_absent (hub_url user : value)
    (server_name : string) (headers um : value) (rest : list (result value))
    (w : world) :
  http_replies w = Ok um :: rest ->
  let user_url := (py_str hub_url ++ "/hub/api/users/" ++ py_str user)%string in
  let get := Requested "GET" user_url headers in
  let post :=
    Requested "POST" (user_url ++ "/servers/" ++ server_name) headers in
  let o := progress_stream hub_url user server_name headers w in
  (forall (server : list (string * value)) (progress_url : value),
      server_entry um server_name = Some (VDict server) ->
      lookup "progress_url" server = Some progress_url ->
      o = open_stream (py_str hub_url ++ py_str progress_url) headers
            (with_http rest (logs [get] w)))
  /\ (omits um server_name = true ->
      forall (posted um2 : value) (rest2 : list (result value)),
        rest = Ok posted :: Ok um2 :: rest2 ->
        let w2 := with_http rest2 (logs [get; post; get] w) in
        (forall (server : list (string * value)) (progress_url : value),
            server_entry um2 server_name = Some (VDict server) ->
            lookup "progress_url" server = Some progress_url ->
            o = open_stream (py_str hub_url ++ py_str progress_url) headers w2)
        /\ (omits um2 server_name = true ->
            exists key, o = Throw (KeyError key) w2)).
Proof.
  intros Hw user_url get post o. subst o. unfold progress_stream.
  fold user_url.
  rewrite (bind_return _ _ _ _ _ (http_json_ok "GET" user_url headers _ _ _ Hw)).
  fold get. split.
  - intros server progress_url Hentry Hurl.
    unfold server_entry in Hentry. destruct um as [| | | | | |d|]; try discriminate.
    destruct (lookup "servers" d) as [[| | | | | |servers|]|] eqn:Hs;
      try discriminate.
    unfold bind, lift, dict_get, contains, getitem, ret.
    rewrite Hs. cbn iota beta. rewrite Hentry. cbn iota beta.
    rewrite Hs. cbn iota beta. rewrite Hentry. cbn iota beta.
    rewrite Hurl. reflexivity.
  - intros Homits posted um2 rest2 Hrest. subst rest.
    set (w2 := with_http rest2 (logs [get; post; get] w)).
    assert (Hno : (servers <- lift (dict_get um "servers" (VDict [])) ;;
                   lift (contains server_name servers))
                    (with_http (Ok posted :: Ok um2 :: rest2) (logs [get] w))
                  = Return false
                      (with_http (Ok posted :: Ok um2 :: rest2) (logs [get] w))).
    { unfold omits in Homits. destruct um as [| | | | | |d|]; try discriminate.
      unfold bind, lift, dict_get, contains, ret.
      destruct (lookup "servers" d) as [[| | | | | |servers|]|];
        try discriminate; cbn iota beta.
      - destruct (lookup server_name servers); [discriminate|reflexivity].
      - reflexivity. }
    assert (Hgo : forall k : value -> M (list string),
               (servers <- lift (dict_get um "servers" (VDict [])) ;;
                active <- lift (contains server_name servers) ;;
                user_model <-
                  (if active then ret um
                   else
                     http_json "POST" (user_url ++ "/servers/" ++ server_name)
                               headers ;;;
                     http_json "GET" user_url headers) ;;
                k user_model)
                 (with_http (Ok posted :: Ok um2 :: rest2) (logs [get] w))
               = k um2 w2).
    { intros k. unfold bind in Hno |- *.
      destruct (lift (dict_get um "servers" (VDict [])) _) as [servers w0| |];
        try discriminate.
      destruct (lift (contains server_name servers) w0) as [active w1| |];
        try discriminate.
      injection Hno as Ha Hw1. subst active w1.
      rewrite (http_json_ok _ _ _ posted (Ok um2 :: rest2)); [|reflexivity].
      rewrite (http_json_ok _ _ _ um2 rest2); [|reflexivity].
      rewrite !logs_with_http, !with_http_with_http, !logs_logs.
      reflexivity. }
    rewrite Hgo. split.
    + intros server progress_url Hentry Hurl.
      unfold server_entry in Hentry.
      destruct um2 as [| | | | | |d|]; try discriminate.
      destruct (lookup "servers" d) as [[| | | | | |servers|]|] eqn:Hs;
        try discriminate.
      unfold bind, lift, getitem, ret.
      rewrite Hs. cbn iota beta. rewrite Hentry. cbn iota beta.
      rewrite Hurl. reflexivity.
    + intros Homits2. unfold omits in Homits2.
      destruct um2 as [| | | | | |d|]; try discriminate.
      unfold bind, lift, getitem, ret, throw.
      destruct (lookup "servers" d) as [[| | | | | |servers|]|];
        try discriminate; cbn iota beta.
      * destruct (lookup server_name servers); [discriminate|]. eauto.
      * eauto.
Qed.

(** Where the progress stream goes wrong before an event is ready, the
    call ends there and not in "never started": in the exception of the
    line that does not parse, in an [AttributeError] at an event that is no
    JSON object, in [KeyError('url')] at a ready event without a [url]; the
    events before it were pulled and passed, those after it are not
    pulled. *)
Theorem start_server_broken_stream (hub_url user : value)
    (server_name : string) (headers : value) (lines : list string)
    (w w1 : world) (pre : list (list (string * value))) :
  progress_stream hub_url user server_name headers w = Return lines w1 ->
  forallb waiting pre = true ->
  let o := start_server hub_url user server_name headers w in
  (forall e : exn,
      event_stream lines = map delivered pre ++ [Raise e] ->
      o = Throw e (logs (map yielded pre ++ [Yielded (Raise e)]) w1))
  /\ (forall (v : value) (later : list (result value)),
         event_stream lines = map delivered pre ++ Ok v :: later ->
         (forall ev, v <> VDict ev) ->
         o = Throw AttributeError
               (logs (map yielded pre ++ [Yielded (Ok v)]) w1))
  /\ (forall (ev : list (string * value)) (later : list (result value)),
         event_stream lines = map delivered pre ++ delivered ev :: later ->
         is_ready ev = true ->
         lookup "url" ev = None ->
         o = Throw (KeyError "url") (logs (map yielded pre ++ [yielded ev]) w1)).
Proof.
  intros Hopen Hpre o. subst o.
  rewrite (start_server_from _ _ _ _ _ _ _ Hopen).
  split; [|split].
  - intros e Hlines. rewrite Hlines, (wait_ready_waiting _ pre Hpre).
    cbn [wait_ready]. unfold bind, emit, lift, throw.
    now rewrite log_logs, logs_logs.
  - intros v later Hlines Hv. rewrite Hlines, (wait_ready_waiting _ pre Hpre).
    cbn [wait_ready]. unfold bind, emit, lift, ret, throw.
    rewrite log_logs, logs_logs.
    destruct v; try reflexivity. now destruct (Hv entries).
  - intros ev later Hlines Hready Hurl.
    rewrite Hlines, (wait_ready_waiting _ pre Hpre).
    rewrite wait_ready_step, Hready. unfold lift, getitem. rewrite Hurl.
    unfold throw. now rewrite log_logs, logs_logs.
Qed.

Lemma trace_since {w w' : world} (allowed : event -> bool) :
  (exists d, trace w' = trace w ++ d /\ forallb allowed d = true) ->
  trace w' = trace w ++ since w w' /\ forallb allowed (since w w') = true.
Proof.
  intros (d & Ht & Ha). now rewrite (since_app _ _ _ Ht).
Qed.

Lemma poll_stopped_polls (self : analyzer) (url server_name name : string)
    (replies : list (result value)) :
  forall w : world,
  exists d,
    trace (final (poll_stopped self url server_name name replies w))
    = trace w ++ d
    /\ forallb (poll_event url) d = true.
Proof.
  assert (Hget : forall h, poll_event url (Requested "GET" url h) = true).
  { intros h. simpl. now rewrite String.eqb_refl. }
  induction replies as [|reply replies IH]; intros w; cbn [poll_stopped];
    destruct (get_conf self "input" "handler_http_headers") as [headers|e].
  - exists [Requested "GET" url headers]. simpl. now rewrite String.eqb_refl.
  - exists []. simpl. now rewrite app_nil_r.
  - destruct reply as [user_model|e].
    + destruct (stopped user_model server_name name) as [[|]|e].
      * exists [Requested "GET" url headers]. cbn [forallb].
        now rewrite Hget.
      * destruct (IH (log (Slept 1)
                        (with_http replies
                           (log (Requested "GET" url headers) w))))
          as (d & Ht & Ha).
        exists (Requested "GET" url headers :: Slept 1 :: d).
        rewrite Ht. cbn [forallb]. rewrite Hget, Ha. simpl.
        now rewrite <- !app_assoc.
      * exists [Requested "GET" url headers]. cbn [forallb].
        now rewrite Hget.
    + exists [Requested "GET" url headers]. cbn [forallb]. now rewrite Hget.
  - exists []. simpl. now rewrite app_nil_r.
Qed.

(** [stop_server] asks the hub for nothing but the user model: whatever
    the hub answers, and however the call ends, every request it sent is
    the GET of the user's URL and every other event a sleep of one second;
    no request to stop the server is among them. *)
Theorem stop_server_only_polls (self : analyzer) (hub_url user : value)
    (server_name : string) (w : world) :
  let url := (py_str hub_url ++ "/hub/api/users/" ++ py_str user)%string in
  let w' := final (stop_server self hub_url user server_name w) in
  trace w' = trace w ++ since w w'
  /\ forallb (poll_event url) (since w w') = true.
Proof.
  intros url w'. apply trace_since. subst w'. unfold stop_server.
  apply poll_stopped_polls.
Qed.

(* ------------------------------------------------------------------ *)
(** ** Endpoint configuration: the URIs *)

Lemma replace_from_absent (c : ascii) (old new s : string) :
  is_substring (String c old) s = false ->
  replace_from (String c old) new 0 s = s.
Proof.
  induction s as [|x s IH]; [reflexivity|]. cbn [is_substring].
  intros H. apply orb_false_iff in H. destruct H as [Hp Hs].
  cbn [replace_from]. rewrite Hp. now rewrite (IH Hs).
Qed.

Lemma replace_from_at (c : ascii) (old new s : string) :
  (replace_from (String c old) new 0 (String c old ++ s)
   = new ++ replace_from (String c old) new 0 s)%string.
Proof.
  pose proof (prefix_append (String c old) s) as Hp.
  cbn [append] in *. cbn [replace_from]. rewrite Hp. f_equal.
  rewrite replace_from_skip. cbn [String.length]. simpl Nat.sub.
  now rewrite Nat.sub_0_r, drop_append.
Qed.

Lemma prefix_app_absent (p t suffix : string) :
  no_overlap p suffix = true ->
  prefix p t = false -> prefix p (t ++ suffix) = false.
Proof.
  revert t. induction p as [|a p IH]; intros t Hno H.
  - destruct t; discriminate.
  - cbn [no_overlap] in Hno. apply andb_true_iff in Hno.
    destruct Hno as [Hp Hno]. apply negb_true_iff in Hp.
    destruct t as [|b t]; [exact Hp|].
    cbn [append prefix] in *.
    destruct (ascii_dec a b); [|reflexivity]. now apply IH.
Qed.

Lemma is_substring_app_absent (p base suffix : string) :
  no_overlap p suffix = true ->
  is_substring p suffix = false ->
  is_substring p base = false ->
  is_substring p (base ++ suffix) = false.
Proof.
  intros Hno Hs. induction base as [|c base IH]; intros H; [exact Hs|].
  cbn [is_substring] in H. apply orb_false_iff in H. destruct H as [Hp Hb].
  change (String c base ++ suffix)%string with (String c (base ++ suffix)).
  cbn [is_substring]. rewrite (IH Hb), orb_false_r.
  exact (prefix_app_absent _ (String c base) _ Hno Hp).
Qed.

(** The websocket URI of an endpoint is its kernels URI with [http://]
    replaced by [ws://].  For a base [http://r] that holds no further
    [http://] it is [ws://r] followed by [api/kernels]; for a base that
    holds no [http://] at all, as one that starts with [https://] and
    names a host, it is the kernels URI itself, scheme included: nothing
    turns [https://] into [wss://]. *)
Theorem ws_uri_scheme (base : string) (conf : list (string * value)) :
  exists conf' ws,
    with_uris (VStr base) conf = Ok conf'
    /\ lookup "server_uri_http_api_kernels" conf'
       = Some (VStr (base ++ "api/kernels"))
    /\ lookup "server_uri_ws_api_kernels" conf' = Some (VStr ws)
    /\ (forall r : string,
           base = ("http://" ++ r)%string ->
           is_substring "http://" r = false ->
           ws = ("ws://" ++ r ++ "api/kernels")%string)
    /\ (is_substring "http://" base = false ->
        ws = (base ++ "api/kernels")%string).
Proof.
  exists (dict_set "server_uri_ws_api_kernels"
            (VStr (replace "http://" "ws://" (base ++ "api/kernels")))
            (dict_set "server_uri_http_api_kernels"
               (VStr (base ++ "api/kernels"))
               (dict_set "server_uri_http_api_contents"
                  (VStr (base ++ "api/contents")) conf))),
         (replace "http://" "ws://" (base ++ "api/kernels")).
  split; [reflexivity|]. split.
  { rewrite lookup_dict_set_other by discriminate.
    apply lookup_dict_set_same. }
  split; [apply lookup_dict_set_same|].
  assert (Hkeep : forall s,
             is_substring "http://" s = false ->
             replace "http://" "ws://" (s ++ "api/kernels")
             = (s ++ "api/kernels")%string).
  { intros s Hs. unfold replace. apply replace_from_absent.
    now apply is_substring_app_absent. }
  split.
  - intros r -> Hr. rewrite append_assoc. unfold replace.
    rewrite replace_from_at. f_equal. apply (Hkeep r Hr).
  - apply Hkeep.
Qed.

(** The configuration of an endpoint of the HTTP handler, once its token
    and its user are there.  On a plain server it is built without a
    request: no server, and the three URIs hang off the hostname.  On a hub
    it is built from what [start_server] returns for the server
    [cortex_job] of the user, asked with the token's header: the server's
    URL is kept and the three URIs hang off it, not off the hostname; an
    exception of [start_server] is the endpoint's. *)
Theorem http_endpoint_configuration (b : base) (hostname : string)
    (token hub user : value) (w : world) :
  get_handler (VStr hostname) = Ok HttpHandler ->
  filled token = true ->
  getParam b ["config"; "any_handler_http_user"] VNone
           (Some "[HTTP Handler only] Service name parameter is missing.")
  = Ok user ->
  filled user = true ->
  let headers := VDict [("Authorization", VStr ("token " ++ py_str token))] in
  let conf (server : value) (base_url : string) :=
    VDict [ ("hostname", VStr hostname);
            ("handler_type", VClass HttpHandler);
            ("handler_http_service_api_token", token);
            ("handler_http_is_jupyterhub", hub);
            ("handler_http_headers", headers);
            ("handler_http_user", user);
            ("server", server);
            ("server_uri_http_api_contents", VStr (base_url ++ "api/contents"));
            ("server_uri_http_api_kernels", VStr (base_url ++ "api/kernels"));
            ("server_uri_ws_api_kernels",
             VStr (replace "http://" "ws://" (base_url ++ "api/kernels"))) ] in
  let o := initialize_path b (VStr hostname) token hub w in
  (is_true hub = false -> o = Return (conf VNone hostname) w)
  /\ (is_true hub = true ->
      match start_server (VStr hostname) user "cortex_job" headers w with
      | Return server w' =>
          exists url, server = VStr url /\ o = Return (conf server url) w'
      | Throw e w' => o = Throw e w'
      | Starved w' => o = Starved w'
      end).
Proof.
  intros Hh Htok Huser Hfu headers conf o. subst o conf headers.
  unfold initialize_path, bind, lift, ret, throw.
  rewrite Hh, Htok, Huser, Hfu. cbn iota beta. split.
  - intros Hhub. rewrite Hhub. reflexivity.
  - intros Hhub. rewrite Hhub. cbn [getitem blank_conf dict_set lookup String.eqb Ascii.eqb Bool.eqb].
    simpl lookup. cbn iota beta.
    destruct (start_server (VStr hostname) user "cortex_job" _ w)
      as [server w'|e w'|w'] eqn:Hs; try reflexivity.
    destruct (start_server_returns_str _ _ _ _ _ _ _ Hs) as [url ->].
    exists url. split; reflexivity.
Qed.

(* ------------------------------------------------------------------ *)
(** ** Kernel session: the record of a notebook *)

Lemma bind_lift_return {A B : Type} (r : result A) (k : A -> M B) (b : B)
    (w w' : world) :
  bind (lift r) k w = Return b w' -> exists a, r = Ok a /\ k a w = Return b w'.
Proof.
  unfold bind. destruct r as [a|e]; simpl; [eauto|discriminate].
Qed.

Lemma bind_inv_return {A B : Type} (c : M A) (k : A -> M B) (b : B)
    (w w' : world) :
  bind c k w = Return b w' ->
  exists a w1, c w = Return a w1 /\ k a w1 = Return b w'.
Proof.
  unfold bind. destruct (c w) as [a w1|e w1|w1]; try discriminate. eauto.
Qed.

Lemma lift_return {A : Type} (r : result A) (a : A) (w w' : world) :
  lift r w = Return a w' -> r = Ok a /\ w' = w.
Proof.
  destruct r as [x|e]; simpl; [|discriminate].
  unfold ret. intros H. injection H as -> ->. auto.
Qed.

Lemma as_str_ok (v : value) (s : string) : as_str v = Ok s -> v = VStr s.
Proof.
  destruct v; simpl; try discriminate. intros H. now injection H as ->.
Qed.

Lemma confined_trace {A : Type} (allowed : event -> bool) (c : M A)
    (w : world) :
  confined allowed c ->
  trace (final (c w)) = trace w ++ since w (final (c w))
  /\ forallb allowed (since w (final (c w))) = true.
Proof.
  intros H. apply trace_since. apply H.
Qed.

(** What a round that returns went through. *)
Lemma execute_path_return (self : analyzer) (path nb : value) (w w' : world) :
  execute_path self path w = Return nb w' ->
  exists (url out : string) (direct : value) (written : list (string * value))
         (cells cells' : list value) (w1 : world),
    input_location self path = Ok (VStr url)
    /\ output_locations self path = Ok (VStr out, direct)
    /\ execute_cells cells (log (Loaded url) w) = Return cells' w1
    /\ write_ipynb (VDict written) out = Ok tt
    /\ w' = log (Written (VDict written) out) w1
    /\ nb = VDict (dict_set "name" path
                     (dict_set "output_notebook" direct
                        (dict_set "duration" (elapsed path) written))).
Proof.
  unfold execute_path. intros H.
  apply bind_lift_return in H. destruct H as (location & Hloc & H).
  apply bind_lift_return in H. destruct H as (url & Hurl & H).
  apply as_str_ok in Hurl. subst location.
  apply bind_inv_return in H. destruct H as ([] & w0 & He & H).
  injection He as <-.
  apply bind_lift_return in H. destruct H as (nb_input & _ & H).
  apply bind_lift_return in H. destruct H as (params & _ & H).
  apply bind_lift_return in H. destruct H as (nb_output & _ & H).
  apply bind_lift_return in H. destruct H as (cells_v & _ & H).
  apply bind_lift_return in H. destruct H as (cells & _ & H).
  apply bind_inv_return in H. destruct H as (cells' & w1 & Hcells & H).
  apply bind_lift_return in H. destruct H as (nb1 & _ & H).
  apply bind_lift_return in H. destruct H as ([out_v direct] & Hpaths & H).
  apply bind_lift_return in H. destruct H as (out & Hout & H).
  cbn [fst snd] in *. apply as_str_ok in Hout. subst out_v.
  apply bind_inv_return in H. destruct H as ([] & w2 & He & H).
  injection He as <-.
  apply bind_lift_return in H. destruct H as ([] & Hwrite & H).
  apply bind_lift_return in H. destruct H as (nb2 & H2 & H).
  apply bind_lift_return in H. destruct H as (nb3 & H3 & H).
  apply lift_return in H. destruct H as [H4 ->].
  destruct nb1 as [| | | | | |written|]; try discriminate.
  cbn [setitem] in H2. injection H2 as <-.
  cbn [setitem] in H3. injection H3 as <-.
  cbn [setitem] in H4. injection H4 as <-.
  exists url, out, direct, written, cells, cells', w1.
  repeat (split; [first [assumption|reflexivity]|]). reflexivity.
Qed.

Lemma record_entries (path direct duration : value)
    (written : list (string * value)) :
  let nb := VDict (dict_set "name" path
                     (dict_set "output_notebook" direct
                        (dict_set "duration" duration written))) in
  getitem nb "duration" = Ok duration
  /\ getitem nb "output_notebook" = Ok direct
  /\ getitem nb "name" = Ok path.
Proof.
  unfold getitem.
  rewrite lookup_dict_set_other, lookup_dict_set_other, lookup_dict_set_same
    by discriminate.
  rewrite lookup_dict_set_other, lookup_dict_set_same by discriminate.
  now rewrite lookup_dict_set_same.
Qed.

(** The record of a notebook in a remote run.  The notebook is loaded from
    its input location, its cells are exchanged with the kernel, and it is
    then handed to the writer with its output location, once, as the last
    action: the trace is the load, messages sent and frames received, and
    the write.  What the run returns for the notebook is what was written
    with three entries set after the write, which the stored notebook
    therefore lacks: the duration, the location to browse to as
    [output_notebook], and the path as [name]. *)
Theorem remote_notebook_record (self : analyzer) (path nb : value)
    (w w' : world) :
  execute_path self path w = Return nb w' ->
  exists (url out : string) (direct : value) (written : list (string * value))
         (exchange : list event),
    input_location self path = Ok (VStr url)
    /\ output_locations self path = Ok (VStr out, direct)
    /\ since w w' = Loaded url :: exchange ++ [Written (VDict written) out]
    /\ forallb exchange_event exchange = true
    /\ write_ipynb (VDict written) out = Ok tt
    /\ nb = VDict (dict_set "name" path
                     (dict_set "output_notebook" direct
                        (dict_set "duration" (elapsed path) written)))
    /\ getitem nb "duration" = Ok (elapsed path)
    /\ getitem nb "output_notebook" = Ok direct
    /\ getitem nb "name" = Ok path.
Proof.
  intros H. apply execute_path_return in H.
  destruct H as (url & out & direct & written & cells & cells' & w1
                 & Hloc & Hpaths & Hcells & Hwrite & -> & ->).
  destruct (confined_trace exchange_event (execute_cells cells)
              (log (Loaded url) w)
              (confined_execute_cells exchange_event cells
                 (fun _ => eq_refl) (fun _ => eq_refl)))
    as [Ht Hex].
  rewrite Hcells in Ht, Hex. cbn [final] in Ht, Hex.
  exists url, out, direct, written, (since (log (Loaded url) w) w1).
  split; [exact Hloc|]. split; [exact Hpaths|]. split.
  { apply since_app. cbn [log trace]. rewrite Ht. cbn [log trace].
    now rewrite <- !app_assoc. }
  split; [exact Hex|]. split; [exact Hwrite|]. split; [reflexivity|].
  apply record_entries.
Qed.

(** The entry of a remotely executed notebook in the report.  Unless
    [any_only_html] is the boolean false, the entry holds four things and
    nothing of the notebook itself: the path as [name], the duration, the
    location to browse to, and the HTML body; when it is false, the entry is
    the whole record with the body added as [html]. *)
Theorem remote_report_entry (self : analyzer) (path nb body : value)
    (w w' : world) :
  execute_path self path w = Return nb w' ->
  html_body nb = Ok body ->
  exists (out direct : value),
    output_locations self path = Ok (out, direct)
    /\ (any_only_html self <> VBool false ->
        convert self nb
        = Ok (VDict [ ("name", path); ("duration", elapsed path);
                      ("output_notebook", direct); ("html", body) ]))
    /\ (any_only_html self = VBool false ->
        exists entry,
          convert self nb = Ok entry
          /\ setitem nb "html" body = Ok entry
          /\ getitem entry "html" = Ok body).
Proof.
  intros H Hbody. apply execute_path_return in H.
  destruct H as (url & out & direct & written & cells & cells' & w1
                 & Hloc & Hpaths & Hcells & Hwrite & -> & ->).
  exists (VStr out), direct. split; [exact Hpaths|].
  destruct (record_entries path direct (elapsed path) written)
    as (Hd & Ho & Hn).
  unfold convert. rewrite Hbody. cbn [rbind]. split.
  - intros Hhtml. rewrite Hn, Ho, Hd. cbn [rbind].
    destruct (any_only_html self) as [|[|]| | | | | |]; try reflexivity.
    now destruct Hhtml.
  - intros ->. cbn [setitem]. eexists. split; [reflexivity|].
    split; [reflexivity|]. unfold getitem. now rewrite lookup_dict_set_same.
Qed.

(* ------------------------------------------------------------------ *)
(** ** Kernel session: the run *)

Lemma confined_execute_path (allowed : event -> bool) (self : analyzer)
    (path : value) :
  (forall e, session_event e = true -> allowed e = true) ->
  confined allowed (execute_path self path).
Proof.
  intros Hs. unfold execute_path.
  repeat (apply confined_bind;
          [ first [ apply confined_lift
                  | apply confined_emit; apply Hs; reflexivity
                  | apply confined_execute_cells; intros; apply Hs;
                    reflexivity ]
          | intros ? ]).
  apply confined_lift.
Qed.

Lemma confined_execute_paths (allowed : event -> bool) (self : analyzer)
    (paths : list value) :
  (forall e, session_event e = true -> allowed e = true) ->
  confined allowed (execute_paths self paths).
Proof.
  intros Hs. induction paths as [|path paths IH]; cbn [execute_paths].
  - apply confined_ret.
  - apply confined_bind; [now apply confined_execute_path|intros nb].
    apply confined_bind; [exact IH|intros rest]. apply confined_ret.
Qed.

Lemma confined_ws_connect (allowed : event -> bool) (url : string)
    (headers : value) :
  allowed (Connected url headers) = true ->
  confined allowed (ws_connect url headers).
Proof.
  intros H w. unfold ws_connect.
  destruct (websocket_connect url headers) as [[]|e]; simpl.
  - exists [Connected url headers]. simpl. now rewrite H.
  - exists []. now rewrite app_nil_r.
Qed.

Lemma confined_ws_close (allowed : event -> bool) :
  allowed Closed = true -> confined allowed ws_close.
Proof.
  intros H w. exists [Closed]. simpl. now rewrite H.
Qed.

Lemma confined_execute_notebook_remotely (allowed : event -> bool)
    (self : analyzer) :
  (forall e, remote_event e = true -> allowed e = true) ->
  confined allowed (execute_notebook_remotely self).
Proof.
  intros Hr. unfold execute_notebook_remotely.
  repeat (apply confined_bind;
          [ first [ apply confined_lift
                  | apply confined_http_json; apply Hr; reflexivity
                  | apply confined_ws_connect; apply Hr; reflexivity
                  | apply confined_ws_close; apply Hr; reflexivity
                  | apply confined_execute_paths; intros e He; apply Hr;
                    unfold remote_event; destruct e; try discriminate;
                    reflexivity ]
          | intros ? ]).
  apply confined_ret.
Qed.

Lemma execute_paths_length (self : analyzer) (paths : list value) :
  forall (results : list value) (w w' : world),
    execute_paths self paths w = Return results w' ->
    length results = length paths.
Proof.
  induction paths as [|path paths IH]; intros results w w' H;
    cbn [execute_paths] in H.
  - unfold ret in H. now injection H as <- _.
  - apply bind_inv_return in H. destruct H as (nb & w1 & _ & H).
    apply bind_inv_return in H. destruct H as (rest & w2 & Hrest & H).
    unfold ret in H. injection H as <- _. simpl.
    now rewrite (IH _ _ _ Hrest).
Qed.

(** What a remote run that returns went through. *)
Lemma execute_notebook_remotely_return (self : analyzer)
    (results : list value) (w w' : world) :
  execute_notebook_remotely self w = Return results w' ->
  exists (kernels id : string) (headers ws body : value)
         (rest : list (result value)) (paths : list value) (w1 : world),
    get_conf self "input" "server_uri_http_api_kernels" = Ok (VStr kernels)
    /\ get_conf self "input" "handler_http_headers" = Ok headers
    /\ get_conf self "input" "server_uri_ws_api_kernels" = Ok ws
    /\ http_replies w = Ok body :: rest
    /\ getitem body "id" = Ok (VStr id)
    /\ iterate (input_paths self) = Ok paths
    /\ execute_paths self paths
         (log (Connected (py_str ws ++ "/" ++ url_escape id ++ "/channels")
                         headers)
            (with_channel true
               (with_http rest (log (Requested "POST" kernels headers) w))))
       = Return results w1
    /\ w' = log Closed (with_channel false w1).
Proof.
  unfold execute_notebook_remotely. intros H.
  apply bind_lift_return in H. destruct H as (kernels_v & Hk & H).
  apply bind_lift_return in H. destruct H as (headers & Hh & H).
  apply bind_lift_return in H. destruct H as (kernels & Hks & H).
  apply as_str_ok in Hks. subst kernels_v.
  apply bind_inv_return in H. destruct H as (body & w0 & Hpost & H).
  unfold http_json in Hpost. cbn [log http_replies] in Hpost.
  destruct (http_replies w) as [|[body'|e] rest] eqn:Hw; try discriminate.
  injection Hpost as -> <-.
  apply bind_lift_return in H. destruct H as (kernel_id & Hid & H).
  apply bind_lift_return in H. destruct H as (ws & Hws & H).
  apply bind_lift_return in H. destruct H as (id & Hids & H).
  apply as_str_ok in Hids. subst kernel_id.
  apply bind_lift_return in H. destruct H as (headers' & Hh' & H).
  rewrite Hh in Hh'. injection Hh' as <-.
  apply bind_inv_return in H. destruct H as ([] & w1 & Hconn & H).
  unfold ws_connect in Hconn.
  destruct (websocket_connect _ headers) as [[]|e]; [|discriminate].
  injection Hconn as <-.
  apply bind_lift_return in H. destruct H as (paths & Hpaths & H).
  apply bind_inv_return in H. destruct H as (results' & w2 & Hrun & H).
  unfold bind, ws_close, ret in H. injection H as <- <-.
  exists kernels, id, headers, ws, body, rest, paths, w2.
  repeat (split; [first [assumption|reflexivity]|]). reflexivity.
Qed.

(** One kernel and one channel serve all the notebooks of a remote run:
    a run that returns has asked for a kernel once, by the POST on the
    input endpoint's kernels URI, has connected once, to the channels of
    the kernel the answer names, and has closed that channel at the end;
    everything between is the rounds of the notebooks (loads, messages sent,
    frames received, writes), whatever their number.  It returns one record
    per path. *)
Theorem remote_run_shares_one_kernel (self : analyzer) (results : list value)
    (w w' : world) :
  execute_notebook_remotely self w = Return results w' ->
  exists (kernels id : string) (headers ws body : value)
         (paths : list value) (session : list event),
    get_conf self "input" "server_uri_http_api_kernels" = Ok (VStr kernels)
    /\ get_conf self "input" "handler_http_headers" = Ok headers
    /\ get_conf self "input" "server_uri_ws_api_kernels" = Ok ws
    /\ hd_error (http_replies w) = Some (Ok body)
    /\ getitem body "id" = Ok (VStr id)
    /\ iterate (input_paths self) = Ok paths
    /\ length results = length paths
    /\ since w w'
       = Requested "POST" kernels headers
         :: Connected (py_str ws ++ "/" ++ url_escape id ++ "/channels") headers
         :: session ++ [Closed]
    /\ forallb session_event session = true.
Proof.
  intros H. apply execute_notebook_remotely_return in H.
  destruct H as (kernels & id & headers & ws & body & rest & paths & w1
                 & Hk & Hh & Hws & Hw & Hid & Hpaths & Hrun & ->).
  remember (log (Connected (py_str ws ++ "/" ++ url_escape id ++ "/channels")
                   headers)
              (with_channel true
                 (with_http rest (log (Requested "POST" kernels headers) w))))
    as w0 eqn:Hw0.
  destruct (confined_trace session_event (execute_paths self paths) w0
              (confined_execute_paths session_event self paths
                 (fun e He => He)))
    as [Ht Hs].
  rewrite Hrun in Ht, Hs. cbn [final] in Ht, Hs.
  exists kernels, id, headers, ws, body, paths, (since w0 w1).
  repeat (split; [assumption|]).
  split; [now rewrite Hw|]. split; [assumption|]. split; [assumption|].
  split; [exact (execute_paths_length _ _ _ _ _ Hrun)|].
  split; [|exact Hs].
  apply since_app. cbn [log with_channel trace]. rewrite Ht, Hw0.
  cbn [log with_channel with_http trace]. now rewrite <- !app_assoc.
Qed.

(** A notebook that fails ends the rounds: the notebooks after it are not
    touched, and the records of the notebooks before it are lost with the
    exception, which is the outcome of the whole. *)
Theorem failed_notebook_ends_rounds (self : analyzer)
    (done later : list value) (path : value) (records : list value)
    (e : exn) (w w1 w2 : world) :
  execute_paths self done w = Return records w1 ->
  execute_path self path w1 = Throw e w2 ->
  execute_paths self (done ++ path :: later) w = Throw e w2.
Proof.
  revert records w. induction done as [|p done IH]; intros records w Hdone Hfail.
  - cbn [execute_paths] in Hdone. unfold ret in Hdone.
    injection Hdone as _ <-. cbn [app execute_paths].
    now apply bind_throw.
  - cbn [app execute_paths] in *.
    apply bind_inv_return in Hdone. destruct Hdone as (nb & w0 & Hp & Hdone).
    apply bind_inv_return in Hdone.
    destruct Hdone as (rest & w0' & Hrest & Hret).
    unfold ret in Hret. injection Hret as _ <-.
    rewrite (bind_return _ _ _ _ _ Hp).
    apply bind_throw. now apply (IH rest).
Qed.

(* ------------------------------------------------------------------ *)
(** ** The driver *)

Lemma confined_bind_ok {A B : Type} (allowed : event -> bool) (a : A)
    (k : A -> M B) :
  confined allowed (k a) -> confined allowed (bind (lift (Ok a)) k).
Proof.
  intros H w. exact (H w).
Qed.

(** A round of the local loop logs the local execution and nothing else,
    unless it takes the remote branch of line 410. *)
Lemma confined_run_local (allowed : event -> bool) (self : analyzer)
    (path : value) :
  (forall i o, allowed (ExecutedLocally i o) = true) ->
  (execute_remotely self = Ok false
   \/ forall e, remote_event e = true -> allowed e = true) ->
  confined allowed (run_local self path).
Proof.
  intros Hl Hr. unfold run_local.
  apply confined_bind; [apply confined_lift|intros handler_type].
  apply confined_bind; [apply confined_lift|intros input_notebook].
  apply confined_bind; [apply confined_lift|intros paths].
  assert (Hlocal : confined allowed
            (params <- lift (parameters self) ;;
             input_path <- lift (as_str input_notebook) ;;
             output_path <- lift (as_str (fst paths)) ;;
             emit (ExecutedLocally input_path output_path) ;;;
             nb <- lift (pm_execute_notebook input_path output_path params) ;;
             nb <- lift (sanitize self nb "input_path") ;;
             nb <- lift (sanitize self nb "output_path") ;;
             duration <- lift (papermill_field nb "duration") ;;
             rounded <- lift (round3 duration) ;;
             nb <- lift (setitem nb "duration" rounded) ;;
             nb <- lift (setitem nb "output_notebook" (snd paths)) ;;
             lift (setitem nb "name" path))).
  { repeat (apply confined_bind;
            [ first [ apply confined_lift | apply confined_emit; apply Hl ]
            | intros ? ]).
    apply confined_lift. }
  destruct Hr as [Hr|Hr].
  - rewrite Hr. apply confined_bind_ok. exact Hlocal.
  - apply confined_bind; [apply confined_lift|intros remote].
    destruct remote; [|exact Hlocal].
    apply confined_bind;
      [now apply confined_execute_notebook_remotely|intros _].
    apply confined_ret.
Qed.

Lemma confined_run_locals (allowed : event -> bool) (self : analyzer)
    (paths : list value) :
  (forall i o, allowed (ExecutedLocally i o) = true) ->
  (execute_remotely self = Ok false
   \/ forall e, remote_event e = true -> allowed e = true) ->
  confined allowed (run_locals self paths).
Proof.
  intros Hl Hr. induction paths as [|path paths IH]; cbn [run_locals].
  - apply confined_ret.
  - apply confined_bind; [now apply confined_run_local|intros nb].
    apply confined_bind; [exact IH|intros rest]. apply confined_ret.
Qed.

Lemma run_locals_length (self : analyzer) (paths : list value) :
  forall (results : list value) (w w' : world),
    run_locals self paths w = Return results w' ->
    length results = length paths.
Proof.
  induction paths as [|path paths IH]; intros results w w' H;
    cbn [run_locals] in H.
  - unfold ret in H. now injection H as <- _.
  - apply bind_inv_return in H. destruct H as (nb & w1 & _ & H).
    apply bind_inv_return in H. destruct H as (rest & w2 & Hrest & H).
    unfold ret in H. injection H as <- _. simpl.
    now rewrite (IH _ _ _ Hrest).
Qed.

Lemma converts_length (self : analyzer) (results : list value) :
  forall entries, converts self results = Ok entries ->
                  length entries = length results.
Proof.
  induction results as [|nb results IH]; intros entries H;
    cbn [converts] in H.
  - now injection H as <-.
  - destruct (convert self nb) as [nb'|e]; [|discriminate]. cbn [rbind] in H.
    destruct (converts self results) as [rest|e]; [|discriminate].
    cbn [rbind] in H. injection H as <-. simpl. now rewrite (IH rest).
Qed.

(** The notebooks of a run, before their conversion (lines 381-440). *)
Lemma notebooks_of_run (self : analyzer) (remote : bool) :
  let notebooks :=
    if remote then execute_notebook_remotely self
    else paths <- lift (iterate (input_paths self)) ;; run_locals self paths in
  confined unreported notebooks
  /\ forall results w w',
      notebooks w = Return results w' ->
      exists paths,
        iterate (input_paths self) = Ok paths
        /\ length results = length paths.
Proof.
  destruct remote; cbn zeta; split.
  - apply confined_execute_notebook_remotely.
    intros e He. destruct e; try discriminate; reflexivity.
  - intros results w w' H. apply execute_notebook_remotely_return in H.
    destruct H as (kernels & id & headers & ws & body & rest & paths & w1
                   & _ & _ & _ & _ & _ & Hpaths & Hrun & _).
    exists paths. split; [exact Hpaths|].
    exact (execute_paths_length _ _ _ _ _ Hrun).
  - apply confined_bind; [apply confined_lift|intros paths].
    apply confined_run_locals; [reflexivity|right].
    intros e He. destruct e; try discriminate; reflexivity.
  - intros results w w' H.
    apply bind_lift_return in H. destruct H as (paths & Hpaths & H).
    exists paths. split; [exact Hpaths|].
    exact (run_locals_length _ _ _ _ _ H).
Qed.

(** How a run ends: with the report as the last event of its trace, or
    with no report in it. *)
Lemma run_outcome (self : analyzer) (w : world) :
  match run self w with
  | Return _ w' =>
      exists (before : list event) (entries paths : list value),
        trace w'
        = trace w ++ before ++ [Reported (VDict [("notebooks", VList entries)])]
        /\ forallb unreported before = true
        /\ iterate (input_paths self) = Ok paths
        /\ length entries = length paths
  | Throw _ w' | Starved w' =>
      exists d, trace w' = trace w ++ d /\ forallb unreported d = true
  end.
Proof.
  destruct (execute_remotely self) as [remote|e] eqn:Hr.
  2:{ assert (Hrun : run self w = Throw e w)
        by (unfold run, bind, lift, throw; now rewrite Hr).
      rewrite Hrun. exists []. now rewrite app_nil_r. }
  destruct (notebooks_of_run self remote) as [Hconf Hlen]. cbn zeta in *.
  set (notebooks := if remote then execute_notebook_remotely self
                    else paths <- lift (iterate (input_paths self)) ;;
                         run_locals self paths) in *.
  assert (Hrun : run self w
                 = (results <- notebooks ;;
                    entries <- lift (converts self results) ;;
                    emit (Reported (VDict [("notebooks", VList entries)]))) w).
  { unfold run. unfold bind at 1. now rewrite Hr. }
  rewrite Hrun. clear Hrun.
  destruct (confined_trace unreported notebooks w Hconf) as [Ht Hu].
  unfold bind, lift, emit.
  destruct (notebooks w) as [results w1|e w1|w1] eqn:Hn; cbn [final] in *.
  - destruct (converts self results) as [entries|e] eqn:Hc; cbn [ret throw].
    + destruct (Hlen results w w1 Hn) as (paths & Hpaths & Hl).
      exists (since w w1), entries, paths.
      split; [cbn [log trace]; rewrite Ht at 1; now rewrite <- app_assoc|].
      split; [exact Hu|]. split; [exact Hpaths|].
      rewrite <- Hl. exact (converts_length _ _ _ Hc).
    + eauto.
  - eauto.
  - eauto.
Qed.

(** A run reports once or not at all.  A run that returns has reported as
    its last action, and nothing before: the payload holds, under
    [notebooks], one entry per path of the job.  A run that ends in an
    exception, or that waits for an answer that does not come, has not
    called [self.report]: no partial result leaves the analyzer. *)
Theorem run_reports_once (self : analyzer) (w : world) :
  let o := run self w in
  let d := since w (final o) in
  trace (final o) = trace w ++ d
  /\ match o with
     | Return _ _ =>
         exists (before : list event) (entries paths : list value),
           d = before ++ [Reported (VDict [("notebooks", VList entries)])]
           /\ forallb unreported before = true
           /\ iterate (input_paths self) = Ok paths
           /\ length entries = length paths
     | Throw _ _ | Starved _ => forallb unreported d = true
     end.
Proof.
  cbn zeta. pose proof (run_outcome self w) as H.
  destruct (run self w) as [[] w'|e w'|w']; cbn [final].
  - destruct H as (before & entries & paths & Ht & Hb & Hp & Hl).
    rewrite (since_app _ _ _ Ht). split; [exact Ht|].
    exists before, entries, paths. auto.
  - destruct H as (d & Ht & Hd). now rewrite (since_app _ _ _ Ht).
  - destruct H as (d & Ht & Hd). now rewrite (since_app _ _ _ Ht).
Qed.


(** The record of a notebook in a local run.  Papermill is called once,
    with the input location (on an input endpoint of the HTTP handler, the
    contents URI, the path and the input token as the query; the hostname
    followed by the path otherwise) and with the writer's form of the
    output location, and that call is the round's only event.  The record
    is what papermill returned, sanitized, with the rounded duration of
    papermill's own metadata, the location to browse to as
    [output_notebook] and the path as [name]. *)
Theorem local_notebook_record (self : analyzer) (path nb : value)
    (w w' : world) :
  execute_remotely self = Ok false ->
  run_local self path w = Return nb w' ->
  exists (input out : string) (handler_type direct params raw clean rounded
          duration : value),
    get_conf self "input" "handler_type" = Ok handler_type
    /\ (if is_http_handler handler_type then input_location self path
        else chain [get_conf self "input" "hostname"; Ok path])
       = Ok (VStr input)
    /\ output_locations self path = Ok (VStr out, direct)
    /\ parameters self = Ok params
    /\ w' = log (ExecutedLocally input out) w
    /\ pm_execute_notebook input out params = Ok raw
    /\ (half <~ sanitize self raw "input_path" ;;
        sanitize self half "output_path") = Ok clean
    /\ papermill_field clean "duration" = Ok duration
    /\ round3 duration = Ok rounded
    /\ exists entries,
        clean = VDict entries
        /\ nb = VDict (dict_set "name" path
                         (dict_set "output_notebook" direct
                            (dict_set "duration" rounded entries)))
        /\ getitem nb "duration" = Ok rounded
        /\ getitem nb "output_notebook" = Ok direct
        /\ getitem nb "name" = Ok path.
Proof.
  intros Hr. unfold run_local. intros H.
  apply bind_lift_return in H. destruct H as (handler_type & Hh & H).
  apply bind_lift_return in H. destruct H as (input_v & Hin & H).
  apply bind_lift_return in H. destruct H as ([out_v direct] & Hout & H).
  rewrite Hr in H.
  apply bind_lift_return in H. destruct H as (remote & Hremote & H).
  injection Hremote as <-.
  apply bind_lift_return in H. destruct H as (params & Hparams & H).
  apply bind_lift_return in H. destruct H as (input & Hi & H).
  apply as_str_ok in Hi. subst input_v.
  apply bind_lift_return in H. destruct H as (out & Ho & H).
  cbn [fst snd] in *. apply as_str_ok in Ho. subst out_v.
  apply bind_inv_return in H. destruct H as ([] & w0 & He & H).
  injection He as <-.
  apply bind_lift_return in H. destruct H as (raw & Hraw & H).
  apply bind_lift_return in H. destruct H as (half & Hhalf & H).
  apply bind_lift_return in H. destruct H as (clean & Hclean & H).
  apply bind_lift_return in H. destruct H as (duration & Hd & H).
  apply bind_lift_return in H. destruct H as (rounded & Hround & H).
  apply bind_lift_return in H. destruct H as (nb1 & H1 & H).
  apply bind_lift_return in H. destruct H as (nb2 & H2 & H).
  apply lift_return in H. destruct H as [H3 ->].
  destruct clean as [| | | | | |entries|]; try discriminate.
  cbn [setitem] in H1. injection H1 as <-.
  cbn [setitem] in H2. injection H2 as <-.
  cbn [setitem] in H3. injection H3 as <-.
  exists input, out, handler_type, direct, params, raw, (VDict entries),
         rounded, duration.
  repeat (split; [first [assumption|reflexivity]|]).
  split; [now rewrite Hhalf|].
  split; [assumption|]. split; [assumption|].
  exists entries. split; [reflexivity|]. split; [reflexivity|].
  apply record_entries.
Qed.

(* ------------------------------------------------------------------ *)
(** ** The sanitized output path *)

Lemma prefix_refl (s : string) : prefix s s = true.
Proof.
  induction s as [|c s IH]; [reflexivity|]. cbn [prefix].
  destruct (ascii_dec c c) as [_|E]; [exact IH|contradiction].
Qed.

Lemma drop_all (s : string) : drop (String.length s) s = "".
Proof.
  induction s as [|c s IH]; [reflexivity|exact IH].
Qed.

(** The writer's form of the output location on an endpoint of the HTTP
    handler: a location without the token, and the token as the query. *)
Lemma output_path_http (self : analyzer)
    (contents token hostname user folder data path : string) :
  get_conf self "output" "handler_type" = Ok (VClass HttpHandler) ->
  get_conf self "output" "server_uri_http_api_contents" = Ok (VStr contents) ->
  get_conf self "output" "handler_http_service_api_token" = Ok (VStr token) ->
  get_conf self "output" "hostname" = Ok (VStr hostname) ->
  get_conf self "input" "handler_http_user" = Ok (VStr user) ->
  output_folder self = VStr folder ->
  getParam (self_base self) ["data"] VNone (Some "Data is missing")
  = Ok (VStr data) ->
  exists direct,
    output_locations self (VStr path)
    = Ok (VStr ((contents ++ folder ++ today ++ "-" ++ data ++ "-" ++ tail path)
                ++ "?token=" ++ token),
          direct).
Proof.
  intros Hh Hc Ht Hn Hu Hf Hd.
  exists (VStr (direct_location hostname user folder today data path)).
  replace ((contents ++ folder ++ today ++ "-" ++ data ++ "-" ++ tail path)
           ++ "?token=" ++ token)%string
    with (api_location contents folder today data path token)
    by (unfold api_location; now rewrite !append_assoc).
  unfold output_locations, dated_name. rewrite Hh. simpl.
  rewrite Hc, Ht, Hn, Hu, Hf, Hd. unfold api_location, direct_location, tail.
  destruct path as [|c path]; simpl; rewrite ?append_assoc; reflexivity.
Qed.

(** The output token is taken out of a recorded path that ends in it: a
    path recorded as a location, [?token=] and the output endpoint's token
    is reported as the location alone, when neither the location nor the
    token holds a question mark.  The path papermill is given for an
    output endpoint of the HTTP handler is of that form: the contents URI,
    the folder, the date, the observable and the path without its first
    character, then the token. *)
Theorem sanitize_strips_output_token (self : analyzer) (nb : value)
    (key location token : string) :
  papermill_field nb key = Ok (VStr (location ++ "?token=" ++ token)) ->
  get_conf self "output" "handler_http_service_api_token" = Ok (VStr token) ->
  no_question_mark location = true ->
  no_question_mark token = true ->
  sanitize self nb key = set_papermill_field nb key (VStr location)
  /\ forall contents hostname user folder data path : string,
      get_conf self "output" "handler_type" = Ok (VClass HttpHandler) ->
      get_conf self "output" "server_uri_http_api_contents"
      = Ok (VStr contents) ->
      get_conf self "output" "hostname" = Ok (VStr hostname) ->
      get_conf self "input" "handler_http_user" = Ok (VStr user) ->
      output_folder self = VStr folder ->
      getParam (self_base self) ["data"] VNone (Some "Data is missing")
      = Ok (VStr data) ->
      location
      = (contents ++ folder ++ today ++ "-" ++ data ++ "-" ++ tail path)%string ->
      exists direct,
        output_locations self (VStr path)
        = Ok (VStr (location ++ "?token=" ++ token), direct).
Proof.
  intros Hrec Htok Hl Ht. split.
  - unfold sanitize. rewrite Hrec. cbn [rbind chain fold_left].
    rewrite Htok. cbn [rbind concat as_str].
    rewrite (replace_token token location token Hl Ht).
    now rewrite prefix_refl, drop_all, append_nil_r.
  - intros contents hostname user folder data path Hh Hc Hn Hu Hf Hd ->.
    exact (output_path_http self contents token hostname user folder data
             path Hh Hc Htok Hn Hu Hf Hd).
Qed.

(* ------------------------------------------------------------------ *)
(** ** The summary *)

(** The summary of a report this analyzer makes is never built: every
    payload a run reports holds the notebooks and no [savedsearches], so
    [summary] raises [KeyError('savedsearches')] on it before it looks at
    anything else. *)
Theorem summary_of_own_report (self : analyzer) (w : world) (payload : value) :
  In (Reported payload) (since w (final (run self w))) ->
  summary payload = Raise (KeyError "savedsearches").
Proof.
  assert (Hno : forall d, forallb unreported d = true ->
                          ~ In (Reported payload) d).
  { intros d Hd Hin. rewrite forallb_forall in Hd.
    specialize (Hd _ Hin). discriminate. }
  pose proof (run_outcome self w) as H.
  destruct (run self w) as [[] w'|e w'|w']; cbn [final].
  - destruct H as (before & entries & paths & Ht & Hb & _).
    rewrite (since_app _ _ _ Ht). intros Hin.
    apply in_app_or in Hin. destruct Hin as [Hin|[Hin|[]]].
    + now destruct (Hno _ Hb).
    + injection Hin as <-. reflexivity.
  - destruct H as (d & Ht & Hd). rewrite (since_app _ _ _ Ht).
    intros Hin. now destruct (Hno _ Hd).
  - destruct H as (d & Ht & Hd). rewrite (since_app _ _ _ Ht).
    intros Hin. now destruct (Hno _ Hd).
Qed.

Lemma tally_reads (item : value) (s : search) (a b c d e : Z) :
  reads item s ->
  tally (mkTallies (NInt a) (NInt b) (NInt c) (NInt d) (NInt e)) item
  = Ok (mkTallies (NInt (a + resultCount s)) (NInt (b + info_of s))
                  (NInt (c + safe_of s)) (NInt (d + suspicious_of s))
                  (NInt (e + malicious_of s))).
Proof.
  unfold reads, tally, info_of, safe_of, suspicious_of, malicious_of,
    levels_or_zero.
  intros [Hc Hl]. rewrite Hc. cbn [rbind add taxonomyResults].
  destruct (levels s) as [[[[i sa] su] m]|].
  - destruct Hl as (Hin & lv & Hlv & Hi & Hsa & Hsu & Hm).
    rewrite Hin. cbn [rbind]. rewrite Hlv. cbn [rbind].
    rewrite Hi, Hsa, Hsu, Hm. reflexivity.
  - rewrite Hl. cbn [rbind taxonomyInfo taxonomySafe taxonomySuspicious
                     taxonomyMalicious].
    now rewrite !Z.add_0_r.
Qed.

Lemma tally_all_reads (items : list value) (searches : list search) :
  Forall2 reads items searches ->
  forall a b c d e : Z,
    tally_all (mkTallies (NInt a) (NInt b) (NInt c) (NInt d) (NInt e)) items
    = Ok (mkTallies (NInt (a + total resultCount searches))
                    (NInt (b + total info_of searches))
                    (NInt (c + total safe_of searches))
                    (NInt (d + total suspicious_of searches))
                    (NInt (e + total malicious_of searches))).
Proof.
  induction 1 as [|item s items searches Hs _ IH]; intros a b c d e.
  - cbn [tally_all total fold_right]. now rewrite !Z.add_0_r.
  - cbn [tally_all]. rewrite (tally_reads item s a b c d e Hs).
    cbn [rbind]. rewrite IH. unfold total. cbn [fold_right].
    now rewrite !Z.add_assoc.
Qed.

(** The summary of saved searches whose numbers are ints.  The list of
    taxonomies starts with [Results]: suspicious, with the sum of the
    counts as its value, as soon as that sum is above zero, and safe with
    the text [None] as its value otherwise.  It goes on with [Info],
    [Safe], [Suspicious] and [Malicious], in this order, each with the sum
    of its level over the searches that have levels, and each left out
    unless its sum is above zero. *)
Theorem summary_taxonomies (raw : value) (items : list value)
    (searches : list search) :
  getitem raw "savedsearches" = Ok (VList items) ->
  Forall2 reads items searches ->
  summary raw
  = Ok (VDict [("taxonomies",
          VList ((if (0 <? total resultCount searches)%Z
                  then taxonomy "suspicious" "Results"
                         (VInt (total resultCount searches))
                  else taxonomy "safe" "Results" (VStr "None"))
                 :: listed "info" "Info" (total info_of searches)
                 ++ listed "safe" "Safe" (total safe_of searches)
                 ++ listed "suspicious" "Suspicious"
                      (total suspicious_of searches)
                 ++ listed "malicious" "Malicious"
                      (total malicious_of searches)))]).
Proof.
  intros Hraw Hreads. unfold summary. rewrite Hraw. cbn [rbind iterate].
  rewrite (tally_all_reads items searches Hreads 0 0 0 0 0).
  cbn [rbind taxonomyResults taxonomyInfo taxonomySafe taxonomySuspicious
       taxonomyMalicious above_zero number_value Z.add].
  unfold optional, listed. cbn [above_zero number_value]. reflexivity.
Qed.

(* ------------------------------------------------------------------ *)
(** ** Construction *)

Lemma initialize_path_quiet (b : base) (hostname token hub : value)
    (w : world) :
  is_true hub = false ->
  final (initialize_path b hostname token hub w) = w.
Proof.
  intros Hhub. unfold initialize_path, bind, lift, ret, throw.
  destruct (get_handler hostname) as [[|name]|e]; try reflexivity.
  destruct (filled token); [|reflexivity].
  destruct (getParam b _ _ _) as [user|e]; [|reflexivity].
  destruct (filled user); [|reflexivity].
  rewrite Hhub.
  destruct (with_uris hostname _) as [conf|e]; reflexivity.
Qed.

Lemma lift_final {A : Type} (r : result A) (w : world) : final (lift r w) = w.
Proof.
  destruct r; reflexivity.
Qed.

Lemma bind_final {A B : Type} (c : M A) (k : A -> M B) (w : world) :
  final (c w) = w ->
  (forall a, final (k a w) = w) ->
  final (bind c k w) = w.
Proof.
  intros Hc Hk. unfold bind.
  destruct (c w) as [a w1|e w1|w1]; cbn [final] in *; subst; auto.
Qed.

(** The analyzer is constructed without a word to the network unless an
    endpoint is declared a hub: when neither flag is the boolean true, the
    construction, be it completed or ended by an error, sends no request
    and leaves the world as it found it. *)
Theorem plain_endpoints_need_no_network (b : base) (w : world) :
  getParam b ["config"; "input_handler_http_is_jupyterhub"] VNone
    (Some "[HTTP Handler only] JupyterHub for input notebook boolean parameter is missing.")
  <> Ok (VBool true) ->
  getParam b ["config"; "output_handler_http_is_jupyterhub"] VNone
    (Some "[HTTP Handler only] JupyterHub for output notebook boolean parameter is missing.")
  <> Ok (VBool true) ->
  final (init b w) = w.
Proof.
  intros Hin Hout. unfold init.
  assert (Hflag : forall hub, Ok hub <> Ok (VBool true) -> is_true hub = false).
  { intros hub Hr. destruct hub as [|[|]| | | | | |]; try reflexivity.
    now destruct Hr. }
  apply bind_final; [apply lift_final|intros hostname].
  apply bind_final; [apply lift_final|intros token].
  destruct (getParam b ["config"; "input_handler_http_is_jupyterhub"] _ _)
    as [hub|e]; [|reflexivity].
  unfold bind at 1. cbn [lift ret].
  apply bind_final; [now apply initialize_path_quiet, Hflag|intros input_conf].
  apply bind_final; [apply lift_final|intros paths].
  apply bind_final; [apply lift_final|intros remotely].
  apply bind_final; [apply lift_final|intros hostname'].
  apply bind_final; [apply lift_final|intros token'].
  destruct (getParam b ["config"; "output_handler_http_is_jupyterhub"] _ _)
    as [hub'|e]; [|reflexivity].
  unfold bind at 1. cbn [lift ret].
  apply bind_final; [now apply initialize_path_quiet, Hflag|intros output_conf].
  apply bind_final; [apply lift_final|intros folder].
  apply bind_final; [apply lift_final|intros only_html].
  reflexivity.
Qed.

Lemma with_uris_keeps (base_url : value) (conf conf' : list (string * value))
    (key : string) :
  with_uris base_url conf = Ok conf' ->
  "server_uri_http_api_contents" <> key ->
  "server_uri_http_api_kernels" <> key ->
  "server_uri_ws_api_kernels" <> key ->
  lookup key conf' = lookup key conf.
Proof.
  intros Hu Hc Hk Hw. unfold with_uris in Hu.
  destruct (concat base_url (VStr "api/contents")) as [contents|];
    [|discriminate].
  destruct (concat base_url (VStr "api/kernels")) as [kernels|];
    [|discriminate].
  cbn [rbind] in Hu.
  destruct (as_str kernels) as [text|]; [|discriminate].
  cbn [rbind] in Hu. injection Hu as <-.
  now rewrite !lookup_dict_set_other by assumption.
Qed.

(** What a configuration that [initialize_path] returns holds. *)
Lemma initialize_path_return (b : base) (hostname token hub conf : value)
    (w w' : world) :
  initialize_path b hostname token hub w = Return conf w' ->
  conf = VNone
  \/ exists entries user,
      conf = VDict entries
      /\ lookup "handler_type" entries = Some (VClass HttpHandler)
      /\ getParam b ["config"; "any_handler_http_user"] VNone
           (Some "[HTTP Handler only] Service name parameter is missing.")
         = Ok user
      /\ lookup "handler_http_user" entries = Some user
      /\ lookup "handler_http_service_api_token" entries = Some token
      /\ lookup "hostname" entries = Some hostname.
Proof.
  unfold initialize_path. intros H.
  apply bind_lift_return in H. destruct H as ([|name] & _ & H).
  2:{ unfold ret in H. injection H as <- _. now left. }
  right.
  apply bind_inv_return in H. destruct H as (r1 & w1 & H1 & H).
  destruct (filled token); [|discriminate].
  unfold ret in H1. injection H1 as <- <-.
  apply bind_lift_return in H. destruct H as (user & Huser & H).
  apply bind_inv_return in H. destruct H as (r2 & w2 & H2 & H).
  destruct (filled user); [|discriminate].
  unfold ret in H2. injection H2 as <- <-.
  apply bind_inv_return in H. destruct H as (r3 & w3 & H3 & H).
  unfold ret in H. injection H as <- <-.
  exists r3, user. split; [reflexivity|].
  assert (Hkeep : forall key v,
             "server_uri_http_api_contents" <> key ->
             "server_uri_http_api_kernels" <> key ->
             "server_uri_ws_api_kernels" <> key ->
             "server" <> key ->
             lookup key
               (dict_set "handler_http_user" user
                  (dict_set "handler_http_headers"
                     (VDict [("Authorization",
                              VStr ("token " ++ py_str token))])
                     (blank_conf hostname HttpHandler token hub)))
             = Some v ->
             lookup key r3 = Some v).
  { intros key v Hc Hk Hw Hs Hv. destruct (is_true hub).
    - apply bind_lift_return in H3. destruct H3 as (user' & _ & H3).
      apply bind_lift_return in H3. destruct H3 as (headers & _ & H3).
      apply bind_inv_return in H3. destruct H3 as (server & w4 & _ & H3).
      apply lift_return in H3. destruct H3 as [H3 _].
      rewrite (with_uris_keeps _ _ _ key H3 Hc Hk Hw).
      now rewrite lookup_dict_set_other by assumption.
    - apply lift_return in H3. destruct H3 as [H3 _].
      now rewrite (with_uris_keeps _ _ _ key H3 Hc Hk Hw). }
  split; [apply Hkeep; try discriminate; reflexivity|].
  split; [exact Huser|].
  split; [apply Hkeep; try discriminate; reflexivity|].
  split; apply Hkeep; try discriminate; reflexivity.
Qed.

(** Every endpoint of a constructed analyzer is an endpoint of the HTTP
    handler, or has no configuration at all.  So the branches that build a
    location for another handler (lines 349-351, 393-394 and 400-402) serve
    no constructed analyzer: its output locations are those of the HTTP
    handler, or the lookup of the handler type raises. *)
Theorem constructed_endpoints_are_http (b : base) (self : analyzer)
    (w w' : world) :
  init b w = Return self w' ->
  (input_configuration self = VNone
   \/ get_conf self "input" "handler_type" = Ok (VClass HttpHandler))
  /\ (output_configuration self = VNone
      \/ get_conf self "output" "handler_type" = Ok (VClass HttpHandler))
  /\ forall path : value,
      output_locations self path = Raise TypeError
      \/ get_conf self "output" "handler_type" = Ok (VClass HttpHandler).
Proof.
  unfold init. intros H.
  apply bind_lift_return in H. destruct H as (hostname & _ & H).
  apply bind_lift_return in H. destruct H as (token & _ & H).
  apply bind_lift_return in H. destruct H as (hub & _ & H).
  apply bind_inv_return in H. destruct H as (input_conf & w1 & Hin & H).
  apply bind_lift_return in H. destruct H as (paths & _ & H).
  apply bind_lift_return in H. destruct H as (remotely & _ & H).
  apply bind_lift_return in H. destruct H as (hostname' & _ & H).
  apply bind_lift_return in H. destruct H as (token' & _ & H).
  apply bind_lift_return in H. destruct H as (hub' & _ & H).
  apply bind_inv_return in H. destruct H as (output_conf & w2 & Hout & H).
  apply bind_lift_return in H. destruct H as (folder & _ & H).
  apply bind_lift_return in H. destruct H as (only_html & _ & H).
  unfold ret in H. injection H as <- _.
  apply initialize_path_return in Hin, Hout.
  unfold get_conf, output_locations, get_conf.
  cbn [input_configuration output_configuration String.eqb Ascii.eqb Bool.eqb].
  split; [|split].
  - destruct Hin as [->|(entries & user & -> & Hl & _)]; [now left|right].
    unfold getitem. now rewrite Hl.
  - destruct Hout as [->|(entries & user & -> & Hl & _)]; [now left|right].
    unfold getitem. now rewrite Hl.
  - intros path.
    destruct Hout as [->|(entries & user & -> & Hl & _)]; [now left|right].
    unfold getitem. now rewrite Hl.
Qed.

Lemma getParam_config_ok (b : base) (job config : list (string * value))
    (name : string) (default v : value) (message : string) :
  _input b = VDict job ->
  lookup "config" job = Some (VDict config) ->
  getParam b ["config"; name] default (Some message) = Ok v ->
  lookup name config = Some v /\ v <> VNone.
Proof.
  intros Hb Hc. rewrite (getParam_config b job config _ _ _ Hb Hc).
  destruct (lookup name config) as [[]|]; try discriminate;
    intros H; injection H as <-; split; try reflexivity; discriminate.
Qed.

(** What a constructed analyzer holds is what the job's configuration
    gave, and all of it had to be given: the paths, the execution mode,
    the output folder and [any_only_html] are the configured values, none
    of them null; the default [True] of [any_only_html] is never used,
    since a job without the key is refused with the key's message.  Both
    endpoints, where configured, have the one user of
    [config.any_handler_http_user], and each the hostname and the token
    given for it. *)
Theorem constructed_analyzer_reads_config (b : base)
    (job config : list (string * value)) (self : analyzer) (w w' : world) :
  _input b = VDict job ->
  lookup "config" job = Some (VDict config) ->
  init b w = Return self w' ->
  self_base self = b
  /\ (lookup "input_paths" config = Some (input_paths self)
      /\ input_paths self <> VNone)
  /\ (lookup "input_handler_http_execute_remotely" config
      = Some (input_execute_remotely self)
      /\ input_execute_remotely self <> VNone)
  /\ (lookup "output_folder" config = Some (output_folder self)
      /\ output_folder self <> VNone)
  /\ (lookup "any_only_html" config = Some (any_only_html self)
      /\ any_only_html self <> VNone)
  /\ (forall user,
         get_conf self "input" "handler_http_user" = Ok user ->
         lookup "any_handler_http_user" config = Some user
         /\ exists hostname token,
             lookup "input_hostname" config = Some hostname
             /\ get_conf self "input" "hostname" = Ok hostname
             /\ lookup "input_handler_http_service_api_token" config
                = Some token
             /\ get_conf self "input" "handler_http_service_api_token"
                = Ok token)
  /\ (forall user,
         get_conf self "output" "handler_http_user" = Ok user ->
         lookup "any_handler_http_user" config = Some user
         /\ exists hostname token,
             lookup "output_hostname" config = Some hostname
             /\ get_conf self "output" "hostname" = Ok hostname
             /\ lookup "output_handler_http_service_api_token" config
                = Some token
             /\ get_conf self "output" "handler_http_service_api_token"
                = Ok token).
Proof.
  intros Hb Hc. unfold init. intros H.
  apply bind_lift_return in H. destruct H as (hostname & Hhost & H).
  apply bind_lift_return in H. destruct H as (token & Htok & H).
  apply bind_lift_return in H. destruct H as (hub & _ & H).
  apply bind_inv_return in H. destruct H as (input_conf & w1 & Hin & H).
  apply bind_lift_return in H. destruct H as (paths & Hpaths & H).
  apply bind_lift_return in H. destruct H as (remotely & Hrem & H).
  apply bind_lift_return in H. destruct H as (hostname' & Hhost' & H).
  apply bind_lift_return in H. destruct H as (token' & Htok' & H).
  apply bind_lift_return in H. destruct H as (hub' & _ & H).
  apply bind_inv_return in H. destruct H as (output_conf & w2 & Hout & H).
  apply bind_lift_return in H. destruct H as (folder & Hfolder & H).
  apply bind_lift_return in H. destruct H as (only_html & Hhtml & H).
  unfold ret in H. injection H as <- _.
  cbn [self_base input_paths input_execute_remotely output_folder
       any_only_html].
  apply (getParam_config_ok b job config _ _ _ _ Hb Hc) in Hpaths, Hrem,
    Hfolder, Hhtml, Hhost, Htok, Hhost', Htok'.
  apply initialize_path_return in Hin, Hout.
  split; [reflexivity|]. split; [exact Hpaths|]. split; [exact Hrem|].
  split; [exact Hfolder|]. split; [exact Hhtml|].
  unfold get_conf.
  cbn [input_configuration output_configuration String.eqb Ascii.eqb Bool.eqb].
  split.
  - intros user Hu.
    destruct Hin as [->|(entries & user0 & -> & _ & Hget & Hl & Ht & Hh)];
      [discriminate|].
    unfold getitem in *. rewrite Hl in Hu. injection Hu as <-.
    rewrite Hh, Ht.
    split; [exact (proj1 (getParam_config_ok b job config _ _ _ _ Hb Hc Hget))|].
    exists hostname, token.
    exact (conj (proj1 Hhost) (conj eq_refl (conj (proj1 Htok) eq_refl))).
  - intros user Hu.
    destruct Hout as [->|(entries & user0 & -> & _ & Hget & Hl & Ht & Hh)];
      [discriminate|].
    unfold getitem in *. rewrite Hl in Hu. injection Hu as <-.
    rewrite Hh, Ht.
    split; [exact (proj1 (getParam_config_ok b job config _ _ _ _ Hb Hc Hget))|].
    exists hostname', token'.
    exact (conj (proj1 Hhost') (conj eq_refl (conj (proj1 Htok') eq_refl))).
Qed.

(* ------------------------------------------------------------------ *)
(** ** Names *)

Lemma rstrip_slash_slashes (s : string) :
  exists n, s = (rstrip_slash s ++ slashes n)%string.
Proof.
  induction s as [|c s [n IH]]; [now exists 0|].
  cbn [rstrip_slash]. destruct (rstrip_slash s) as [|x r] eqn:Hr.
  - destruct (c =? "/")%char eqn:Hc.
    + apply Ascii.eqb_eq in Hc. subst c. exists (S n).
      cbn [append slashes]. f_equal. exact IH.
    + exists n. cbn [append]. f_equal. exact IH.
  - exists n. cbn [append]. f_equal. exact IH.
Qed.

Lemma rstrip_slash_end (s : string) : ends_with_slash (rstrip_slash s) = false.
Proof.
  induction s as [|c s IH]; [reflexivity|].
  cbn [rstrip_slash]. destruct (rstrip_slash s) as [|x r] eqn:Hr.
  - destruct (c =? "/")%char eqn:Hc; [reflexivity|].
    cbn [ends_with_slash]. exact Hc.
  - cbn [ends_with_slash] in *. exact IH.
Qed.

Lemma rstrip_slash_app_slash (s : string) :
  rstrip_slash (s ++ "/") = rstrip_slash s.
Proof.
  induction s as [|c s IH]; [reflexivity|].
  cbn [append rstrip_slash]. now rewrite IH.
Qed.

Lemma rstrip_slash_id (s : string) :
  ends_with_slash s = false -> rstrip_slash s = s.
Proof.
  induction s as [|c s IH]; [reflexivity|].
  intros Hend. cbn [rstrip_slash]. destruct s as [|x s].
  - cbn [ends_with_slash] in Hend. cbn [rstrip_slash]. now rewrite Hend.
  - cbn [ends_with_slash] in Hend. now rewrite (IH Hend).
Qed.

(** The name of a server in the messages of [start_server] and
    [stop_server] is the user, a slash and the server's name without the
    slashes at its end, and nothing else is taken off: for the unnamed
    server (the default), it is the user alone when the user does not end
    in a slash. *)
Theorem log_name_strips_slashes (user : value) (server_name : string) :
  (exists n,
      (py_str user ++ "/" ++ server_name)%string
      = (log_name user server_name ++ slashes n)%string)
  /\ ends_with_slash (log_name user server_name) = false
  /\ (ends_with_slash (py_str user) = false ->
      log_name user "" = py_str user).
Proof.
  unfold log_name. split; [apply rstrip_slash_slashes|].
  split; [apply rstrip_slash_end|].
  intros Hend. change ("/" ++ "")%string with "/".
  rewrite rstrip_slash_app_slash. now apply rstrip_slash_id.
Qed.

(* ------------------------------------------------------------------ *)
(** ** Kernel session: the cells of a notebook, from the channel to the
    notebook *)

Lemma on_message_answers (msg_id : string) (cell : list (string * value))
    (msg : value) :
  answers msg_id msg = true ->
  exists cell', on_message msg_id (VDict cell) msg = Ok (Some cell').
Proof.
  unfold answers. intros H.
  destruct (getitem msg "msg_type") as [mt|] eqn:Ht; [|discriminate].
  destruct (correlating_id msg) as [id|] eqn:Hid; [|discriminate].
  rewrite (on_message_unfold msg_id (VDict cell) msg mt id Ht Hid).
  apply andb_true_iff in H. destruct H as [Hsame H]. rewrite Hsame.
  apply orb_true_iff in H. destruct H as [H|H].
  - apply eq_str_true in H. subst mt. cbn. eauto.
  - apply andb_true_iff in H. destruct H as [Hkind Hout].
    destruct (output_from_msg msg) as [output|]; [|discriminate].
    apply orb_true_iff in Hkind.
    destruct Hkind as [Hk|Hk]; apply eq_str_true in Hk; subst mt; cbn; eauto.
Qed.

(** The wait returns when the frames hold an answer. *)
Lemma await_frames_settled (msg_id : string) (cell : list (string * value))
    (frames : list (result value)) :
  forall (rest : list (result value)) (w : world),
    settled msg_id frames = Some rest ->
    exists cell' w',
      await_frames msg_id (VDict cell) frames w = Return cell' w'
      /\ inbox w' = rest
      /\ channel_open w' = channel_open w
      /\ uuids_drawn w' = uuids_drawn w.
Proof.
  induction frames as [|frame frames IH]; intros rest w H; [discriminate|].
  cbn [settled] in H. destruct frame as [msg|e]; [|discriminate].
  cbn [await_frames].
  destruct (passed_over msg_id msg) eqn:Hpass.
  - rewrite (on_message_passed_over _ _ _ Hpass).
    destruct (IH rest (log (Received (Ok msg)) (with_inbox frames w)) H)
      as (cell' & w' & Hret & Hin & Hch & Hu).
    exists cell', w'. auto.
  - destruct (answers msg_id msg) eqn:Hans; [|discriminate].
    injection H as <-.
    destruct (on_message_answers msg_id cell msg Hans) as [cell' Hon].
    rewrite Hon. eauto 6.
Qed.

(** The loop over the cells returns when the channel answers every
    request. *)
Lemma execute_cells_served (cells : list value) :
  forall w : world,
    channel_open w = true ->
    served (uuids_drawn w) cells (inbox w) = true ->
    exists cells' w', execute_cells cells w = Return cells' w'.
Proof.
  induction cells as [|cell cells IH]; intros w Hopen Hs.
  - cbn. unfold ret. eauto.
  - rewrite execute_cells_cons. cbn [served] in Hs.
    unfold execute_cell, bind, lift.
    destruct (getitem cell "cell_type") as [ct|] eqn:Hct; [|discriminate].
    cbn [ret]. destruct (eq_str ct "code").
    + destruct (getitem cell "source") as [source|] eqn:Hsrc; [|discriminate].
      destruct (settled (uuid4_hex (uuids_drawn w)) (inbox w)) as [rest|]
        eqn:Hset; [|discriminate].
      unfold fresh_uuid, ws_write. cbn [channel_open with_uuids ret].
      rewrite Hopen. unfold await_reply.
      destruct cell as [| | | | | |c|]; try discriminate.
      destruct (await_frames_settled (uuid4_hex (uuids_drawn w)) c (inbox w)
                  rest
                  (log (Sent (execute_request (uuid4_hex (uuids_drawn w))
                                              source))
                       (with_uuids (S (uuids_drawn w)) w))
                  Hset)
        as (cell' & w' & Hret & Hin & Hch & Hu).
      cbn [log with_uuids inbox]. rewrite Hret.
      destruct (IH w') as (cells' & w'' & Hrest).
      { rewrite Hch. exact Hopen. }
      { rewrite Hu, Hin. exact Hs. }
      rewrite Hrest. eauto.
    + destruct (IH w Hopen Hs) as (cells' & w' & Hrest).
      unfold ret. rewrite Hrest. eauto.
Qed.

Lemma pending_after_app (d es : list event) :
  forall p,
    pending_after p (d ++ es)
    = match pending_after p d with
      | Some p' => pending_after p' es
      | None => None
      end.
Proof.
  induction d as [|e d IH]; intros p; [reflexivity|].
  cbn [app pending_after]. destruct e; try apply IH.
  - destruct p; [reflexivity|].
    destruct (request_id message); [apply IH|reflexivity].
  - destruct p as [[| | | |id| | |]|]; try reflexivity.
    destruct frame as [msg|]; [|apply IH].
    destruct (terminal id msg); apply IH.
Qed.

(** The steps of a round that returns. *)
Lemma execute_path_steps (self : analyzer) (path nb : value) (w w' : world) :
  execute_path self path w = Return nb w' ->
  exists (url out : string) (nb_input params nb_output cells_v direct : value)
         (cells cells' : list value) (written : list (string * value))
         (w1 : world),
    input_location self path = Ok (VStr url)
    /\ load_notebook_node url = Ok nb_input
    /\ parameters self = Ok params
    /\ parameterize_notebook nb_input params = Ok nb_output
    /\ getitem nb_output "cells" = Ok cells_v
    /\ iterate cells_v = Ok cells
    /\ execute_cells cells (log (Loaded url) w) = Return cells' w1
    /\ with_cells nb_output cells_v cells' = Ok (VDict written)
    /\ output_locations self path = Ok (VStr out, direct)
    /\ w' = log (Written (VDict written) out) w1
    /\ nb = VDict (dict_set "name" path
                     (dict_set "output_notebook" direct
                        (dict_set "duration" (elapsed path) written))).
Proof.
  unfold execute_path. intros H.
  apply bind_lift_return in H. destruct H as (location & Hloc & H).
  apply bind_lift_return in H. destruct H as (url & Hurl & H).
  apply as_str_ok in Hurl. subst location.
  apply bind_inv_return in H. destruct H as ([] & w0 & He & H).
  injection He as <-.
  apply bind_lift_return in H. destruct H as (nb_input & Hload & H).
  apply bind_lift_return in H. destruct H as (params & Hparams & H).
  apply bind_lift_return in H. destruct H as (nb_output & Hparam & H).
  apply bind_lift_return in H. destruct H as (cells_v & Hcv & H).
  apply bind_lift_return in H. destruct H as (cells & Hiter & H).
  apply bind_inv_return in H. destruct H as (cells' & w1 & Hcells & H).
  apply bind_lift_return in H. destruct H as (nb1 & Hnb1 & H).
  apply bind_lift_return in H. destruct H as ([out_v direct] & Hpaths & H).
  apply bind_lift_return in H. destruct H as (out & Hout & H).
  cbn [fst snd] in *. apply as_str_ok in Hout. subst out_v.
  apply bind_inv_return in H. destruct H as ([] & w2 & He & H).
  injection He as <-.
  apply bind_lift_return in H. destruct H as ([] & Hwrite & H).
  apply bind_lift_return in H. destruct H as (nb2 & H2 & H).
  apply bind_lift_return in H. destruct H as (nb3 & H3 & H).
  apply lift_return in H. destruct H as [H4 ->].
  destruct nb1 as [| | | | | |written|]; try discriminate.
  cbn [setitem] in H2. injection H2 as <-.
  cbn [setitem] in H3. injection H3 as <-.
  cbn [setitem] in H4. injection H4 as <-.
  exists url, out, nb_input, params, nb_output, cells_v, direct, cells, cells',
         written, w1.
  repeat (split; [first [assumption|reflexivity]|]). reflexivity.
Qed.

(** C4: whatever the notebook and the channel, the loop over the cells
    sends one request at a time, a request going out only once the one
    before it is settled by a terminal message; what it sends is a first
    part of the submissions of the code cells, in the order of the cells,
    one per cell, each the execute request that carries the cell's source
    under a fresh token; when the loop completes all of them were sent, and
    a cell that is not code is the cell it was, a code cell differing by its
    [outputs] at most.  The loop does complete when the channel is open and
    answers every request.  In the round of a notebook whose cells these
    are, the requests sent are those submissions and no other, and the
    notebook handed to the writer, like the one returned, is the
    parameterized notebook with these cells in place of its own: the cells
    that are not code are in it as they were. *)
Theorem one_request_per_code_cell (cells : list value) (w : world) :
  let o := execute_cells cells w in
  let d := since w (final o) in
  one_at_a_time d = true
  /\ (exists later,
         expected_requests (uuids_drawn w) cells = sent d ++ later)
  /\ match o with
     | Return cells' _ =>
         pending_after None d = Some None
         /\ sent d = expected_requests (uuids_drawn w) cells
         /\ length (sent d) = length (filter is_code cells)
         /\ Forall2 (fun cell cell' =>
                       if is_code cell
                       then exists outputs,
                           setitem cell "outputs" outputs = Ok cell'
                       else cell' = cell)
                    cells cells'
     | _ => True
     end
  /\ (channel_open w = true ->
      served (uuids_drawn w) cells (inbox w) = true ->
      exists cells' w', o = Return cells' w')
  /\ (forall (self : analyzer) (path nb : value) (w0 w0' : world)
             (url : string) (nb_input params : value)
             (nb_output : list (string * value)),
         execute_path self path w0 = Return nb w0' ->
         input_location self path = Ok (VStr url) ->
         load_notebook_node url = Ok nb_input ->
         parameters self = Ok params ->
         parameterize_notebook nb_input params = Ok (VDict nb_output) ->
         lookup "cells" nb_output = Some (VList cells) ->
         exists (cells' : list value) (out : string) (before : list event),
           Forall2 (fun cell cell' =>
                      if is_code cell
                      then exists outputs,
                          setitem cell "outputs" outputs = Ok cell'
                      else cell' = cell)
                   cells cells'
           /\ one_at_a_time (since w0 w0') = true
           /\ sent (since w0 w0') = expected_requests (uuids_drawn w0) cells
           /\ trace w0'
              = before
                ++ [Written (VDict (dict_set "cells" (VList cells') nb_output))
                            out]
           /\ getitem nb "cells" = Ok (VList cells')).
Proof.
  intros o d. subst o d.
  destruct (execute_cells_checked cells w)
    as (d & Ht & (p & Hp) & Hlater & Hret).
  rewrite (since_app _ _ _ Ht).
  split; [unfold one_at_a_time; now rewrite Hp|].
  split; [exact Hlater|].
  split.
  { destruct (execute_cells cells w) as [cells' w'|e w'|w']; auto.
    destruct Hret as (Hn & Hs & _ & Hf).
    repeat split; auto.
    rewrite Hs. apply expected_requests_length. }
  split; [apply execute_cells_served|].
  clear d Ht p Hp Hlater Hret.
  intros self path nb w0 w0' url nb_input params nb_output
         Hrun Hloc Hload Hparams Hparam Hcells.
  apply execute_path_steps in Hrun.
  destruct Hrun as (url' & out & nb_input' & params' & nb_output' & cells_v
                    & direct & cells0 & cells' & written & w1
                    & Hloc' & Hload' & Hparams' & Hparam' & Hcv & Hiter
                    & Hexec & Hwith & _ & -> & ->).
  rewrite Hloc in Hloc'. injection Hloc' as <-.
  rewrite Hload in Hload'. injection Hload' as <-.
  rewrite Hparams in Hparams'. injection Hparams' as <-.
  rewrite Hparam in Hparam'. injection Hparam' as <-.
  unfold getitem in Hcv. rewrite Hcells in Hcv. injection Hcv as <-.
  cbn [iterate] in Hiter. injection Hiter as <-.
  cbn [with_cells setitem] in Hwith. injection Hwith as <-.
  destruct (execute_cells_checked cells (log (Loaded url) w0))
    as (d & Ht & _ & _ & Hret).
  rewrite Hexec in Ht, Hret. cbn [final] in Ht.
  destruct Hret as (Hn & Hs & _ & Hf).
  assert (Hsince : since w0 (log (Written (VDict (dict_set "cells"
                                                   (VList cells') nb_output))
                                          out) w1)
                   = [Loaded url] ++ d
                     ++ [Written (VDict (dict_set "cells" (VList cells')
                                                  nb_output)) out]).
  { apply since_app. cbn [log trace]. rewrite Ht. cbn [log trace].
    now rewrite <- !app_assoc. }
  exists cells', out, (trace w1).
  split; [exact Hf|]. rewrite Hsince. split.
  { unfold one_at_a_time. cbn [app pending_after].
    rewrite pending_after_app, Hn. reflexivity. }
  split.
  { cbn [app sent]. rewrite sent_app, Hs. cbn [sent].
    now rewrite app_nil_r. }
  split; [reflexivity|].
  unfold getitem.
  now rewrite !lookup_dict_set_other, lookup_dict_set_same by discriminate.
Qed.

(* ------------------------------------------------------------------ *)
(** ** The channel of a remote run, exit by exit *)

Lemma bind_lift_ok {A B : Type} (a : A) (k : A -> M B) (w : world) :
  bind (lift (Ok a)) k w = k a w.
Proof. reflexivity. Qed.

Lemma bind_lift_raise {A B : Type} (e : exn) (k : A -> M B) (w : world) :
  bind (lift (Raise e)) k w = Throw e w.
Proof. reflexivity. Qed.

Lemma bind_emit {B : Type} (e : event) (k : unit -> M B) (w : world) :
  bind (emit e) k w = k tt (log e w).
Proof. reflexivity. Qed.

Lemma http_json_raise (method url : string) (headers : value) (e : exn)
    (rest : list (result value)) (w : world) :
  http_replies w = Raise e :: rest ->
  http_json method url headers w
  = Throw e (with_http rest (log (Requested method url headers) w)).
Proof.
  intros H. unfold http_json. simpl. now rewrite H.
Qed.

(** The loop over the paths, taken in two parts. *)
Lemma execute_paths_app (self : analyzer) (done paths : list value) :
  forall w : world,
    execute_paths self (done ++ paths) w
    = (records <- execute_paths self done ;;
       records' <- execute_paths self paths ;;
       ret (records ++ records')) w.
Proof.
  induction done as [|path done IH]; intros w.
  - cbn [app execute_paths]. unfold bind, ret.
    destruct (execute_paths self paths w); reflexivity.
  - cbn [app execute_paths]. unfold bind, ret in *.
    destruct (execute_path self path w) as [nb w1|e w1|w1]; try reflexivity.
    rewrite IH.
    destruct (execute_paths self done w1) as [records w2|e w2|w2];
      try reflexivity.
    destruct (execute_paths self paths w2); reflexivity.
Qed.

(** A remote run, once its kernel is there: what is left is to connect,
    to go through the paths, and to close. *)
Lemma execute_notebook_remotely_created (self : analyzer)
    (kernels id : string) (headers ws body : value)
    (rest : list (result value)) (w : world) :
  get_conf self "input" "server_uri_http_api_kernels" = Ok (VStr kernels) ->
  get_conf self "input" "handler_http_headers" = Ok headers ->
  get_conf self "input" "server_uri_ws_api_kernels" = Ok ws ->
  http_replies w = Ok body :: rest ->
  getitem body "id" = Ok (VStr id) ->
  execute_notebook_remotely self w
  = (ws_connect (py_str ws ++ "/" ++ url_escape id ++ "/channels") headers ;;;
     paths <- lift (iterate (input_paths self)) ;;
     results <- execute_paths self paths ;;
     ws_close ;;;
     ret results)
      (with_http rest (log (Requested "POST" kernels headers) w)).
Proof.
  intros Hk Hh Hws Hw Hid. unfold execute_notebook_remotely.
  rewrite Hk, Hh, Hws, !bind_lift_ok. cbn [as_str]. rewrite bind_lift_ok.
  rewrite (bind_return _ _ _ _ _ (http_json_ok "POST" kernels headers _ _ _ Hw)).
  rewrite Hid, !bind_lift_ok. cbn [as_str]. rewrite !bind_lift_ok.
  reflexivity.
Qed.

(** C7, as the code has it, exit by exit.  A remote run that returns has
    closed the channel exactly once, as its last action; a run that ends
    any other way has closed nothing, and leaves the channel open if it had
    connected it.  An error of the kernel creation (the POST raises, or its
    answer names no kernel) ends the run with the POST as its only action:
    no channel was opened.  A connection that is refused ends it likewise.
    Once the channel is connected, the first notebook whose round raises
    ends the run with that exception, the channel open and nothing closed;
    and a round raises when the loading of the notebook raises, when the
    execution of its cells raises, and when the writer raises.  Closing a
    closed channel leaves it closed. *)
Theorem channel_closed_on_return_only (self : analyzer) (w : world) :
  let o := execute_notebook_remotely self w in
  let d := since w (final o) in
  match o with
  | Return _ w' =>
      channel_open w' = false
      /\ count_closed d = 1
      /\ exists d0, d = d0 ++ [Closed]
  | Throw _ w' | Starved w' =>
      count_closed d = 0
      /\ channel_open w' = (existsb is_connected d || channel_open w)
  end
  /\ (forall (kernels : string) (headers : value) (reply : result value)
             (rest : list (result value)) (e : exn),
         get_conf self "input" "server_uri_http_api_kernels"
         = Ok (VStr kernels) ->
         get_conf self "input" "handler_http_headers" = Ok headers ->
         http_replies w = reply :: rest ->
         (reply = Raise e
          \/ exists body, reply = Ok body /\ getitem body "id" = Raise e) ->
         o = Throw e (with_http rest (log (Requested "POST" kernels headers) w))
         /\ d = [Requested "POST" kernels headers]
         /\ channel_open (final o) = channel_open w)
  /\ (forall (kernels id : string) (headers ws body : value)
             (rest : list (result value)),
         get_conf self "input" "server_uri_http_api_kernels"
         = Ok (VStr kernels) ->
         get_conf self "input" "handler_http_headers" = Ok headers ->
         get_conf self "input" "server_uri_ws_api_kernels" = Ok ws ->
         http_replies w = Ok body :: rest ->
         getitem body "id" = Ok (VStr id) ->
         let url := (py_str ws ++ "/" ++ url_escape id ++ "/channels")%string in
         let created :=
           with_http rest (log (Requested "POST" kernels headers) w) in
         (forall e : exn,
             websocket_connect url headers = Raise e ->
             o = Throw e created
             /\ d = [Requested "POST" kernels headers]
             /\ channel_open (final o) = channel_open w)
         /\ (websocket_connect url headers = Ok tt ->
             forall (paths done later records : list value) (path : value)
                    (w1 w2 : world) (e : exn),
               iterate (input_paths self) = Ok paths ->
               paths = done ++ path :: later ->
               execute_paths self done
                 (log (Connected url headers) (with_channel true created))
               = Return records w1 ->
               execute_path self path w1 = Throw e w2 ->
               o = Throw e w2
               /\ channel_open w2 = true
               /\ count_closed d = 0
               /\ existsb is_connected d = true))
  /\ (forall (path : value) (w1 : world) (url : string),
         input_location self path = Ok (VStr url) ->
         (forall e : exn,
             load_notebook_node url = Raise e ->
             execute_path self path w1 = Throw e (log (Loaded url) w1))
         /\ (forall (nb_input params nb_output cells_v : value)
                    (cells : list value),
                load_notebook_node url = Ok nb_input ->
                parameters self = Ok params ->
                parameterize_notebook nb_input params = Ok nb_output ->
                getitem nb_output "cells" = Ok cells_v ->
                iterate cells_v = Ok cells ->
                (forall (e : exn) (w2 : world),
                    execute_cells cells (log (Loaded url) w1) = Throw e w2 ->
                    execute_path self path w1 = Throw e w2)
                /\ (forall (cells' : list value) (w2 : world)
                           (nb1 direct : value) (out : string) (e : exn),
                       execute_cells cells (log (Loaded url) w1)
                       = Return cells' w2 ->
                       with_cells nb_output cells_v cells' = Ok nb1 ->
                       output_locations self path = Ok (VStr out, direct) ->
                       write_ipynb nb1 out = Raise e ->
                       execute_path self path w1
                       = Throw e (log (Written nb1 out) w2))))
  /\ forall w0 : world,
      channel_open (final (ws_close w0)) = false
      /\ channel_open (final (ws_close (final (ws_close w0))))
         = channel_open (final (ws_close w0)).
Proof.
  intros o d. subst o d.
  split.
  { assert (H : closes_on_return (execute_notebook_remotely self)).
    { unfold execute_notebook_remotely.
      apply closes_on_return_bind; [apply quiet_lift|intros kernels].
      apply closes_on_return_bind; [apply quiet_lift|intros headers].
      apply closes_on_return_bind; [apply quiet_lift|intros kernels_url].
      apply closes_on_return_bind; [apply quiet_http_json|intros body].
      apply closes_on_return_bind; [apply quiet_lift|intros kernel_id].
      apply closes_on_return_bind; [apply quiet_lift|intros ws_kernels].
      apply closes_on_return_bind; [apply quiet_lift|intros kernel_name].
      apply closes_on_return_bind; [apply quiet_lift|intros headers'].
      apply closes_on_return_connect. intros _.
      apply closes_at_end_bind; [apply quiet_lift|intros paths].
      apply closes_at_end_bind; [apply quiet_execute_paths|intros results].
      apply closes_at_end_close. }
    destruct (H w) as (d & Ht & Hd).
    rewrite (since_app _ _ _ Ht). exact Hd. }
  assert (Hpost : forall kernels headers rest,
             since w (with_http rest (log (Requested "POST" kernels headers) w))
             = [Requested "POST" kernels headers]).
  { intros kernels headers rest. now apply since_app. }
  split.
  { intros kernels headers reply rest e Hk Hh Hw Hfail.
    assert (Hrun : execute_notebook_remotely self w
                   = Throw e (with_http rest
                                (log (Requested "POST" kernels headers) w))).
    { unfold execute_notebook_remotely.
      rewrite Hk, Hh, !bind_lift_ok. cbn [as_str]. rewrite bind_lift_ok.
      destruct Hfail as [->|(body & -> & Hid)].
      - now rewrite (bind_throw _ _ _ _ _
                       (http_json_raise "POST" kernels headers _ _ _ Hw)).
      - rewrite (bind_return _ _ _ _ _
                   (http_json_ok "POST" kernels headers _ _ _ Hw)).
        now rewrite Hid, bind_lift_raise. }
    rewrite Hrun. cbn [final]. rewrite Hpost. auto. }
  split.
  { intros kernels id headers ws body rest Hk Hh Hws Hw Hid url created.
    remember (execute_notebook_remotely self w) as o eqn:Ho.
    rewrite (execute_notebook_remotely_created self kernels id headers ws
               body rest w Hk Hh Hws Hw Hid) in Ho.
    fold url in Ho. fold created in Ho. split.
    - intros e Hconn. unfold bind at 1 in Ho. unfold ws_connect in Ho.
      rewrite Hconn in Ho. rewrite Ho. cbn [final]. unfold created.
      rewrite Hpost. auto.
    - intros Hconn paths done later records path w1 w2 e Hpaths -> Hdone
             Hfail.
      set (w0 := log (Connected url headers) (with_channel true created))
        in *.
      assert (Hloop : execute_paths self (done ++ path :: later) w0
                      = Throw e w2).
      { rewrite execute_paths_app.
        rewrite (bind_return _ _ _ _ _ Hdone).
        cbn [execute_paths]. unfold bind at 1.
        unfold bind at 1. now rewrite Hfail. }
      unfold bind at 1 in Ho. unfold ws_connect in Ho. rewrite Hconn in Ho.
      fold w0 in Ho.
      rewrite Hpaths, bind_lift_ok in Ho. unfold bind at 1 in Ho.
      rewrite Hloop in Ho. rewrite Ho.
      cbn [final].
      destruct (quiet_execute_paths self (done ++ path :: later) w0)
        as (dq & Ht & Hc & Hi & Ho').
      rewrite Hloop in Ht, Ho'. cbn [final] in Ht, Ho'.
      assert (Hd : since w w2
                   = [Requested "POST" kernels headers;
                      Connected url headers] ++ dq).
      { apply since_app. rewrite Ht. unfold w0, created.
        cbn [log with_channel with_http trace]. now rewrite <- !app_assoc. }
      rewrite Hd. split; [reflexivity|]. split; [exact Ho'|].
      split; [|reflexivity].
      rewrite count_closed_app, Hc. reflexivity. }
  split; [|intros w0; split; reflexivity].
  intros path w1 url Hloc. unfold execute_path.
  rewrite Hloc, bind_lift_ok. cbn [as_str]. rewrite bind_lift_ok, bind_emit.
  split.
  - intros e Hload. now rewrite Hload, bind_lift_raise.
  - intros nb_input params nb_output cells_v cells Hload Hparams Hparam Hcv
           Hiter.
    rewrite Hload, bind_lift_ok, Hparams, bind_lift_ok, Hparam, bind_lift_ok,
      Hcv, bind_lift_ok, Hiter, bind_lift_ok.
    split.
    + intros e w2 Hexec. now apply bind_throw.
    + intros cells' w2 nb1 direct out e Hexec Hwith Hpaths Hwrite.
      rewrite (bind_return _ _ _ _ _ Hexec).
      rewrite Hwith, bind_lift_ok, Hpaths, bind_lift_ok. cbn [fst as_str].
      rewrite bind_lift_ok, bind_emit. now rewrite Hwrite, bind_lift_raise.
Qed.

End Collaborators.

(* ------------------------------------------------------------------ *)
(** ** The statements at work *)

(** The wait of the request [token-0] passes over a reply to another
    request and a status of its own, and settles on the stream message,
    leaving the [execute_reply] behind it unread.  Settled by an error, it
    raises the analyzer's error, and the text shows the message. *)
Lemma reply_by_type_run :
  await_reply Sample.repr Sample.output_of "token-0"
    (Sample.code_cell "print(1)")
    (Sample.listening
       [ Sample.reply "token-9" "stream" (VStr "late");
         Sample.reply "token-0" "status" VNone;
         Sample.reply "token-0" "stream" (VStr "1");
         Sample.reply "token-0" "execute_reply" VNone ])
  = Return
      (VDict [("cell_type", VStr "code"); ("source", VStr "print(1)");
              ("outputs",
               VList [VDict [("output_type", VStr "stream");
                             ("content", VStr "1")]])])
      (mkWorld [] [] [Ok (Sample.reply "token-0" "execute_reply" VNone)] 0 true
         [ Received (Ok (Sample.reply "token-9" "stream" (VStr "late")));
           Received (Ok (Sample.reply "token-0" "status" VNone));
           Received (Ok (Sample.reply "token-0" "stream" (VStr "1"))) ])
  /\ await_reply Sample.printed Sample.output_of "token-0"
       (Sample.code_cell "print(a)")
       (Sample.listening
          [ Sample.reply "token-0" "error" (VStr "NameError");
            Sample.reply "token-0" "execute_reply" VNone ])
     = Throw
         (AnalyzerError
            "ERROR - Something went wrong during the code processing. Remote kernel returns: {.., 'content': 'NameError'}")
         (mkWorld [] [] [Ok (Sample.reply "token-0" "execute_reply" VNone)] 0
            true
            [Received (Ok (Sample.reply "token-0" "error" (VStr "NameError")))]).
Proof.
  split.
  - refine (proj1 (reply_by_type Sample.repr Sample.output_of "token-0"
                     [("cell_type", VStr "code"); ("source", VStr "print(1)");
                      ("outputs", VList [])]
                     (Sample.reply "token-0" "stream" (VStr "1"))
                     (VStr "stream")
                     [ Sample.reply "token-9" "stream" (VStr "late");
                       Sample.reply "token-0" "status" VNone ]
                     [Ok (Sample.reply "token-0" "execute_reply" VNone)]
                     (Sample.listening
                        [ Sample.reply "token-9" "stream" (VStr "late");
                          Sample.reply "token-0" "status" VNone;
                          Sample.reply "token-0" "stream" (VStr "1");
                          Sample.reply "token-0" "execute_reply" VNone ])
                     _ eq_refl eq_refl eq_refl) eq_refl).
    repeat constructor.
  - exact (proj1 (proj2 (proj2
             (reply_by_type Sample.printed Sample.output_of "token-0"
                [("cell_type", VStr "code"); ("source", VStr "print(a)");
                 ("outputs", VList [])]
                (Sample.reply "token-0" "error" (VStr "NameError"))
                (VStr "error") []
                [Ok (Sample.reply "token-0" "execute_reply" VNone)]
                (Sample.listening
                   [ Sample.reply "token-0" "error" (VStr "NameError");
                     Sample.reply "token-0" "execute_reply" VNone ])
                (Forall_nil _) eq_refl eq_refl eq_refl)))
             eq_refl).
Defined.

(** The status message a kernel sends on its own has an empty parent
    header: the wait that reads it ends in a [KeyError], with the reply to
    the request still in the channel; without that message the same wait
    returns the cell with its output. *)
Lemma missing_id_ends_wait_run :
  await_reply Sample.repr Sample.output_of "token-0"
    (Sample.code_cell "print(1)")
    (Sample.listening
       [ Sample.unsolicited "status";
         Sample.reply "token-0" "stream" (VStr "1") ])
  = Throw (KeyError "msg_id")
      (mkWorld [] [] [Ok (Sample.reply "token-0" "stream" (VStr "1"))] 0 true
         [Received (Ok (Sample.unsolicited "status"))])
  /\ observed
       (await_reply Sample.repr Sample.output_of "token-0"
          (Sample.code_cell "print(1)")
          (Sample.listening [Sample.reply "token-0" "stream" (VStr "1")]))
     = Some (Ok (VDict [("cell_type", VStr "code");
                        ("source", VStr "print(1)");
                        ("outputs",
                         VList [VDict [("output_type", VStr "stream");
                                       ("content", VStr "1")]])])).
Proof.
  split; [|reflexivity].
  exact (missing_id_ends_wait Sample.repr Sample.output_of "token-0"
           (Sample.code_cell "print(1)") (Sample.unsolicited "status")
           (VStr "status") [] []
           [Ok (Sample.reply "token-0" "stream" (VStr "1"))]
           (Sample.listening
              [ Sample.unsolicited "status";
                Sample.reply "token-0" "stream" (VStr "1") ])
           (Forall_nil _) eq_refl eq_refl eq_refl eq_refl).
Defined.

(** Two replies to other requests, put before the reply to [token-0], are
    read and dropped; the cell comes out as without them. *)
Lemma foreign_messages_dropped_run :
  Forall (fun m => foreign "token-0" m = true)
    [ Sample.reply "token-9" "stream" (VStr "late");
      Sample.reply "token-8" "execute_reply" VNone ]
  /\ observed
       (await_reply Sample.repr Sample.output_of "token-0"
          (Sample.code_cell "print(1)")
          (Sample.listening
             [ Sample.reply "token-9" "stream" (VStr "late");
               Sample.reply "token-8" "execute_reply" VNone;
               Sample.reply "token-0" "stream" (VStr "1") ]))
     = observed
         (await_reply Sample.repr Sample.output_of "token-0"
            (Sample.code_cell "print(1)")
            (Sample.listening [Sample.reply "token-0" "stream" (VStr "1")])).
Proof.
  assert (H : Forall (fun m => foreign "token-0" m = true)
                [ Sample.reply "token-9" "stream" (VStr "late");
                  Sample.reply "token-8" "execute_reply" VNone ])
    by (repeat constructor).
  split; [exact H|].
  exact (proj2 (foreign_messages_dropped Sample.repr Sample.output_of
                  "token-0" (Sample.code_cell "print(1)") _
                  [Ok (Sample.reply "token-0" "stream" (VStr "1"))]
                  (Sample.listening
                     [ Sample.reply "token-9" "stream" (VStr "late");
                       Sample.reply "token-8" "execute_reply" VNone;
                       Sample.reply "token-0" "stream" (VStr "1") ])
                  H eq_refl)).
Defined.

(** On a stream of a spawning event, a blank line, the ready event and one
    more event, [start_server] returns the hub's URL followed by the ready
    event's [url], having pulled two events; on a stream of two spawning
    events it raises. *)
Lemma start_server_first_ready_run :
  start_server Sample.repr Sample.loads (VStr "http://hub") (VStr "alice")
    "cortex_job" VNone
    (Sample.hub ["data: spawning"; ""; "data: ready"; "data: spawning"])
  = Return (VStr "http://hub/user/alice/cortex_job/")
      (mkWorld [] [] [] 0 false
         [ Requested "GET" "http://hub/hub/api/users/alice" VNone;
           StreamOpened "http://hub/hub/api/users/alice/progress" VNone;
           yielded Sample.spawning;
           yielded Sample.ready ])
  /\ exists w',
      start_server Sample.repr Sample.loads (VStr "http://hub") (VStr "alice")
        "cortex_job" VNone (Sample.hub ["data: spawning"; "data: spawning"])
      = Throw (ValueError "alice/cortex_job never started!") w'.
Proof.
  split.
  - exact (proj1 (start_server_first_ready Sample.repr Sample.loads
                    (VStr "http://hub") (VStr "alice") "cortex_job" VNone
                    ["data: spawning"; ""; "data: ready"; "data: spawning"]
                    (Sample.hub
                       ["data: spawning"; ""; "data: ready"; "data: spawning"])
                    (mkWorld [] [] [] 0 false
                       [ Requested "GET" "http://hub/hub/api/users/alice" VNone;
                         StreamOpened "http://hub/hub/api/users/alice/progress"
                                      VNone ])
                    eq_refl)
             [Sample.spawning] Sample.ready (VStr "/user/alice/cortex_job/")
             [delivered Sample.spawning] eq_refl eq_refl eq_refl eq_refl).
  - exact (proj2 (proj2 (start_server_first_ready Sample.repr Sample.loads
                           (VStr "http://hub") (VStr "alice") "cortex_job"
                           VNone ["data: spawning"; "data: spawning"]
                           (Sample.hub ["data: spawning"; "data: spawning"])
                           (mkWorld [] [] [] 0 false
                              [ Requested "GET"
                                  "http://hub/hub/api/users/alice" VNone;
                                StreamOpened
                                  "http://hub/hub/api/users/alice/progress"
                                  VNone ])
                           eq_refl)
                    [Sample.spawning; Sample.spawning] eq_refl)
             eq_refl).
Defined.

(** A notebook of a text cell and two code cells, on a channel that
    answers the first request, repeats a message of it, and answers the
    second: every request is answered, so the loop returns; two requests
    went out, the submissions of the two code cells in their order, and
    the text cell comes back as it was.  In the round of [/a.ipynb], whose
    cells are a text cell and a code cell, the notebook returned holds the
    text cell as it was and the code cell with its output. *)
Lemma one_request_per_code_cell_run :
  one_at_a_time
    (since (Sample.listening
              [ Sample.reply "token-0" "execute_reply" VNone;
                Sample.reply "token-0" "stream" (VStr "stale");
                Sample.reply "token-1" "stream" (VStr "1") ])
       (final (execute_cells Sample.repr Sample.output_of Sample.uuid
                 Sample.cells
                 (Sample.listening
                    [ Sample.reply "token-0" "execute_reply" VNone;
                      Sample.reply "token-0" "stream" (VStr "stale");
                      Sample.reply "token-1" "stream" (VStr "1") ]))))
  = true
  /\ sent
       (since (Sample.listening
                 [ Sample.reply "token-0" "execute_reply" VNone;
                   Sample.reply "token-0" "stream" (VStr "stale");
                   Sample.reply "token-1" "stream" (VStr "1") ])
          (final (execute_cells Sample.repr Sample.output_of Sample.uuid
                    Sample.cells
                    (Sample.listening
                       [ Sample.reply "token-0" "execute_reply" VNone;
                         Sample.reply "token-0" "stream" (VStr "stale");
                         Sample.reply "token-1" "stream" (VStr "1") ]))))
     = [ submission "token-0" (VStr "a = 1");
         submission "token-1" (VStr "print(a)") ]
  /\ observed
       (execute_cells Sample.repr Sample.output_of Sample.uuid Sample.cells
          (Sample.listening
             [ Sample.reply "token-0" "execute_reply" VNone;
               Sample.reply "token-0" "stream" (VStr "stale");
               Sample.reply "token-1" "stream" (VStr "1") ]))
     = Some (Ok [ Sample.text_cell "# Title";
                  Sample.code_cell "a = 1";
                  VDict [("cell_type", VStr "code");
                         ("source", VStr "print(a)");
                         ("outputs",
                          VList [VDict [("output_type", VStr "stream");
                                        ("content", VStr "1")]])] ])
  /\ (served Sample.output_of Sample.uuid 0 Sample.cells
        (map Ok [ Sample.reply "token-0" "execute_reply" VNone;
                  Sample.reply "token-0" "stream" (VStr "stale");
                  Sample.reply "token-1" "stream" (VStr "1") ])
      = true
      /\ exists cells' w',
          execute_cells Sample.repr Sample.output_of Sample.uuid Sample.cells
            (Sample.listening
               [ Sample.reply "token-0" "execute_reply" VNone;
                 Sample.reply "token-0" "stream" (VStr "stale");
                 Sample.reply "token-1" "stream" (VStr "1") ])
          = Return cells' w')
  /\ exists (nb : value) (w' : world) (cells' : list value),
      execute_path Sample.repr Sample.output_of Sample.uuid Sample.load
        Sample.parameterize Sample.write Sample.day Sample.seconds
        (Sample.between "alice" "in-token" "out-token" true) (VStr "/a.ipynb")
        (Sample.listening [Sample.reply "token-0" "stream" (VStr "1")])
      = Return nb w'
      /\ getitem nb "cells" = Ok (VList cells')
      /\ Forall2 (fun cell cell' =>
                    if is_code cell
                    then exists outputs,
                        setitem cell "outputs" outputs = Ok cell'
                    else cell' = cell)
                 [Sample.text_cell "# Title"; Sample.code_cell "print(1)"]
                 cells'.
Proof.
  pose proof (one_request_per_code_cell Sample.repr Sample.output_of
                Sample.uuid Sample.load Sample.parameterize Sample.write
                Sample.day Sample.seconds Sample.cells
                (Sample.listening
                   [ Sample.reply "token-0" "execute_reply" VNone;
                     Sample.reply "token-0" "stream" (VStr "stale");
                     Sample.reply "token-1" "stream" (VStr "1") ]))
    as (Hone & _ & Hret & Hlive & _).
  split; [exact Hone|].
  split; [exact (proj1 (proj2 Hret))|].
  split; [reflexivity|].
  split; [exact (conj eq_refl (Hlive eq_refl eq_refl))|].
  destruct (proj2 (proj2 (proj2 (proj2
              (one_request_per_code_cell Sample.repr Sample.output_of
                 Sample.uuid Sample.load Sample.parameterize Sample.write
                 Sample.day Sample.seconds
                 [Sample.text_cell "# Title"; Sample.code_cell "print(1)"]
                 Sample.quiet))))
              (Sample.between "alice" "in-token" "out-token" true)
              (VStr "/a.ipynb") _
              (Sample.listening [Sample.reply "token-0" "stream" (VStr "1")])
              _ "http://in/api/contents//a.ipynb?token=in-token"
              (VDict [("cells",
                       VList [ Sample.text_cell "# Title";
                               Sample.code_cell "print(1)" ]);
                      ("metadata", VDict [])])
              (VDict [ ("thehive_organisation", VStr "org");
                       ("thehive_user", VStr "analyst");
                       ("thehive_observable_type", VStr "ip");
                       ("thehive_observable_value", VStr "1.2.3.4") ])
              [("cells",
                VList [ Sample.text_cell "# Title";
                        Sample.code_cell "print(1)" ]);
               ("metadata", VDict [])]
              eq_refl eq_refl eq_refl eq_refl eq_refl eq_refl)
    as (cells' & out & before & Hf & _ & _ & _ & Hcells).
  eexists. eexists. exists cells'.
  split; [reflexivity|]. exact (conj Hcells Hf).
Defined.

(** The two forms of the location of [/a.ipynb] on the server [out]. *)
Lemma output_locations_http_run :
  output_locations Sample.day (Sample.between "alice" "in-token" "out-token" true)
    (VStr "/a.ipynb")
  = Ok (VStr "http://out/api/contents/out/2024-01-31-1.2.3.4-a.ipynb?token=out-token",
        VStr "http://out//user/alice/tree/out/2024-01-31-1.2.3.4-a.ipynb").
Proof.
  exact (output_locations_http Sample.day
           (Sample.between "alice" "in-token" "out-token" true)
           "http://out/api/contents" "out-token" "http://out/" "alice" "/out/"
           "1.2.3.4" "/a.ipynb"
           eq_refl eq_refl eq_refl eq_refl eq_refl eq_refl eq_refl).
Defined.

(** C5, as stated, fails: two analyzers with the same output hostname,
    output folder, date, observable and path, which differ by the user of
    the input endpoint, give different locations to browse to. *)
Lemma location_depends_on_input_user :
  get_conf (Sample.between "alice" "in-token" "out-token" true) "output" "hostname"
  = get_conf (Sample.between "carol" "in-token" "out-token" true) "output" "hostname"
  /\ output_folder (Sample.between "alice" "in-token" "out-token" true)
     = output_folder (Sample.between "carol" "in-token" "out-token" true)
  /\ self_base (Sample.between "alice" "in-token" "out-token" true)
     = self_base (Sample.between "carol" "in-token" "out-token" true)
  /\ output_locations Sample.day
       (Sample.between "alice" "in-token" "out-token" true) (VStr "/a.ipynb")
     = Ok (VStr "http://out/api/contents/out/2024-01-31-1.2.3.4-a.ipynb?token=out-token",
           VStr "http://out//user/alice/tree/out/2024-01-31-1.2.3.4-a.ipynb")
  /\ output_locations Sample.day
       (Sample.between "carol" "in-token" "out-token" true) (VStr "/a.ipynb")
     = Ok (VStr "http://out/api/contents/out/2024-01-31-1.2.3.4-a.ipynb?token=out-token",
           VStr "http://out//user/carol/tree/out/2024-01-31-1.2.3.4-a.ipynb")
  /\ output_locations Sample.day
       (Sample.between "alice" "in-token" "out-token" true) (VStr "/a.ipynb")
     <> output_locations Sample.day
          (Sample.between "carol" "in-token" "out-token" true) (VStr "/a.ipynb").
Proof.
  repeat split. intros H. vm_compute in H. discriminate H.
Qed.

(** The sequence pending, pending, absent: three polls, a second of sleep
    after each of the first two. *)
Lemma stop_server_polls_run :
  stop_server Sample.repr (Sample.between "alice" "in-token" "out-token" true)
    (VStr "http://hub") (VStr "alice") "cortex_job"
    (mkWorld (map Ok [ Sample.user_model (VStr "stop");
                       Sample.user_model (VStr "stop");
                       Sample.user_model_without_server ])
             [] [] 0 false [])
  = Return tt
      (mkWorld [] [] [] 0 false
         [ Requested "GET" "http://hub/hub/api/users/alice"
             (VDict [("Authorization", VStr "token in-token")]);
           Slept 1;
           Requested "GET" "http://hub/hub/api/users/alice"
             (VDict [("Authorization", VStr "token in-token")]);
           Slept 1;
           Requested "GET" "http://hub/hub/api/users/alice"
             (VDict [("Authorization", VStr "token in-token")]) ])
  /\ polls (poll_rounds "http://hub/hub/api/users/alice"
              (VDict [("Authorization", VStr "token in-token")]) 2
            ++ [Requested "GET" "http://hub/hub/api/users/alice"
                  (VDict [("Authorization", VStr "token in-token")])])
     = 3.
Proof.
  assert (Hpending : Forall (fun um => pending_mark um "cortex_job" = Some true)
                       [ Sample.user_model (VStr "stop");
                         Sample.user_model (VStr "stop") ])
    by (repeat constructor).
  pose proof (stop_server_polls Sample.repr
                (Sample.between "alice" "in-token" "out-token" true)
                (VStr "http://hub") (VStr "alice") "cortex_job"
                (VDict [("Authorization", VStr "token in-token")])
                [ Sample.user_model (VStr "stop");
                  Sample.user_model (VStr "stop") ]
                (mkWorld (map Ok [ Sample.user_model (VStr "stop");
                                   Sample.user_model (VStr "stop");
                                   Sample.user_model_without_server ])
                         [] [] 0 false [])
                eq_refl Hpending) as (Habsent & _ & _ & Hpolls).
  split; [|exact Hpolls].
  exact (Habsent Sample.user_model_without_server [] eq_refl eq_refl).
Defined.

(** A remote run whose cell is answered by a stream message returns with
    the channel closed, by the one [Closed] of its trace; a remote run whose
    cell is answered by an error ends in the analyzer's error with nothing
    closed and the channel it connected still open. *)
Lemma channel_closed_on_return_only_run :
  (channel_open
     (final (execute_notebook_remotely Sample.repr Sample.output_of
               Sample.uuid Sample.escape Sample.connect Sample.load
               Sample.parameterize Sample.write Sample.day Sample.seconds
               (Sample.between "alice" "in-token" "out-token" true)
               (Sample.server [Sample.reply "token-0" "stream" (VStr "1")])))
   = false
   /\ count_closed
        (since (Sample.server [Sample.reply "token-0" "stream" (VStr "1")])
           (final (execute_notebook_remotely Sample.repr Sample.output_of
                     Sample.uuid Sample.escape Sample.connect Sample.load
                     Sample.parameterize Sample.write Sample.day Sample.seconds
                     (Sample.between "alice" "in-token" "out-token" true)
                     (Sample.server
                        [Sample.reply "token-0" "stream" (VStr "1")]))))
      = 1)
  /\ (count_closed
        (since (Sample.server [Sample.reply "token-0" "error" VNone])
           (final (execute_notebook_remotely Sample.repr Sample.output_of
                     Sample.uuid Sample.escape Sample.connect Sample.load
                     Sample.parameterize Sample.write Sample.day Sample.seconds
                     (Sample.between "alice" "in-token" "out-token" true)
                     (Sample.server [Sample.reply "token-0" "error" VNone]))))
      = 0
      /\ channel_open
           (final (execute_notebook_remotely Sample.repr Sample.output_of
                     Sample.uuid Sample.escape Sample.connect Sample.load
                     Sample.parameterize Sample.write Sample.day Sample.seconds
                     (Sample.between "alice" "in-token" "out-token" true)
                     (Sample.server [Sample.reply "token-0" "error" VNone])))
         = true)
  /\ execute_notebook_remotely Sample.repr Sample.output_of Sample.uuid
       Sample.escape Sample.connect Sample.load Sample.parameterize
       Sample.write Sample.day Sample.seconds
       (Sample.between "alice" "in-token" "out-token" true)
       (mkWorld [Raise (CollaboratorError "HTTP 403: Forbidden")] [] [] 0
                false [])
     = Throw (CollaboratorError "HTTP 403: Forbidden")
         (mkWorld [] [] [] 0 false
            [Requested "POST" "http://in/api/kernels"
               (VDict [("Authorization", VStr "token in-token")])])
  /\ execute_notebook_remotely Sample.repr Sample.output_of Sample.uuid
       Sample.escape Sample.connect Sample.load Sample.parameterize
       Sample.write Sample.day Sample.seconds
       (Sample.between "alice" "in-token" "out-token" true)
       (mkWorld [Ok (VDict [("message", VStr "no kernel")])] [] [] 0
                false [])
     = Throw (KeyError "id")
         (mkWorld [] [] [] 0 false
            [Requested "POST" "http://in/api/kernels"
               (VDict [("Authorization", VStr "token in-token")])])
  /\ (exists w2 : world,
         execute_notebook_remotely Sample.repr Sample.output_of Sample.uuid
           Sample.escape Sample.connect
           (fun _ => Raise (CollaboratorError "HTTP 404: Not Found"))
           Sample.parameterize Sample.write Sample.day Sample.seconds
           (Sample.between "alice" "in-token" "out-token" true)
           (Sample.server [])
         = Throw (CollaboratorError "HTTP 404: Not Found") w2
         /\ channel_open w2 = true
         /\ count_closed (since (Sample.server []) w2) = 0
         /\ existsb is_connected (since (Sample.server []) w2) = true)
  /\ (exists w2 : world,
         execute_notebook_remotely Sample.repr Sample.output_of Sample.uuid
           Sample.escape Sample.connect Sample.load Sample.parameterize
           (fun _ _ => Raise (CollaboratorError "HTTP 507: Full"))
           Sample.day Sample.seconds
           (Sample.between "alice" "in-token" "out-token" true)
           (Sample.server [Sample.reply "token-0" "stream" (VStr "1")])
         = Throw (CollaboratorError "HTTP 507: Full") w2
         /\ channel_open w2 = true
         /\ count_closed
              (since (Sample.server
                        [Sample.reply "token-0" "stream" (VStr "1")]) w2)
            = 0
         /\ existsb is_connected
              (since (Sample.server
                        [Sample.reply "token-0" "stream" (VStr "1")]) w2)
            = true).
Proof.
  split; [|split; [|split; [|split; [|split]]]].
  - pose proof (proj1 (channel_closed_on_return_only Sample.repr
                         Sample.output_of Sample.uuid Sample.escape
                         Sample.connect Sample.load Sample.parameterize
                         Sample.write Sample.day Sample.seconds
                         (Sample.between "alice" "in-token" "out-token" true)
                         (Sample.server
                            [Sample.reply "token-0" "stream" (VStr "1")])))
      as H.
    exact (conj (proj1 H) (proj1 (proj2 H))).
  - exact (proj1 (channel_closed_on_return_only Sample.repr
                    Sample.output_of Sample.uuid Sample.escape
                    Sample.connect Sample.load Sample.parameterize
                    Sample.write Sample.day Sample.seconds
                    (Sample.between "alice" "in-token" "out-token" true)
                    (Sample.server [Sample.reply "token-0" "error" VNone]))).
  - exact (proj1 (proj1 (proj2 (channel_closed_on_return_only Sample.repr
                    Sample.output_of Sample.uuid Sample.escape
                    Sample.connect Sample.load Sample.parameterize
                    Sample.write Sample.day Sample.seconds
                    (Sample.between "alice" "in-token" "out-token" true)
                    (mkWorld [Raise (CollaboratorError "HTTP 403: Forbidden")]
                             [] [] 0 false [])))
                   "http://in/api/kernels"
                   (VDict [("Authorization", VStr "token in-token")])
                   (Raise (CollaboratorError "HTTP 403: Forbidden")) []
                   (CollaboratorError "HTTP 403: Forbidden")
                   eq_refl eq_refl eq_refl (or_introl eq_refl))).
  - exact (proj1 (proj1 (proj2 (channel_closed_on_return_only Sample.repr
                    Sample.output_of Sample.uuid Sample.escape
                    Sample.connect Sample.load Sample.parameterize
                    Sample.write Sample.day Sample.seconds
                    (Sample.between "alice" "in-token" "out-token" true)
                    (mkWorld [Ok (VDict [("message", VStr "no kernel")])]
                             [] [] 0 false [])))
                   "http://in/api/kernels"
                   (VDict [("Authorization", VStr "token in-token")])
                   (Ok (VDict [("message", VStr "no kernel")])) []
                   (KeyError "id")
                   eq_refl eq_refl eq_refl
                   (or_intror (ex_intro _ (VDict [("message", VStr "no kernel")])
                                 (conj eq_refl eq_refl))))).
  - eexists.
    refine (proj2 (proj1 (proj2 (proj2 (channel_closed_on_return_only
                    Sample.repr Sample.output_of Sample.uuid Sample.escape
                    Sample.connect
                    (fun _ => Raise (CollaboratorError "HTTP 404: Not Found"))
                    Sample.parameterize Sample.write Sample.day Sample.seconds
                    (Sample.between "alice" "in-token" "out-token" true)
                    (Sample.server []))))
                   "http://in/api/kernels" "k1"
                   (VDict [("Authorization", VStr "token in-token")])
                   (VStr "ws://in/api/kernels")
                   (VDict [("id", VStr "k1")]) []
                   eq_refl eq_refl eq_refl eq_refl eq_refl)
              eq_refl [VStr "/a.ipynb"] [] [] [] (VStr "/a.ipynb") _ _
              (CollaboratorError "HTTP 404: Not Found")
              eq_refl eq_refl eq_refl _).
    exact (proj1 (proj1 (proj2 (proj2 (proj2
             (channel_closed_on_return_only
                Sample.repr Sample.output_of Sample.uuid Sample.escape
                Sample.connect
                (fun _ => Raise (CollaboratorError "HTTP 404: Not Found"))
                Sample.parameterize Sample.write Sample.day Sample.seconds
                (Sample.between "alice" "in-token" "out-token" true)
                (Sample.server [])))))
             (VStr "/a.ipynb") _ _ eq_refl)
            (CollaboratorError "HTTP 404: Not Found") eq_refl).
  - eexists.
    refine (proj2 (proj1 (proj2 (proj2 (channel_closed_on_return_only
                    Sample.repr Sample.output_of Sample.uuid Sample.escape
                    Sample.connect Sample.load Sample.parameterize
                    (fun _ _ => Raise (CollaboratorError "HTTP 507: Full"))
                    Sample.day Sample.seconds
                    (Sample.between "alice" "in-token" "out-token" true)
                    (Sample.server
                       [Sample.reply "token-0" "stream" (VStr "1")]))))
                   "http://in/api/kernels" "k1"
                   (VDict [("Authorization", VStr "token in-token")])
                   (VStr "ws://in/api/kernels")
                   (VDict [("id", VStr "k1")]) []
                   eq_refl eq_refl eq_refl eq_refl eq_refl)
              eq_refl [VStr "/a.ipynb"] [] [] [] (VStr "/a.ipynb") _ _
              (CollaboratorError "HTTP 507: Full")
              eq_refl eq_refl eq_refl eq_refl).
Defined.

(** C7, as stated, fails: the kernel answers the cell with an error, the run
    ends in the analyzer's error, and the channel it opened was never
    closed. *)
Lemma channel_left_open_on_error :
  observed
    (execute_notebook_remotely Sample.repr Sample.output_of Sample.uuid
       Sample.escape Sample.connect Sample.load Sample.parameterize
       Sample.write Sample.day Sample.seconds
       (Sample.between "alice" "in-token" "out-token" true)
       (Sample.server [Sample.reply "token-0" "error" VNone]))
  = Some (Raise (AnalyzerError
       "ERROR - Something went wrong during the code processing. Remote kernel returns: {...}"))
  /\ channel_open
       (final (execute_notebook_remotely Sample.repr Sample.output_of
                 Sample.uuid Sample.escape Sample.connect Sample.load
                 Sample.parameterize Sample.write Sample.day Sample.seconds
                 (Sample.between "alice" "in-token" "out-token" true)
                 (Sample.server [Sample.reply "token-0" "error" VNone])))
     = true
  /\ count_closed
       (trace
          (final (execute_notebook_remotely Sample.repr Sample.output_of
                    Sample.uuid Sample.escape Sample.connect Sample.load
                    Sample.parameterize Sample.write Sample.day Sample.seconds
                    (Sample.between "alice" "in-token" "out-token" true)
                    (Sample.server [Sample.reply "token-0" "error" VNone]))))
     = 0.
Proof.
  repeat split.
Qed.

(** A hub endpoint whose configured user is empty is refused before any
    request; the plain endpoint of [alice] is built as [Sample.endpoint]
    has it. *)
Lemma http_endpoint_needs_token_and_user_run :
  (exists message,
      initialize_path Sample.repr Sample.handler_of Sample.loads
        (Sample.job [("any_handler_http_user", VStr "")])
        (VStr "http://hub") (VStr "tok") (VBool true) Sample.quiet
      = Throw (AnalyzerError message) Sample.quiet)
  /\ initialize_path Sample.repr Sample.handler_of Sample.loads
       (Sample.job [("any_handler_http_user", VStr "alice")])
       (VStr "http://in/") (VStr "in-token") (VBool false) Sample.quiet
     = Return (Sample.endpoint "http://in/" "in-token" "alice") Sample.quiet.
Proof.
  split; [|reflexivity].
  exact (proj1 (http_endpoint_needs_token_and_user Sample.repr
                  Sample.handler_of Sample.loads
                  (Sample.job [("any_handler_http_user", VStr "")])
                  (VStr "http://hub") (VStr "tok") (VBool true)
                  _ [("any_handler_http_user", VStr "")] Sample.quiet
                  eq_refl eq_refl eq_refl)
           (or_intror (or_intror (or_intror eq_refl)))).
Defined.

(** C8, as stated, fails: with the hub flag true, an empty token and no
    user, an endpoint whose hostname is a local folder is initialized
    without an error, to [None]; and [__init__] completes on a job that
    configures both endpoints so. *)
Lemma hub_flag_alone_checks_nothing :
  initialize_path Sample.repr Sample.handler_of Sample.loads (Sample.job [])
    (VStr "/notebooks/") (VStr "") (VBool true) Sample.quiet
  = Return VNone Sample.quiet
  /\ init Sample.repr Sample.handler_of Sample.loads
       (Sample.job [ ("input_hostname", VStr "/notebooks/");
                     ("input_handler_http_service_api_token", VStr "");
                     ("input_handler_http_is_jupyterhub", VBool true);
                     ("input_paths", VList [VStr "/a.ipynb"]);
                     ("input_handler_http_execute_remotely", VBool false);
                     ("output_hostname", VStr "/results/");
                     ("output_handler_http_service_api_token", VStr "");
                     ("output_handler_http_is_jupyterhub", VBool true);
                     ("output_folder", VStr "/out/");
                     ("any_only_html", VBool true) ])
       Sample.quiet
     = Return
         (mkAnalyzer
            (Sample.job [ ("input_hostname", VStr "/notebooks/");
                          ("input_handler_http_service_api_token", VStr "");
                          ("input_handler_http_is_jupyterhub", VBool true);
                          ("input_paths", VList [VStr "/a.ipynb"]);
                          ("input_handler_http_execute_remotely", VBool false);
                          ("output_hostname", VStr "/results/");
                          ("output_handler_http_service_api_token", VStr "");
                          ("output_handler_http_is_jupyterhub", VBool true);
                          ("output_folder", VStr "/out/");
                     ("any_only_html", VBool true) ])
            VNone (VList [VStr "/a.ipynb"]) (VBool false) VNone (VStr "/out/")
            (VBool true))
         Sample.quiet.
Proof.
  split; reflexivity.
Qed.

(** An endpoint on a local folder has no configuration: its lookups raise,
    the test of a run asked to execute remotely raises, and a run asked to
    execute locally raises at its first notebook. *)
Lemma non_http_endpoint_has_no_configuration_run :
  initialize_path Sample.repr Sample.handler_of Sample.loads (Sample.job [])
    (VStr "/notebooks/") (VStr "tok") (VBool false) Sample.quiet
  = Return VNone Sample.quiet
  /\ get_conf (Sample.self VNone VNone (VBool true)) "input" "handler_type"
     = Raise TypeError
  /\ execute_remotely (Sample.self VNone VNone (VBool true)) = Raise TypeError
  /\ run Sample.repr Sample.output_of Sample.uuid Sample.escape Sample.connect
       Sample.load Sample.parameterize Sample.write Sample.execute Sample.day
       Sample.seconds Sample.round Sample.html
       (Sample.self VNone VNone (VBool false)) Sample.quiet
     = Throw TypeError Sample.quiet.
Proof.
  pose proof (non_http_endpoint_has_no_configuration Sample.repr
                Sample.handler_of Sample.loads Sample.output_of Sample.uuid
                Sample.escape Sample.connect Sample.load Sample.parameterize
                Sample.write Sample.execute Sample.day Sample.seconds
                Sample.round Sample.html (Sample.job []) (VStr "/notebooks/")
                (VStr "tok") (VBool false) "local" Sample.quiet eq_refl)
    as (Hinit & _ & Hconf & Hmode & _ & Hrun).
  exact (conj Hinit
           (conj (proj1 (Hconf (Sample.self VNone VNone (VBool true))
                           "handler_type") eq_refl)
              (conj (Hmode (Sample.self VNone VNone (VBool true)) eq_refl)
                 (Hrun (Sample.self VNone VNone (VBool false)) Sample.quiet
                    eq_refl)))).
Defined.

(** C9, as stated, fails in its last part: on an analyzer without input
    configuration that is asked to execute locally, the test of the
    execution mode is evaluated, to false, and a run without notebooks
    completes. *)
Lemma mode_check_false_without_lookup :
  input_configuration (Sample.self VNone VNone (VBool false)) = VNone
  /\ execute_remotely (Sample.self VNone VNone (VBool false)) = Ok false
  /\ run Sample.repr Sample.output_of Sample.uuid Sample.escape Sample.connect
       Sample.load Sample.parameterize Sample.write Sample.execute Sample.day
       Sample.seconds Sample.round Sample.html
       (mkAnalyzer (Sample.job []) VNone (VList []) (VBool false) VNone
                   (VStr "/out/") (VBool true))
       Sample.quiet
     = Return tt
         (mkWorld [] [] [] 0 false
            [Reported (VDict [("notebooks", VList [])])]).
Proof.
  repeat split.
Qed.

(** With the tokens [in-token] and [out-token], the sanitized input path
    is the recorded one, input token included. *)
Lemma sanitize_removes_output_token_run :
  sanitize (Sample.between "alice" "in-token" "out-token" false)
    (Sample.executed "http://in/api/contents//a.ipynb?token=in-token"
       "http://out/api/contents/out/2024-01-31-1.2.3.4-a.ipynb?token=out-token")
    "input_path"
  = Ok (Sample.executed "http://in/api/contents//a.ipynb?token=in-token"
          "http://out/api/contents/out/2024-01-31-1.2.3.4-a.ipynb?token=out-token")
  /\ input_location (Sample.between "alice" "in-token" "out-token" false)
       (VStr "/a.ipynb")
     = Ok (VStr "http://in/api/contents//a.ipynb?token=in-token")
  /\ replace "?token=out-token" ""
       "http://in/api/contents//a.ipynb?token=in-token"
     = "http://in/api/contents//a.ipynb?token=in-token".
Proof.
  pose proof (sanitize_removes_output_token
                (Sample.between "alice" "in-token" "out-token" false)
                (Sample.executed
                   "http://in/api/contents//a.ipynb?token=in-token"
                   "http://out/api/contents/out/2024-01-31-1.2.3.4-a.ipynb?token=out-token")
                "input_path" "http://in/api/contents//a.ipynb?token=in-token"
                "out-token" eq_refl eq_refl) as (Hsan & Hloc).
  destruct (Hloc "http://in/api/contents" "/a.ipynb" "in-token"
              eq_refl eq_refl) as (Hin & Hkeep).
  exact (conj Hsan (conj Hin (Hkeep eq_refl eq_refl eq_refl))).
Defined.

(** C10, as stated, fails: the input token [xy] differs from the output
    token [x], and the input path a local run reports no longer holds it;
    the [y] left over follows the path. *)
Lemma input_token_cut_by_prefix_token :
  "xy" <> "x"
  /\ exists nb w',
      run_local Sample.repr Sample.output_of Sample.uuid Sample.escape
        Sample.connect Sample.load Sample.parameterize Sample.write
        Sample.execute Sample.day Sample.seconds Sample.round
        (Sample.between "alice" "xy" "x" false) (VStr "/a.ipynb") Sample.quiet
      = Return nb w'
      /\ papermill_field nb "input_path"
         = Ok (VStr "http://in/api/contents//a.ipynby")
      /\ is_substring "xy" "http://in/api/contents//a.ipynby" = false.
Proof.
  split; [discriminate|].
  eexists. eexists. split; [reflexivity|]. split; reflexivity.
Qed.

(** The rule of one request at a time refuses a trace that sends a second
    request while the first is pending, and one that sends it after a
    message for another request only. *)
Lemma one_at_a_time_refuses :
  one_at_a_time [ Sent (execute_request "token-0" (VStr "a = 1"));
                  Sent (execute_request "token-1" (VStr "print(a)")) ]
  = false
  /\ one_at_a_time [ Sent (execute_request "token-0" (VStr "a = 1"));
                     Received (Ok (Sample.reply "token-9" "stream" VNone));
                     Sent (execute_request "token-1" (VStr "print(a)")) ]
     = false
  /\ one_at_a_time [ Sent (execute_request "token-0" (VStr "a = 1"));
                     Received (Ok (Sample.reply "token-0" "stream" VNone));
                     Sent (execute_request "token-1" (VStr "print(a)")) ]
     = true.
Proof.
  repeat split.
Qed.

(** [str.replace] on three inputs, as Python has them. *)
Lemma replace_examples :
  replace "ab" "X" "aabab" = "aXX"
  /\ replace "aa" "b" "aaaaa" = "bba"
  /\ replace "" "-" "abc" = "-a-b-c-"
  /\ replace "http://" "ws://" "http://h/api/kernels" = "ws://h/api/kernels".
Proof.
  repeat split.
Qed.

(** A stream of two events, a blank line and a comment between them; a
    line that does not parse after them ends the stream, the ready event
    behind it is never reached. *)
Lemma event_stream_marked_lines_run :
  event_stream Sample.loads
    ["data: spawning"; ""; ": keep-alive"; "data: ready"]
  = [Ok (VDict Sample.spawning); Ok (VDict Sample.ready)]
  /\ event_stream Sample.loads
       ["data: spawning"; ""; ": keep-alive"; "data: ready"; "data: oops";
        "data: ready"]
     = [Ok (VDict Sample.spawning); Ok (VDict Sample.ready);
        Raise (ValueError "Expecting value")].
Proof.
  pose proof (event_stream_marked_lines Sample.loads
                ["data: spawning"; ""; ": keep-alive"; "data: ready"]
                [VDict Sample.spawning; VDict Sample.ready] eq_refl)
    as [Hall Hbad].
  split; [exact Hall|].
  exact (Hbad "data: oops" (ValueError "Expecting value") ["data: ready"]
              eq_refl eq_refl).
Defined.

(** A hub that does not list the server is asked to launch it and then
    lists it: GET, POST, GET, and the stream is opened.  A hub that still
    does not list it after the POST is not asked again: [KeyError]. *)
Lemma server_launched_when_absent_run :
  progress_stream Sample.repr (VStr "http://hub") (VStr "alice") "cortex_job"
    VNone
    (mkWorld [ Ok Sample.user_model_without_server; Ok VNone;
               Ok (Sample.user_model (VStr "spawn")) ]
             [["data: ready"]] [] 0 false [])
  = Return ["data: ready"]
      (mkWorld [] [] [] 0 false
         [ Requested "GET" "http://hub/hub/api/users/alice" VNone;
           Requested "POST" "http://hub/hub/api/users/alice/servers/cortex_job"
                     VNone;
           Requested "GET" "http://hub/hub/api/users/alice" VNone;
           StreamOpened "http://hub/hub/api/users/alice/progress" VNone ])
  /\ exists key,
      progress_stream Sample.repr (VStr "http://hub") (VStr "alice")
        "cortex_job" VNone
        (mkWorld [ Ok Sample.user_model_without_server; Ok VNone;
                   Ok Sample.user_model_without_server;
                   Ok (Sample.user_model (VStr "spawn")) ]
                 [["data: ready"]] [] 0 false [])
      = Throw (KeyError key)
          (mkWorld [Ok (Sample.user_model (VStr "spawn"))] [["data: ready"]] []
             0 false
             [ Requested "GET" "http://hub/hub/api/users/alice" VNone;
               Requested "POST"
                         "http://hub/hub/api/users/alice/servers/cortex_job"
                         VNone;
               Requested "GET" "http://hub/hub/api/users/alice" VNone ]).
Proof.
  split.
  - exact (proj1 (proj2 (server_launched_when_absent Sample.repr
                           (VStr "http://hub") (VStr "alice") "cortex_job"
                           VNone Sample.user_model_without_server
                           [Ok VNone; Ok (Sample.user_model (VStr "spawn"))]
                           (mkWorld [ Ok Sample.user_model_without_server;
                                      Ok VNone;
                                      Ok (Sample.user_model (VStr "spawn")) ]
                                    [["data: ready"]] [] 0 false [])
                           eq_refl)
                    eq_refl VNone (Sample.user_model (VStr "spawn")) []
                    eq_refl)
             [ ("pending", VStr "spawn");
               ("progress_url", VStr "/hub/api/users/alice/progress") ]
             (VStr "/hub/api/users/alice/progress") eq_refl eq_refl).
  - exact (proj2 (proj2 (server_launched_when_absent Sample.repr
                              (VStr "http://hub") (VStr "alice") "cortex_job"
                              VNone Sample.user_model_without_server
                              [ Ok VNone; Ok Sample.user_model_without_server;
                                Ok (Sample.user_model (VStr "spawn")) ]
                              (mkWorld [ Ok Sample.user_model_without_server;
                                         Ok VNone;
                                         Ok Sample.user_model_without_server;
                                         Ok (Sample.user_model (VStr "spawn")) ]
                                       [["data: ready"]] [] 0 false [])
                              eq_refl)
                       eq_refl VNone Sample.user_model_without_server
                       [Ok (Sample.user_model (VStr "spawn"))] eq_refl)
                    eq_refl).
Defined.

(** A progress stream whose second event does not parse: the call ends in
    the parser's exception, and the ready event behind it is not pulled. *)
Lemma start_server_broken_stream_run :
  start_server Sample.repr Sample.loads (VStr "http://hub") (VStr "alice")
    "cortex_job" VNone
    (Sample.hub ["data: spawning"; "data: oops"; "data: ready"])
  = Throw (ValueError "Expecting value")
      (mkWorld [] [] [] 0 false
         [ Requested "GET" "http://hub/hub/api/users/alice" VNone;
           StreamOpened "http://hub/hub/api/users/alice/progress" VNone;
           yielded Sample.spawning;
           Yielded (Raise (ValueError "Expecting value")) ]).
Proof.
  exact (proj1 (start_server_broken_stream Sample.repr Sample.loads
                  (VStr "http://hub") (VStr "alice") "cortex_job" VNone
                  ["data: spawning"; "data: oops"; "data: ready"]
                  (Sample.hub ["data: spawning"; "data: oops"; "data: ready"])
                  (mkWorld [] [] [] 0 false
                     [ Requested "GET" "http://hub/hub/api/users/alice" VNone;
                       StreamOpened "http://hub/hub/api/users/alice/progress"
                                    VNone ])
                  [Sample.spawning] eq_refl eq_refl)
           (ValueError "Expecting value") eq_refl).
Defined.

(** The endpoint of [alice] on a hub: the server the hub reports is kept,
    and the three URIs hang off it. *)
Lemma http_endpoint_configuration_run :
  exists url,
    VStr "http://hub/user/alice/cortex_job/" = VStr url
    /\ initialize_path Sample.repr Sample.handler_of Sample.loads
         (Sample.job [("any_handler_http_user", VStr "alice")])
         (VStr "http://hub") (VStr "tok") (VBool true)
         (Sample.hub ["data: ready"])
       = Return
           (VDict
              [ ("hostname", VStr "http://hub");
                ("handler_type", VClass HttpHandler);
                ("handler_http_service_api_token", VStr "tok");
                ("handler_http_is_jupyterhub", VBool true);
                ("handler_http_headers",
                 VDict [("Authorization", VStr "token tok")]);
                ("handler_http_user", VStr "alice");
                ("server", VStr "http://hub/user/alice/cortex_job/");
                ("server_uri_http_api_contents", VStr (url ++ "api/contents"));
                ("server_uri_http_api_kernels", VStr (url ++ "api/kernels"));
                ("server_uri_ws_api_kernels",
                 VStr (replace "http://" "ws://" (url ++ "api/kernels"))) ])
           (mkWorld [] [] [] 0 false
              [ Requested "GET" "http://hub/hub/api/users/alice"
                  (VDict [("Authorization", VStr "token tok")]);
                StreamOpened "http://hub/hub/api/users/alice/progress"
                  (VDict [("Authorization", VStr "token tok")]);
                yielded Sample.ready ]).
Proof.
  exact (proj2 (http_endpoint_configuration Sample.repr Sample.handler_of
                  Sample.loads
                  (Sample.job [("any_handler_http_user", VStr "alice")])
                  "http://hub" (VStr "tok") (VBool true) (VStr "alice")
                  (Sample.hub ["data: ready"])
                  eq_refl eq_refl eq_refl eq_refl)
           eq_refl).
Defined.

(** The round of [/a.ipynb] on a channel that answers its code cell with a
    stream message: the load, the exchange, the write, and the record with
    its three entries. *)
Lemma remote_notebook_record_run :
  exists (nb : value) (w' : world) (exchange : list event)
         (written : list (string * value)),
    execute_path Sample.repr Sample.output_of Sample.uuid Sample.load
      Sample.parameterize Sample.write Sample.day Sample.seconds
      (Sample.between "alice" "in-token" "out-token" true) (VStr "/a.ipynb")
      (Sample.listening [Sample.reply "token-0" "stream" (VStr "1")])
    = Return nb w'
    /\ since (Sample.listening [Sample.reply "token-0" "stream" (VStr "1")]) w'
       = Loaded "http://in/api/contents//a.ipynb?token=in-token"
         :: exchange
         ++ [Written (VDict written)
               "http://out/api/contents/out/2024-01-31-1.2.3.4-a.ipynb?token=out-token"]
    /\ forallb exchange_event exchange = true
    /\ getitem nb "duration" = Ok (VInt 1)
    /\ getitem nb "output_notebook"
       = Ok (VStr "http://out//user/alice/tree/out/2024-01-31-1.2.3.4-a.ipynb")
    /\ getitem nb "name" = Ok (VStr "/a.ipynb").
Proof.
  destruct (remote_notebook_record Sample.repr Sample.output_of Sample.uuid
              Sample.load Sample.parameterize Sample.write Sample.day
              Sample.seconds
              (Sample.between "alice" "in-token" "out-token" true)
              (VStr "/a.ipynb") _
              (Sample.listening [Sample.reply "token-0" "stream" (VStr "1")])
              _ eq_refl)
    as (url & out & direct & written & exchange & Hloc & Hpaths & Hsince
        & Hex & _ & _ & Hd & Ho & Hn).
  vm_compute in Hloc. injection Hloc as <-.
  vm_compute in Hpaths. injection Hpaths as <- <-.
  eexists. eexists. exists exchange, written.
  split; [reflexivity|].
  exact (conj Hsince (conj Hex (conj Hd (conj Ho Hn)))).
Defined.

(** The entry of that record in a report of HTML only: four things. *)
Lemma remote_report_entry_run :
  any_only_html (Sample.between "alice" "in-token" "out-token" true)
  <> VBool false
  /\ exists (nb : value) (w' : world),
      execute_path Sample.repr Sample.output_of Sample.uuid Sample.load
        Sample.parameterize Sample.write Sample.day Sample.seconds
        (Sample.between "alice" "in-token" "out-token" true) (VStr "/a.ipynb")
        (Sample.listening [Sample.reply "token-0" "stream" (VStr "1")])
      = Return nb w'
      /\ convert Sample.html
           (Sample.between "alice" "in-token" "out-token" true) nb
         = Ok (VDict
                 [ ("name", VStr "/a.ipynb");
                   ("duration", VInt 1);
                   ("output_notebook",
                    VStr "http://out//user/alice/tree/out/2024-01-31-1.2.3.4-a.ipynb");
                   ("html", VStr "<html/>") ]).
Proof.
  assert (Hhtml : any_only_html
                    (Sample.between "alice" "in-token" "out-token" true)
                  <> VBool false) by discriminate.
  split; [exact Hhtml|].
  destruct (remote_report_entry Sample.repr Sample.output_of Sample.uuid
              Sample.load Sample.parameterize Sample.write Sample.day
              Sample.seconds Sample.html
              (Sample.between "alice" "in-token" "out-token" true)
              (VStr "/a.ipynb") _ (VStr "<html/>")
              (Sample.listening [Sample.reply "token-0" "stream" (VStr "1")])
              _ eq_refl eq_refl)
    as (out & direct & Hpaths & Hshort & _).
  vm_compute in Hpaths. injection Hpaths as <- <-.
  eexists. eexists. split; [reflexivity|]. exact (Hshort Hhtml).
Defined.

(** A remote run of one notebook: one POST for a kernel, one connection
    to the channels of the kernel [k1], the round of the notebook, and the
    close. *)
Lemma remote_run_shares_one_kernel_run :
  exists (results : list value) (w' : world) (session : list event),
    execute_notebook_remotely Sample.repr Sample.output_of Sample.uuid
      Sample.escape Sample.connect Sample.load Sample.parameterize
      Sample.write Sample.day Sample.seconds
      (Sample.between "alice" "in-token" "out-token" true)
      (Sample.server [Sample.reply "token-0" "stream" (VStr "1")])
    = Return results w'
    /\ length results = 1
    /\ since (Sample.server [Sample.reply "token-0" "stream" (VStr "1")]) w'
       = Requested "POST" "http://in/api/kernels"
           (VDict [("Authorization", VStr "token in-token")])
         :: Connected "ws://in/api/kernels/k1/channels"
              (VDict [("Authorization", VStr "token in-token")])
         :: session ++ [Closed]
    /\ forallb session_event session = true.
Proof.
  destruct (remote_run_shares_one_kernel Sample.repr Sample.output_of
              Sample.uuid Sample.escape Sample.connect Sample.load
              Sample.parameterize Sample.write Sample.day Sample.seconds
              (Sample.between "alice" "in-token" "out-token" true) _
              (Sample.server [Sample.reply "token-0" "stream" (VStr "1")])
              _ eq_refl)
    as (kernels & id & headers & ws & body & paths & session & Hk & Hh & Hws
        & Hbody & Hid & Hpaths & Hlen & Hsince & Hs).
  vm_compute in Hk. injection Hk as <-.
  vm_compute in Hh. injection Hh as <-.
  vm_compute in Hws. injection Hws as <-.
  vm_compute in Hbody. injection Hbody as <-.
  vm_compute in Hid. injection Hid as <-.
  vm_compute in Hpaths. injection Hpaths as <-.
  eexists. eexists. exists session. split; [reflexivity|].
  exact (conj Hlen (conj Hsince Hs)).
Defined.

(** Three notebooks, the second of which the kernel answers with an error:
    the rounds end there, in the analyzer's error; the third notebook is
    never loaded. *)
Lemma failed_notebook_ends_rounds_run :
  exists (records : list value) (w1 w2 : world),
    execute_paths Sample.repr Sample.output_of Sample.uuid Sample.load
      Sample.parameterize Sample.write Sample.day Sample.seconds
      (Sample.between "alice" "in-token" "out-token" true) [VStr "/a.ipynb"]
      (Sample.listening [ Sample.reply "token-0" "stream" (VStr "1");
                          Sample.reply "token-1" "error" VNone ])
    = Return records w1
    /\ execute_path Sample.repr Sample.output_of Sample.uuid Sample.load
         Sample.parameterize Sample.write Sample.day Sample.seconds
         (Sample.between "alice" "in-token" "out-token" true)
         (VStr "/b.ipynb") w1
       = Throw (AnalyzerError
           "ERROR - Something went wrong during the code processing. Remote kernel returns: {...}")
           w2
    /\ execute_paths Sample.repr Sample.output_of Sample.uuid Sample.load
         Sample.parameterize Sample.write Sample.day Sample.seconds
         (Sample.between "alice" "in-token" "out-token" true)
         [VStr "/a.ipynb"; VStr "/b.ipynb"; VStr "/c.ipynb"]
         (Sample.listening [ Sample.reply "token-0" "stream" (VStr "1");
                             Sample.reply "token-1" "error" VNone ])
       = Throw (AnalyzerError
           "ERROR - Something went wrong during the code processing. Remote kernel returns: {...}")
           w2.
Proof.
  eexists. eexists. eexists.
  split; [reflexivity|]. split; [reflexivity|].
  exact (failed_notebook_ends_rounds Sample.repr Sample.output_of Sample.uuid
           Sample.load Sample.parameterize Sample.write Sample.day
           Sample.seconds
           (Sample.between "alice" "in-token" "out-token" true)
           [VStr "/a.ipynb"] [VStr "/c.ipynb"] (VStr "/b.ipynb") _ _
           (Sample.listening [ Sample.reply "token-0" "stream" (VStr "1");
                               Sample.reply "token-1" "error" VNone ])
           _ _ eq_refl eq_refl).
Defined.


(** The local round of [/a.ipynb]: papermill is given the input location
    with the input token and the output location with the output token. *)
Lemma local_notebook_record_run :
  exists (nb : value) (w' : world),
    run_local Sample.repr Sample.output_of Sample.uuid Sample.escape
      Sample.connect Sample.load Sample.parameterize Sample.write
      Sample.execute Sample.day Sample.seconds Sample.round
      (Sample.between "alice" "in-token" "out-token" false) (VStr "/a.ipynb")
      Sample.quiet
    = Return nb w'
    /\ w' = log (ExecutedLocally
                   "http://in/api/contents//a.ipynb?token=in-token"
                   "http://out/api/contents/out/2024-01-31-1.2.3.4-a.ipynb?token=out-token")
                Sample.quiet
    /\ getitem nb "output_notebook"
       = Ok (VStr "http://out//user/alice/tree/out/2024-01-31-1.2.3.4-a.ipynb")
    /\ getitem nb "name" = Ok (VStr "/a.ipynb").
Proof.
  destruct (local_notebook_record Sample.repr Sample.output_of Sample.uuid
              Sample.escape Sample.connect Sample.load Sample.parameterize
              Sample.write Sample.execute Sample.day Sample.seconds
              Sample.round
              (Sample.between "alice" "in-token" "out-token" false)
              (VStr "/a.ipynb") _ Sample.quiet _ eq_refl eq_refl)
    as (input & out & handler_type & direct & params & raw & clean & rounded
        & duration & Hh & Hin & Hout & _ & Hw & _ & _ & _ & _ & entries & _
        & _ & _ & Ho & Hn).
  vm_compute in Hh. injection Hh as <-.
  vm_compute in Hin. injection Hin as <-.
  vm_compute in Hout. injection Hout as <- <-.
  eexists. eexists. split; [reflexivity|].
  exact (conj Hw (conj Ho Hn)).
Defined.

(** The output path papermill recorded for [/a.ipynb] is reported without
    the output token. *)
Lemma sanitize_strips_output_token_run :
  sanitize (Sample.between "alice" "in-token" "out-token" false)
    (Sample.executed "http://in/api/contents//a.ipynb?token=in-token"
       "http://out/api/contents/out/2024-01-31-1.2.3.4-a.ipynb?token=out-token")
    "output_path"
  = Ok (Sample.executed "http://in/api/contents//a.ipynb?token=in-token"
          "http://out/api/contents/out/2024-01-31-1.2.3.4-a.ipynb")
  /\ exists direct,
      output_locations Sample.day
        (Sample.between "alice" "in-token" "out-token" false) (VStr "/a.ipynb")
      = Ok (VStr "http://out/api/contents/out/2024-01-31-1.2.3.4-a.ipynb?token=out-token",
            direct).
Proof.
  pose proof (sanitize_strips_output_token Sample.day
                (Sample.between "alice" "in-token" "out-token" false)
                (Sample.executed
                   "http://in/api/contents//a.ipynb?token=in-token"
                   "http://out/api/contents/out/2024-01-31-1.2.3.4-a.ipynb?token=out-token")
                "output_path"
                "http://out/api/contents/out/2024-01-31-1.2.3.4-a.ipynb"
                "out-token" eq_refl eq_refl eq_refl eq_refl) as [Hs Hl].
  split; [exact Hs|].
  exact (Hl "http://out/api/contents" "http://out/" "alice" "/out/" "1.2.3.4"
            "/a.ipynb" eq_refl eq_refl eq_refl eq_refl eq_refl eq_refl
            eq_refl).
Defined.

(** The report of a local run of [/a.ipynb] has no summary. *)
Lemma summary_of_own_report_run :
  In (Reported
        (VDict [("notebooks",
                 VList [VDict
                   [ ("name", VStr "/a.ipynb");
                     ("duration", VInt 2);
                     ("output_notebook",
                      VStr "http://out//user/alice/tree/out/2024-01-31-1.2.3.4-a.ipynb");
                     ("html", VStr "<html/>") ]])]))
     (since Sample.quiet
        (final (run Sample.repr Sample.output_of Sample.uuid Sample.escape
                  Sample.connect Sample.load Sample.parameterize Sample.write
                  Sample.execute Sample.day Sample.seconds Sample.round
                  Sample.html
                  (Sample.between "alice" "in-token" "out-token" false)
                  Sample.quiet)))
  /\ summary
       (VDict [("notebooks",
                VList [VDict
                  [ ("name", VStr "/a.ipynb");
                    ("duration", VInt 2);
                    ("output_notebook",
                     VStr "http://out//user/alice/tree/out/2024-01-31-1.2.3.4-a.ipynb");
                    ("html", VStr "<html/>") ]])])
     = Raise (KeyError "savedsearches").
Proof.
  assert (Hin : In (Reported
                      (VDict [("notebooks",
                               VList [VDict
                                 [ ("name", VStr "/a.ipynb");
                                   ("duration", VInt 2);
                                   ("output_notebook",
                                    VStr "http://out//user/alice/tree/out/2024-01-31-1.2.3.4-a.ipynb");
                                   ("html", VStr "<html/>") ]])]))
                   (since Sample.quiet
                      (final (run Sample.repr Sample.output_of Sample.uuid
                                Sample.escape Sample.connect Sample.load
                                Sample.parameterize Sample.write
                                Sample.execute Sample.day Sample.seconds
                                Sample.round Sample.html
                                (Sample.between "alice" "in-token" "out-token"
                                   false)
                                Sample.quiet))))
    by (right; left; reflexivity).
  split; [exact Hin|].
  exact (summary_of_own_report Sample.repr Sample.output_of Sample.uuid
           Sample.escape Sample.connect Sample.load Sample.parameterize
           Sample.write Sample.execute Sample.day Sample.seconds Sample.round
           Sample.html (Sample.between "alice" "in-token" "out-token" false)
           Sample.quiet _ Hin).
Defined.

(** Two saved searches, the second with levels: five results in all, one
    of the level info, two suspicious, none safe or malicious. *)
Lemma summary_taxonomies_run :
  summary
    (VDict [("savedsearches",
             VList [ VDict [("resultCount", VInt 2)];
                     VDict [ ("resultCount", VInt 3);
                             ("levels",
                              VDict [ ("info", VInt 1); ("safe", VInt 0);
                                      ("suspicious", VInt 2);
                                      ("malicious", VInt 0) ]) ] ])])
  = Ok (VDict [("taxonomies",
                VList [ taxonomy "suspicious" "Results" (VInt 5);
                        taxonomy "info" "Info" (VInt 1);
                        taxonomy "suspicious" "Suspicious" (VInt 2) ])]).
Proof.
  refine (summary_taxonomies
            (VDict [("savedsearches",
                     VList [ VDict [("resultCount", VInt 2)];
                             VDict [ ("resultCount", VInt 3);
                                     ("levels",
                                      VDict [ ("info", VInt 1);
                                              ("safe", VInt 0);
                                              ("suspicious", VInt 2);
                                              ("malicious", VInt 0) ]) ] ])])
            [ VDict [("resultCount", VInt 2)];
              VDict [ ("resultCount", VInt 3);
                      ("levels",
                       VDict [ ("info", VInt 1); ("safe", VInt 0);
                               ("suspicious", VInt 2);
                               ("malicious", VInt 0) ]) ] ]
            [ mkSearch 2 None; mkSearch 3 (Some (1, 0, 2, 0)%Z) ]
            eq_refl _).
  constructor; [split; reflexivity|].
  constructor; [|constructor].
  split; [reflexivity|]. split; [reflexivity|].
  eexists. split; [reflexivity|]. repeat split.
Defined.

(** A job of two plain servers: the analyzer is constructed, and the world
    is as it was. *)
Lemma plain_endpoints_need_no_network_run :
  final
    (init Sample.repr Sample.handler_of Sample.loads
       (Sample.job [ ("input_hostname", VStr "http://in/");
                     ("input_handler_http_service_api_token", VStr "in-token");
                     ("input_handler_http_is_jupyterhub", VBool false);
                     ("input_paths", VList [VStr "/a.ipynb"]);
                     ("input_handler_http_execute_remotely", VBool true);
                     ("output_hostname", VStr "http://out/");
                     ("output_handler_http_service_api_token", VStr "out-token");
                     ("output_handler_http_is_jupyterhub", VBool false);
                     ("output_folder", VStr "/out/");
                     ("any_only_html", VBool true);
                     ("any_handler_http_user", VStr "alice") ])
       Sample.quiet)
  = Sample.quiet
  /\ observed
       (init Sample.repr Sample.handler_of Sample.loads
          (Sample.job [ ("input_hostname", VStr "http://in/");
                        ("input_handler_http_service_api_token", VStr "in-token");
                        ("input_handler_http_is_jupyterhub", VBool false);
                        ("input_paths", VList [VStr "/a.ipynb"]);
                        ("input_handler_http_execute_remotely", VBool true);
                        ("output_hostname", VStr "http://out/");
                        ("output_handler_http_service_api_token", VStr "out-token");
                        ("output_handler_http_is_jupyterhub", VBool false);
                        ("output_folder", VStr "/out/");
                        ("any_only_html", VBool true);
                        ("any_handler_http_user", VStr "alice") ])
          Sample.quiet)
     = Some (Ok (mkAnalyzer
                   (Sample.job
                      [ ("input_hostname", VStr "http://in/");
                        ("input_handler_http_service_api_token", VStr "in-token");
                        ("input_handler_http_is_jupyterhub", VBool false);
                        ("input_paths", VList [VStr "/a.ipynb"]);
                        ("input_handler_http_execute_remotely", VBool true);
                        ("output_hostname", VStr "http://out/");
                        ("output_handler_http_service_api_token", VStr "out-token");
                        ("output_handler_http_is_jupyterhub", VBool false);
                        ("output_folder", VStr "/out/");
                        ("any_only_html", VBool true);
                        ("any_handler_http_user", VStr "alice") ])
                   (Sample.endpoint "http://in/" "in-token" "alice")
                   (VList [VStr "/a.ipynb"]) (VBool true)
                   (Sample.endpoint "http://out/" "out-token" "alice")
                   (VStr "/out/") (VBool true))).
Proof.
  split; [|reflexivity].
  apply plain_endpoints_need_no_network; discriminate.
Defined.

(** An analyzer constructed on two local folders has no configuration, and
    its output locations cannot be built. *)
Lemma constructed_endpoints_are_http_run :
  exists self : analyzer,
    init Sample.repr Sample.handler_of Sample.loads
      (Sample.job [ ("input_hostname", VStr "/notebooks/");
                    ("input_handler_http_service_api_token", VStr "");
                    ("input_handler_http_is_jupyterhub", VBool true);
                    ("input_paths", VList [VStr "/a.ipynb"]);
                    ("input_handler_http_execute_remotely", VBool false);
                    ("output_hostname", VStr "/results/");
                    ("output_handler_http_service_api_token", VStr "");
                    ("output_handler_http_is_jupyterhub", VBool true);
                    ("output_folder", VStr "/out/");
                    ("any_only_html", VBool true) ])
      Sample.quiet
    = Return self Sample.quiet
    /\ (input_configuration self = VNone
        \/ get_conf self "input" "handler_type" = Ok (VClass HttpHandler))
    /\ (output_configuration self = VNone
        \/ get_conf self "output" "handler_type" = Ok (VClass HttpHandler))
    /\ forall path : value,
        output_locations Sample.day self path = Raise TypeError
        \/ get_conf self "output" "handler_type" = Ok (VClass HttpHandler).
Proof.
  eexists. split; [reflexivity|].
  exact (constructed_endpoints_are_http Sample.repr Sample.handler_of
           Sample.loads Sample.day
           (Sample.job [ ("input_hostname", VStr "/notebooks/");
                         ("input_handler_http_service_api_token", VStr "");
                         ("input_handler_http_is_jupyterhub", VBool true);
                         ("input_paths", VList [VStr "/a.ipynb"]);
                         ("input_handler_http_execute_remotely", VBool false);
                         ("output_hostname", VStr "/results/");
                         ("output_handler_http_service_api_token", VStr "");
                         ("output_handler_http_is_jupyterhub", VBool true);
                         ("output_folder", VStr "/out/");
                         ("any_only_html", VBool true) ])
           _ Sample.quiet Sample.quiet eq_refl).
Defined.

(** On an endpoint that starts with [https://] the websocket URI is the
    kernels URI as it is; the name of the unnamed server of [alice] is
    [alice]. *)
Lemma uris_and_names_examples :
  with_uris (VStr "https://lab.example/") []
  = Ok [ ("server_uri_http_api_contents",
          VStr "https://lab.example/api/contents");
         ("server_uri_http_api_kernels",
          VStr "https://lab.example/api/kernels");
         ("server_uri_ws_api_kernels",
          VStr "https://lab.example/api/kernels") ]
  /\ log_name Sample.repr (VStr "alice") "" = "alice"
  /\ log_name Sample.repr (VStr "alice") "cortex_job/" = "alice/cortex_job".
Proof.
  repeat split.
Qed.

(** The analyzer of a job of two plain servers holds the configured
    [any_only_html]; the same job without that key is refused. *)
Lemma constructed_analyzer_reads_config_run :
  (exists self : analyzer,
      init Sample.repr Sample.handler_of Sample.loads
        (Sample.job [ ("input_hostname", VStr "http://in/");
                      ("input_handler_http_service_api_token", VStr "in-token");
                      ("input_handler_http_is_jupyterhub", VBool false);
                      ("input_paths", VList [VStr "/a.ipynb"]);
                      ("input_handler_http_execute_remotely", VBool true);
                      ("output_hostname", VStr "http://out/");
                      ("output_handler_http_service_api_token", VStr "out-token");
                      ("output_handler_http_is_jupyterhub", VBool false);
                      ("output_folder", VStr "/out/");
                      ("any_only_html", VBool false);
                      ("any_handler_http_user", VStr "alice") ])
        Sample.quiet
      = Return self Sample.quiet
      /\ lookup "any_only_html"
           [ ("input_hostname", VStr "http://in/");
             ("input_handler_http_service_api_token", VStr "in-token");
             ("input_handler_http_is_jupyterhub", VBool false);
             ("input_paths", VList [VStr "/a.ipynb"]);
             ("input_handler_http_execute_remotely", VBool true);
             ("output_hostname", VStr "http://out/");
             ("output_handler_http_service_api_token", VStr "out-token");
             ("output_handler_http_is_jupyterhub", VBool false);
             ("output_folder", VStr "/out/");
             ("any_only_html", VBool false);
             ("any_handler_http_user", VStr "alice") ]
         = Some (any_only_html self)
      /\ any_only_html self <> VNone)
  /\ observed
       (init Sample.repr Sample.handler_of Sample.loads
          (Sample.job [ ("input_hostname", VStr "http://in/");
                        ("input_handler_http_service_api_token", VStr "in-token");
                        ("input_handler_http_is_jupyterhub", VBool false);
                        ("input_paths", VList [VStr "/a.ipynb"]);
                        ("input_handler_http_execute_remotely", VBool true);
                        ("output_hostname", VStr "http://out/");
                        ("output_handler_http_service_api_token", VStr "out-token");
                        ("output_handler_http_is_jupyterhub", VBool false);
                        ("output_folder", VStr "/out/");
                        ("any_handler_http_user", VStr "alice") ])
          Sample.quiet)
     = Some (Raise (AnalyzerError
         "You must identify if you want to HTML response only for long reports")).
Proof.
  split; [|reflexivity].
  eexists. split; [reflexivity|].
  exact (proj1 (proj2 (proj2 (proj2 (proj2
           (constructed_analyzer_reads_config Sample.repr Sample.handler_of
              Sample.loads
              (Sample.job
                 [ ("input_hostname", VStr "http://in/");
                   ("input_handler_http_service_api_token", VStr "in-token");
                   ("input_handler_http_is_jupyterhub", VBool false);
                   ("input_paths", VList [VStr "/a.ipynb"]);
                   ("input_handler_http_execute_remotely", VBool true);
                   ("output_hostname", VStr "http://out/");
                   ("output_handler_http_service_api_token", VStr "out-token");
                   ("output_handler_http_is_jupyterhub", VBool false);
                   ("output_folder", VStr "/out/");
                   ("any_only_html", VBool false);
                   ("any_handler_http_user", VStr "alice") ])
              _ _ _ Sample.quiet Sample.quiet eq_refl eq_refl eq_refl)))))).
Defined.
